(** * HealthyText SMS system: delivery scheduling and conversation state

    A shallow embedding of the scheduler (scheduler.js, the second half of
    src/adminSummary.js), the priority injector (src/messageInjector.js), the
    reply handler (responseHandler.js, src/unnamed/part_008) and the phone
    normalisers (src/wordpressSync.js, src/test-phone-matching.js, src/app.js),
    with the properties the specification states about them; then the runs
    over the registry and the injection pipeline of the same files, and the
    sync from the site (src/wordpressSync.js: zone validation, registration,
    welcome message, immediate queue, trial form), with further properties
    of the code.

    Conventions of the model.
    - SQL tables are finite maps keyed by their primary key (users by
      phone_number, daily_limits by (phone_number, date)) or row lists in
      rowid order (messages, message_history, pending_messages).  Columns
      the modelled functions neither read nor write are left out.
    - Instants (ISO timestamps, [new Date()], [moment()]) are milliseconds
      since the epoch, in [Z]; one call of an operation sees one instant.  A
      calendar date 'YYYY-MM-DD' is its day number since 1970-01-01.
    - users.timezone is a string in the model; the empty string stands for
      the falsy values of the column, NULL and '' (the column is nullable and
      defaults to 'America/Chicago'): it is what [user.timezone ||
      'America/Chicago'] replaces in the scheduler, and what makes
      [moment().tz(userTimezone)] return [undefined] in the injector.
    - [Date]'s local getters and setters work in the zone of the server's
      own clock; the zone database answers for that zone under the name
      [Moment.local].
    - Strings are byte strings; the character classes of the regular
      expressions ([\d], [\s], [A-D]) and the case mappings are their ASCII
      versions.
    - The transport ([sendMessageFunction]) is the injected collaborator: it
      answers success or failure, and every dispatch is appended to an
      outbox.  The function the server injects (sendMessage of app.js)
      writes to the store on its own account: it records the delivery and
      marks the recipient of an interactive text as awaiting; these writes
      are [App.recordSend], they are not part of [send], and the statements
      about a component that sends say which of its effects they leave to
      the transport.
    - A loop that waits between its turns takes a clock, [nat -> Env], which
      gives the surroundings of each turn.
    - Store reads and writes succeed; the only promise that rejects in the
      model is the one the source rejects by itself (see
      [Scheduler.getNextMessage]). *)

From Stdlib Require Import ZArith String Ascii List Bool Lia DecimalString.
From stdpp Require Import base option list gmap strings numbers.

Local Open Scope string_scope.
Local Open Scope Z_scope.

(** ** JavaScript string primitives used by the sources *)

Module Js.

Definition code (c : ascii) : N := N_of_ascii c.

(** [\d] *)
Definition isDigit (c : ascii) : bool :=
  ((48 <=? code c) && (code c <=? 57))%N.

(** [\s], ASCII part: tab, line feed, vertical tab, form feed, carriage
    return, space. *)
Definition isSpace (c : ascii) : bool :=
  (((9 <=? code c) && (code c <=? 13)) || (code c =? 32))%N.

Definition toUpperChar (c : ascii) : ascii :=
  if ((97 <=? code c) && (code c <=? 122))%N
  then ascii_of_N (code c - 32) else c.

Definition toLowerChar (c : ascii) : ascii :=
  if ((65 <=? code c) && (code c <=? 90))%N
  then ascii_of_N (code c + 32) else c.

Fixpoint map (f : ascii -> ascii) (s : string) : string :=
  match s with
  | EmptyString => EmptyString
  | String c r => String (f c) (map f r)
  end.

Fixpoint filter (p : ascii -> bool) (s : string) : string :=
  match s with
  | EmptyString => EmptyString
  | String c r => if p c then String c (filter p r) else filter p r
  end.

Definition toUpperCase : string -> string := map toUpperChar.
Definition toLowerCase : string -> string := map toLowerChar.

Fixpoint trimStart (s : string) : string :=
  match s with
  | EmptyString => EmptyString
  | String c r => if isSpace c then trimStart r else s
  end.

Fixpoint rev_onto (s acc : string) : string :=
  match s with
  | EmptyString => acc
  | String c r => rev_onto r (String c acc)
  end.

Definition rev (s : string) : string := rev_onto s EmptyString.

Definition trim (s : string) : string := rev (trimStart (rev (trimStart s))).

Definition startsWith (s p : string) : bool := String.prefix p s.

(** [s.includes(p)] *)
Fixpoint includes (s p : string) : bool :=
  String.prefix p s ||
  match s with
  | EmptyString => false
  | String _ r => includes r p
  end.

(** [xs.join(sep)] *)
Fixpoint join (sep : string) (xs : list string) : string :=
  match xs with
  | [] => EmptyString
  | [x] => x
  | x :: r => x +:+ sep +:+ join sep r
  end.

(** Truthiness of a nullable TEXT column: NULL and the empty string are
    falsy. *)
Definition truthy (o : option string) : bool :=
  match o with
  | Some s => negb (String.eqb s EmptyString)
  | None => false
  end.

(** [a || b] on a nullable string. *)
Definition orElse (o : option string) (d : string) : string :=
  match o with
  | Some s => if String.eqb s EmptyString then d else s
  | None => d
  end.

(** [x IS NULL] *)
Definition isNull {A : Type} (o : option A) : bool :=
  match o with
  | None => true
  | Some _ => false
  end.

(** Decimal rendering of an integer inside a template literal. *)
Definition ofZ (z : Z) : string := NilZero.string_of_int (Z.to_int z).

(** The double quote character, for the messages that embed one. *)
Definition dquote : string := String (ascii_of_N 34) EmptyString.

End Js.

(** ** moment-timezone and Date

    The time library is outside the repository.  A zone database gives the
    UTC offset (minutes) of a named zone at an instant; the wall clock of a
    zone is the instant shifted by that offset. *)

Module Moment.

Definition TzDb : Type := string -> Z -> Z.

Definition msPerDay : Z := 86400000.

Definition wall (db : TzDb) (zone : string) (t : Z) : Z :=
  t + db zone t * 60000.

(** [moment(t).tz(zone).hour()] *)
Definition hour (db : TzDb) (zone : string) (t : Z) : Z :=
  (wall db zone t / 3600000) mod 24.

(** [moment(t).tz(zone).minute()] *)
Definition minute (db : TzDb) (zone : string) (t : Z) : Z :=
  (wall db zone t / 60000) mod 60.

(** [moment(t).tz(zone).day()], 0 = Sunday; 1970-01-01 was a Thursday. *)
Definition day (db : TzDb) (zone : string) (t : Z) : Z :=
  (wall db zone t / msPerDay + 4) mod 7.

(** [moment(t).tz(zone).format('YYYY-MM-DD')], as a day number. *)
Definition format_date (db : TzDb) (zone : string) (t : Z) : Z :=
  wall db zone t / msPerDay.

(** [a.diff(b, 'days')] for two moments of the same zone: the difference of
    the wall clocks in whole days, truncated toward zero. *)
Definition diff_days (db : TzDb) (zone : string) (a b : Z) : Z :=
  Z.quot (wall db zone a - wall db zone b) msPerDay.

(** [new Date(t).toISOString().split('T')[0]]: the UTC calendar date. *)
Definition utc_date (t : Z) : Z := t / msPerDay.

(** The name under which the zone database answers for the zone of the
    server's own clock. *)
Definition local : string := "(local)".

(** [d.setHours(d.getHours() + 24)] on [d = new Date(t)]: the instant at
    which the server's wall clock reads one calendar day more than at [t].
    With the same offset at both ends this is [t] plus 24 hours.  When the
    offset has changed, the reading is resolved with the new offset if the
    server's clock does show it under that offset (23 or 25 hours after [t]
    across a daylight-saving change); a reading that the change skips is
    resolved with the offset before the change, as [Date] does. *)
Definition addLocalDay (db : TzDb) (t : Z) : Z :=
  let before := db local t in
  let moved := t + msPerDay in
  let after := db local moved in
  if after =? before then moved
  else
    let shifted := moved + (before - after) * 60000 in
    if db local shifted =? after then shifted else moved.

Definition pad2 (n : Z) : string :=
  if n <? 10 then "0" +:+ Js.ofZ n else Js.ofZ n.

(** [moment(t).tz(zone).format('h:mm A')] *)
Definition format_hmmA (db : TzDb) (zone : string) (t : Z) : string :=
  let h := hour db zone t in
  Js.ofZ ((h + 11) mod 12 + 1) +:+ ":" +:+ pad2 (minute db zone t)
    +:+ (if h <? 12 then " AM" else " PM").

End Moment.

(** ** The tables *)

Record User := mkUser {
  protocol : string;
  user_type : string;
  current_sequence_position : Z;
  total_messages_sent : Z;
  subscription_status : string;
  trial_messages_sent : Z;
  post_trial_phase : Z;
  post_trial_day : Z;
  date_joined : Z;
  last_message_sent : option Z;
  timezone : string;
  first_name : option string;
  awaiting_response : option string;
  awaiting_response_since : option Z;
  stopped_at_position : option Z;
  date_modified : Z
}.

Record Message := mkMessage {
  id : string;
  number : option Z;
  msg_protocol : string;
  category : string;
  message_text : option string;  (* column [message] *)
  active : bool
}.

Record HistoryRow := mkHistoryRow {
  h_phone_number : string;
  h_message_id : string;
  h_sent_timestamp : Z;
  h_user_responded : bool;
  h_response_timestamp : option Z
}.

Record PendingMessage := mkPending {
  pm_id : Z;
  pm_phone_number : string;
  pm_message_id : string;
  pm_priority : Z;
  pm_created_timestamp : Z;
  pm_status : string
}.

Record Outbound := mkOutbound {
  o_to : string;
  o_body : string;
  o_message_id : string
}.

Record LogEntry := mkLog {
  l_level : string;
  l_text : string
}.

Record Db := mkDb {
  users : gmap string User;
  daily_limits : gmap (string * Z) Z;
  messages : list Message;
  message_history : list HistoryRow;
  pending_messages : list PendingMessage;
  outbox : list Outbound;
  log : list LogEntry
}.

(** What the transport answers: [{success: true}] or
    [{success: false, error}]. *)
Inductive SendResult :=
| SendOk
| SendFailed (error : string).

Definition Transport : Type := string -> string -> string -> SendResult.

(** The surroundings of one call: zone database, transport, the instant of the
    call and the draw of [ORDER BY RANDOM()]. *)
Record Env := mkEnv {
  tzdb : Moment.TzDb;
  sendMessageFunction : Transport;
  now : Z;
  random : nat
}.

Definition set_users (d : Db) (us : gmap string User) : Db :=
  mkDb us (daily_limits d) (messages d) (message_history d)
       (pending_messages d) (outbox d) (log d).

Definition set_daily_limits (d : Db) (dl : gmap (string * Z) Z) : Db :=
  mkDb (users d) dl (messages d) (message_history d)
       (pending_messages d) (outbox d) (log d).

Definition set_messages (d : Db) (ms : list Message) : Db :=
  mkDb (users d) (daily_limits d) ms (message_history d)
       (pending_messages d) (outbox d) (log d).

Definition set_message_history (d : Db) (h : list HistoryRow) : Db :=
  mkDb (users d) (daily_limits d) (messages d) h
       (pending_messages d) (outbox d) (log d).

Definition set_pending_messages (d : Db) (p : list PendingMessage) : Db :=
  mkDb (users d) (daily_limits d) (messages d) (message_history d)
       p (outbox d) (log d).

Definition push_outbox (d : Db) (o : Outbound) : Db :=
  mkDb (users d) (daily_limits d) (messages d) (message_history d)
       (pending_messages d) (outbox d ++ [o]) (log d).

Definition push_log (d : Db) (l : LogEntry) : Db :=
  mkDb (users d) (daily_limits d) (messages d) (message_history d)
       (pending_messages d) (outbox d) (log d ++ [l]).

(** [await this.sendMessageFunction(phone, body, id)] *)
Definition send (e : Env) (d : Db) (phone body mid : string) : SendResult * Db :=
  (sendMessageFunction e phone body mid, push_outbox d (mkOutbound phone body mid)).

(** [this.logFunction(level, text, ...)] *)
Definition logFunction (d : Db) (level text : string) : Db :=
  push_log d (mkLog level text).

(** [SELECT * FROM messages WHERE id = ? AND active = 1] *)
Definition getMessage (d : Db) (mid : string) : option Message :=
  List.find (fun m => String.eqb (id m) mid && active m) (messages d).

(** [COALESCE((SELECT messages_sent FROM daily_limits WHERE phone_number = ?
    AND date = ?), 0)] *)
Definition messages_sent (d : Db) (phone : string) (date : Z) : Z :=
  default 0 (daily_limits d !! (phone, date)).

(** [INSERT OR REPLACE INTO daily_limits ... COALESCE(..., 0) + 1] *)
Definition bump_daily_limit (d : Db) (phone : string) (date : Z) : Db :=
  set_daily_limits d (<[(phone, date) := messages_sent d phone date + 1]> (daily_limits d)).

(** [messageText.replace(/\{name\}/g, firstName)]; the first name is taken
    literally. *)
Fixpoint replaceName (skip : nat) (rep : string) (s : string) : string :=
  match s with
  | EmptyString => EmptyString
  | String c r =>
      match skip with
      | S k => replaceName k rep r
      | O =>
          if String.prefix "{name}" s then rep +:+ replaceName 5 rep r
          else String c (replaceName 0 rep r)
      end
  end.

(** [messageText.replace(/\{name\}[,\s]*/g, '')] *)
Fixpoint stripName (skip : nat) (eat : bool) (s : string) : string :=
  match s with
  | EmptyString => EmptyString
  | String c r =>
      match skip with
      | S k => stripName k eat r
      | O =>
          if eat && (Ascii.eqb c "," || Js.isSpace c) then stripName 0 true r
          else if String.prefix "{name}" s then stripName 5 true r
          else String c (stripName 0 false r)
      end
  end.

(** [text.replace(/\s+/g, ' ')] *)
Fixpoint collapseSpaces (inrun : bool) (s : string) : string :=
  match s with
  | EmptyString => EmptyString
  | String c r =>
      if Js.isSpace c
      then (if inrun then collapseSpaces true r
            else String " " (collapseSpaces true r))
      else String c (collapseSpaces false r)
  end.

(** [personalizeMessage(messageText, firstName)]: the same text in the
    scheduler, the injector and the reply handler. *)
Definition personalizeMessage (messageText : option string) (firstName : option string) : string :=
  if negb (Js.truthy messageText) then EmptyString
  else
    let text := default EmptyString messageText in
    if Js.truthy firstName
    then replaceName 0 (default EmptyString firstName) text
    else Js.trim (collapseSpaces false (stripName 0 false text)).

(** [ORDER BY ... ASC] over a scan: a stable insertion sort, [le a b] being
    "the sort key of [a] is at most that of [b]".  Rows with equal keys keep
    the order of the scan; no statement below depends on that order. *)
Fixpoint insertBy {A : Type} (le : A -> A -> bool) (x : A) (l : list A) : list A :=
  match l with
  | [] => [x]
  | y :: r => if le x y then x :: l else y :: insertBy le x r
  end.

Fixpoint orderBy {A : Type} (le : A -> A -> bool) (l : list A) : list A :=
  match l with
  | [] => []
  | x :: r => insertBy le x (orderBy le r)
  end.

(** [subscription_status NOT IN ('stopped', 'expired')] *)
Definition notStoppedOrExpired (row : User) : bool :=
  negb (String.eqb (subscription_status row) "stopped"
        || String.eqb (subscription_status row) "expired").

(** [ORDER BY date_joined ASC] on rows of the users table. *)
Definition byDateJoined (a b : string * User) : bool :=
  date_joined a.2 <=? date_joined b.2.

(** ** The scheduler (scheduler.js) *)

Module Scheduler.

(** The [position] argument of [getNextMessage] as JavaScript sees it. *)
Inductive JsPosition :=
| PosNumber (n : Z)
| PosNull
| PosUndefined.

(** [{due: true, messageType, position, messageId}] or
    [{due: false, reason}]. *)
Inductive DueResult :=
| Due (messageType : string) (position : JsPosition) (messageId : option string)
| NotDue (reason : string).

Definition due (r : DueResult) : bool :=
  match r with
  | Due _ _ _ => true
  | NotDue _ => false
  end.

(** [{sent: true, message, messageId, userTimezone}],
    [{sent: false, reason}], or a rejected promise. *)
Inductive Outcome :=
| Sent (message messageId userTimezone : string)
| NotSent (reason : string)
| Threw (error : string).

Definition sent (o : Outcome) : bool :=
  match o with
  | Sent _ _ _ => true
  | _ => false
  end.

Definition zoneOf (tz : string) : string :=
  if String.eqb tz EmptyString then "America/Chicago" else tz.

(** [xs.indexOf(x)] *)
Fixpoint indexOf (xs : list Z) (x : Z) : Z :=
  match xs with
  | [] => -1
  | y :: r => if y =? x then 0 else
                let i := indexOf r x in if i <? 0 then -1 else i + 1
  end.

(** [xs.includes(x)] *)
Definition includes (xs : list Z) (x : Z) : bool :=
  existsb (fun y => y =? x) xs.

Definition checkPostTrialSchedule (daysSinceJoined : Z) : DueResult :=
  let phase1Days := [8; 10; 13; 17] in
  if includes phase1Days daysSinceJoined then
    let messageOrder := indexOf phase1Days daysSinceJoined + 1 in
    Due "post-trial-phase1" PosUndefined (Some ("ptmb" +:+ Js.ofZ messageOrder))
  else if includes [25; 33; 41] daysSinceJoined then
    Due "post-trial-phase2" PosUndefined None
  else if includes [71; 101; 131] daysSinceJoined then
    Due "post-trial-phase3" PosUndefined None
  else if (daysSinceJoined >=? 191) && (Z.rem (daysSinceJoined - 191) 60 =? 0) then
    Due "post-trial-phase4" PosUndefined None
  else NotDue "Not scheduled for post-trial message today".

Definition daysSinceLastMessage (e : Env) (user : User) : Z :=
  let userTimezone := zoneOf (timezone user) in
  let lastMessageDate := default (date_joined user) (last_message_sent user) in
  Moment.diff_days (tzdb e) userTimezone (now e) lastMessageDate.

Definition daysSinceJoined (e : Env) (user : User) : Z :=
  let userTimezone := zoneOf (timezone user) in
  Moment.diff_days (tzdb e) userTimezone (now e) (date_joined user).

Definition notDueYet : DueResult := NotDue "Not due for message yet".

Definition isUserDueForMessage (e : Env) (user : User) : DueResult :=
  if String.eqb (user_type user) "trial" then
    if trial_messages_sent user >=? 7 then
      checkPostTrialSchedule (daysSinceJoined e user)
    else if daysSinceLastMessage e user >=? 1 then
      Due "trial" (PosNumber (trial_messages_sent user + 1)) None
    else notDueYet
  else if String.eqb (user_type user) "subscriber" then
    if current_sequence_position user <=? 30 then
      if daysSinceLastMessage e user >=? 1 then
        Due "sequence" (PosNumber (current_sequence_position user)) None
      else notDueYet
    else
      if daysSinceLastMessage e user >=? 2 then
        Due "algorithm" PosNull None
      else notDueYet
  else notDueYet.

(** [ORDER BY RANDOM() LIMIT 1] over the rows that satisfy [p]. *)
Definition pickRandom (e : Env) (p : Message -> bool) (rows : list Message) : option Message :=
  let hits := List.filter p rows in
  nth_error hits (Nat.modulo (random e) (List.length hits)).

Definition eqNumber (n : option Z) (position : JsPosition) : bool :=
  match n, position with
  | Some a, PosNumber b => a =? b
  | _, _ => false
  end.

(** [getNextMessage(user, messageType, position)]: the row, or the
    TypeError of reading [position.messageId] off an undefined position. *)
Definition getNextMessage (e : Env) (d : Db) (user : User)
    (messageType : string) (position : JsPosition) : string + option Message :=
  if String.eqb messageType "trial" || String.eqb messageType "sequence" then
    inr (List.find (fun m => eqNumber (number m) position
                             && String.eqb (msg_protocol m) (protocol user)
                             && active m) (messages d))
  else if String.eqb messageType "algorithm" then
    inr (pickRandom e (fun m => Js.isNull (number m)
                                && String.eqb (msg_protocol m) (protocol user)
                                && active m) (messages d))
  else if String.eqb messageType "post-trial-phase1" then
    match position with
    | PosNumber _ => inr None
    | PosNull | PosUndefined =>
        inl "Cannot read properties of undefined (reading 'messageId')"
    end
  else
    inr (pickRandom e (fun m => String.eqb (category m) "Post-Trial" && active m)
                    (messages d)).

Record DailyCheck := mkDailyCheck {
  messagesSentToday : Z;
  userTimezone : string;
  localDate : Z
}.

(** [checkDailyLimit(phoneNumber)]: the zone is read back from the users
    table, the date is today's in that zone. *)
Definition checkDailyLimit (e : Env) (d : Db) (phoneNumber : string) : DailyCheck :=
  let userTimezone :=
    match users d !! phoneNumber with
    | Some userRow => zoneOf (timezone userRow)
    | None => "America/Chicago"
    end in
  let today := Moment.format_date (tzdb e) userTimezone (now e) in
  mkDailyCheck (messages_sent d phoneNumber today) userTimezone today.

(** The [UPDATE users SET ...] of [updateUserProgress] on one row. *)
Definition progressRow (nowIso : Z) (messageType : string) (row : User) : User :=
  mkUser (protocol row) (user_type row)
    (if String.eqb messageType "trial" then current_sequence_position row
     else if String.eqb messageType "sequence" then current_sequence_position row + 1
     else current_sequence_position row)
    (total_messages_sent row + 1)
    (subscription_status row)
    (if String.eqb messageType "trial" then trial_messages_sent row + 1
     else trial_messages_sent row)
    (post_trial_phase row) (post_trial_day row) (date_joined row)
    (Some nowIso)
    (timezone row) (first_name row)
    (awaiting_response row) (awaiting_response_since row)
    (stopped_at_position row)
    nowIso.

(** [updateUserProgress(user, messageInfo, messageId)] *)
Definition updateUserProgress (e : Env) (d : Db) (phone : string) (user : User)
    (messageType : string) : Db :=
  let userTimezone := zoneOf (timezone user) in
  let today := Moment.format_date (tzdb e) userTimezone (now e) in
  let d1 := set_users d (alter (progressRow (now e) messageType) phone (users d)) in
  bump_daily_limit d1 phone today.

(** [checkUserForMessage(user)], [user] being the row read by
    [getEligibleUsers] under the key [phone]. *)
Definition checkUserForMessage (e : Env) (d : Db) (phone : string) (user : User)
    : Outcome * Db :=
  let zone := zoneOf (timezone user) in
  let userHour := Moment.hour (tzdb e) zone (now e) in
  let userDay := Moment.day (tzdb e) zone (now e) in
  if userDay =? 0 then
    (NotSent ("Sunday rest day in " +:+ timezone user), d)
  else if (userHour <? 9) || (userHour >=? 18) then
    (NotSent ("Outside sending hours in " +:+ timezone user +:+ " ("
              +:+ Moment.format_hmmA (tzdb e) zone (now e) +:+ ")"), d)
  else if messagesSentToday (checkDailyLimit e d phone) >=? 4 then
    (NotSent "Daily limit reached (4 messages)", d)
  else
    match isUserDueForMessage e user with
    | NotDue reason => (NotSent reason, d)
    | Due messageType position _ =>
        match getNextMessage e d user messageType position with
        | inl err => (Threw err, d)
        | inr None => (NotSent "No message found for user position", d)
        | inr (Some m) =>
            let personalizedMessage := personalizeMessage (message_text m) (first_name user) in
            let '(sendResult, d1) := send e d phone personalizedMessage (id m) in
            match sendResult with
            | SendFailed err => (NotSent ("Send failed: " +:+ err), d1)
            | SendOk =>
                (Sent (String.substring 0 50 personalizedMessage +:+ "...")
                      (id m) (timezone user),
                 updateUserProgress e d1 phone user messageType)
            end
        end
    end.

(** [getEligibleUsers()] *)
Definition getEligibleUsers (d : Db) : list (string * User) :=
  orderBy byDateJoined
    (List.filter (fun r => notStoppedOrExpired r.2) (map_to_list (users d))).

(** The loop of [processMessageQueue()] from its [i]-th turn on: [clock i]
    is the surroundings of that turn (the loop waits between the
    recipients).  A turn that throws is logged and the loop goes on. *)
Fixpoint checkUsers (clock : nat -> Env) (i : nat) (rows : list (string * User)) (d : Db)
    : list Outcome * Db :=
  match rows with
  | [] => ([], d)
  | r :: rest =>
      let '(result, d1) := checkUserForMessage (clock i) d r.1 r.2 in
      let d2 :=
        match result with
        | Threw _ => logFunction d1 "error" ("Error processing user " +:+ r.1)
        | _ => d1
        end in
      let '(results, d3) := checkUsers clock (S i) rest d2 in
      (result :: results, d3)
  end.

Definition isThrew (o : Outcome) : bool :=
  match o with
  | Threw _ => true
  | _ => false
  end.

Definition count (p : Outcome -> bool) (results : list Outcome) : Z :=
  Z.of_nat (List.length (List.filter p results)).

(** [processMessageQueue()]: the outcomes of the turns, in order, and the
    store afterwards. *)
Definition processMessageQueue (clock : nat -> Env) (d : Db) : list Outcome * Db :=
  let d0 := logFunction d "info" "Starting timezone-aware scheduled message check" in
  let users := getEligibleUsers d0 in
  let '(results, d1) := checkUsers clock 0 users d0 in
  let usersChecked := count (fun o => negb (isThrew o)) results in
  let messagesSent := count sent results in
  (results,
   logFunction d1 "info"
     ("Timezone-aware check complete: " +:+ Js.ofZ usersChecked
      +:+ " users checked, " +:+ Js.ofZ messagesSent +:+ " messages sent")).

End Scheduler.

(** ** The priority injector (messageInjector.js) *)

Module Injector.

(** A pending row joined with its user, as [getPendingInjections] selects
    it. *)
Record Injection := mkInjection {
  row : PendingMessage;
  inj_first_name : option string;
  inj_timezone : string;
  inj_user_type : string
}.

(** [{sent: true}], [{sent: false, reason}], or the promise rejects with an
    error of this message. *)
Inductive Outcome :=
| Sent
| NotSent (reason : string)
| Threw (error : string).

Definition sent (o : Outcome) : bool :=
  match o with
  | Sent => true
  | NotSent _ => false
  | Threw _ => false
  end.

Definition threw (o : Outcome) : bool :=
  match o with
  | Threw _ => true
  | _ => false
  end.

(** [checkDailyLimit(phoneNumber)]: the date is
    [new Date().toISOString().split('T')[0]]. *)
Definition checkDailyLimit (e : Env) (d : Db) (phoneNumber : string) : Z :=
  let today := Moment.utc_date (now e) in
  messages_sent d phoneNumber today.

Inductive WindowCheck :=
| CanSend
| CannotSend (reason : string).

(** [isInSendingWindow(userTimezone)].  The default parameter only replaces
    [undefined], which a joined row never holds.  For a falsy name (NULL or
    the empty string) [moment().tz(userTimezone)] is the getter and returns
    [undefined], so [userTime.hour()] throws a TypeError ([inl], with V8's
    message). *)
Definition isInSendingWindow (e : Env) (userTimezone : string) : string + WindowCheck :=
  if String.eqb userTimezone EmptyString
  then inl "Cannot read properties of undefined (reading 'hour')"
  else
    let hour := Moment.hour (tzdb e) userTimezone (now e) in
    if (hour <? 9) || (hour >=? 18)
    then inr (CannotSend "Outside sending hours (9 AM - 6 PM)")
    else inr CanSend.

(** The [UPDATE users SET ...] of [updateUserAfterInjection] on one row. *)
Definition injectedRow (nowIso : Z) (row : User) : User :=
  mkUser (protocol row) (user_type row)
    (current_sequence_position row)
    (total_messages_sent row + 1)
    (subscription_status row)
    (trial_messages_sent row)
    (post_trial_phase row) (post_trial_day row) (date_joined row)
    (Some nowIso)
    (timezone row) (first_name row)
    (awaiting_response row) (awaiting_response_since row)
    (stopped_at_position row)
    nowIso.

(** [updateUserAfterInjection(phoneNumber)] *)
Definition updateUserAfterInjection (e : Env) (d : Db) (phoneNumber : string) : Db :=
  let today := Moment.utc_date (now e) in
  let d1 := set_users d (alter (injectedRow (now e)) phoneNumber (users d)) in
  bump_daily_limit d1 phoneNumber today.

(** [processSingleInjection(pendingMessage)] *)
Definition processSingleInjection (e : Env) (d : Db) (pendingMessage : Injection)
    : Outcome * Db :=
  let phone := pm_phone_number (row pendingMessage) in
  if checkDailyLimit e d phone >=? 4 then
    (NotSent "Daily limit reached (4 messages)", d)
  else
    match isInSendingWindow e (inj_timezone pendingMessage) with
    | inl error => (Threw error, d)
    | inr (CannotSend reason) => (NotSent reason, d)
    | inr CanSend =>
        match getMessage d (pm_message_id (row pendingMessage)) with
        | None => (NotSent "Message not found in database", d)
        | Some m =>
            let personalizedMessage :=
              personalizeMessage (message_text m) (inj_first_name pendingMessage) in
            let '(sendResult, d1) :=
              send e d phone personalizedMessage (pm_message_id (row pendingMessage)) in
            match sendResult with
            | SendFailed err => (NotSent ("Send failed: " +:+ err), d1)
            | SendOk => (Sent, updateUserAfterInjection e d1 phone)
            end
        end
    end.

(** [markInjectionProcessed(injectionId, status)] *)
Definition markInjectionProcessed (d : Db) (injectionId : Z) (status : string) : Db :=
  set_pending_messages d
    (List.map (fun p => if pm_id p =? injectionId
                        then mkPending (pm_id p) (pm_phone_number p) (pm_message_id p)
                                       (pm_priority p) (pm_created_timestamp p) status
                        else p)
              (pending_messages d)).

(** One turn of the loop of [processInjectionQueue]: the row is marked
    'sent' or 'skipped' after the [try], 'failed' in its [catch]. *)
Definition drainOne (e : Env) (d : Db) (pendingMessage : Injection) : Outcome * Db :=
  let '(result, d1) := processSingleInjection e d pendingMessage in
  (result,
   markInjectionProcessed d1 (pm_id (row pendingMessage))
     (match result with
      | Threw _ => "failed"
      | _ => if sent result then "sent" else "skipped"
      end)).

(** [addMessageToDatabase(messageId, messageText, protocol)]: INSERT OR
    REPLACE on the primary key [id]. *)
Definition addMessageToDatabase (d : Db) (messageId messageText protocol : string) : Db :=
  set_messages d
    (List.filter (fun m => negb (String.eqb (id m) messageId)) (messages d)
     ++ [mkMessage messageId None protocol "Manual" (Some messageText) true]).

(** [AND protocol = ?] *)
Definition follows (row : User) (program : string) : bool :=
  String.eqb (protocol row) program.

(** [getActiveUsers(protocol)] *)
Definition getActiveUsers (d : Db) (protocol : string) : list (string * User) :=
  let wanted (row : User) :=
    if negb (String.eqb protocol EmptyString) && negb (String.eqb protocol "ALL")
    then follows row protocol
    else true in
  orderBy byDateJoined
    (List.filter (fun r => notStoppedOrExpired r.2 && wanted r.2) (map_to_list (users d))).

(** [queueMessageForUsers(users, messageId, priority)].  The table's key is
    AUTOINCREMENT: [seq] is the largest rowid the table has held, and the
    rows inserted take the rowids after it.  Every row of the table has
    [is_manual_injection = 1], this function being its only writer. *)
Fixpoint queueMessageForUsers (e : Env) (seq : Z) (d : Db) (users : list (string * User))
    (messageId : string) (priority : Z) : Z * Db :=
  match users with
  | [] => (0, d)
  | user :: rest =>
      let d1 :=
        set_pending_messages d
          (pending_messages d
           ++ [mkPending (seq + 1) user.1 messageId priority (now e) "pending"]) in
      let '(queuedCount, d2) := queueMessageForUsers e (seq + 1) d1 rest messageId priority in
      (queuedCount + 1, d2)
  end.

(** [ORDER BY pm.priority ASC, pm.created_timestamp ASC] *)
Definition byPriorityThenCreated (a b : Injection) : bool :=
  (pm_priority (row a) <? pm_priority (row b))
  || ((pm_priority (row a) =? pm_priority (row b))
      && (pm_created_timestamp (row a) <=? pm_created_timestamp (row b))).

(** The JOIN of one pending row with the users table. *)
Definition joinUser (d : Db) (p : PendingMessage) : option Injection :=
  u ← users d !! pm_phone_number p;
  Some (mkInjection p (first_name u) (timezone u) (user_type u)).

(** [getPendingInjections()] *)
Definition getPendingInjections (d : Db) : list Injection :=
  orderBy byPriorityThenCreated
    (omap (joinUser d)
       (List.filter (fun p => String.eqb (pm_status p) "pending") (pending_messages d))).

(** [{sent, skipped, errors}]; an entry of [errors] is
    [{phoneNumber, error}]. *)
Record Results := mkResults {
  r_sent : Z;
  r_skipped : Z;
  r_errors : list (string * string)
}.

(** The loop of [processInjectionQueue()] from its [i]-th turn on. *)
Fixpoint drainFrom (clock : nat -> Env) (i : nat) (queue : list Injection) (d : Db)
    : list Outcome * Db :=
  match queue with
  | [] => ([], d)
  | pendingMessage :: rest =>
      let '(result, d1) := drainOne (clock i) d pendingMessage in
      let '(results, d2) := drainFrom clock (S i) rest d1 in
      (result :: results, d2)
  end.

(** The entry that the [catch] of a turn pushes on [results.errors]. *)
Definition errorOf (pendingMessage : Injection) (result : Outcome)
    : option (string * string) :=
  match result with
  | Threw error => Some (pm_phone_number (row pendingMessage), error)
  | _ => None
  end.

(** The counts and the errors of the turns: a turn adds to [sent], to
    [skipped], or an entry to [errors]. *)
Definition tally (queue : list Injection) (outcomes : list Outcome) : Results :=
  mkResults (Z.of_nat (List.length (List.filter sent outcomes)))
            (Z.of_nat (List.length
                         (List.filter (fun o => negb (sent o) && negb (threw o)) outcomes)))
            (omap (fun qo => errorOf qo.1 qo.2) (zip queue outcomes)).

(** [processInjectionQueue()] *)
Definition processInjectionQueue (clock : nat -> Env) (d : Db) : Results * Db :=
  let pendingMessages := getPendingInjections d in
  let '(outcomes, d1) := drainFrom clock 0 pendingMessages d in
  (tally pendingMessages outcomes, d1).

(** The argument of [injectMessage]; [None] is a field that is absent. *)
Record MessageData := mkMessageData {
  md_message : option string;
  md_messageId : option string;
  md_priority : option Z;
  md_protocol : option string
}.

Record Report := mkReport {
  rp_messageId : string;
  rp_protocol : string;
  usersFound : Z;
  usersQueued : Z;
  messagesSent : Z;
  messagesSkipped : Z;
  errors : list (string * string)
}.

(** [injectMessage(messageData)]: the report, or the error it rethrows after
    logging it.  [clock 0] is the instant of the queueing, [clock (S i)]
    that of the [i]-th turn of the drain. *)
Definition injectMessage (clock : nat -> Env) (seq : Z) (d : Db) (messageData : MessageData)
    : (string + Report) * Db :=
  let priority := default 1 (md_priority messageData) in
  let protocol := default "ALL" (md_protocol messageData) in
  if negb (Js.truthy (md_message messageData)) || negb (Js.truthy (md_messageId messageData))
  then
    let error := "Message content and messageId are required" in
    (inl error, logFunction d "error" ("Message injection failed: " +:+ error))
  else
    let message := default EmptyString (md_message messageData) in
    let messageId := default EmptyString (md_messageId messageData) in
    let d0 := logFunction d "info"
                ("Starting message injection: " +:+ messageId +:+ " (" +:+ protocol +:+ ")") in
    let d1 := addMessageToDatabase d0 messageId message protocol in
    let activeUsers := getActiveUsers d1 protocol in
    let d2 := logFunction d1 "info"
                ("Found " +:+ Js.ofZ (Z.of_nat (List.length activeUsers))
                 +:+ " active users for injection (" +:+ protocol +:+ ")") in
    let '(queuedCount, d3) :=
      queueMessageForUsers (clock O) seq d2 activeUsers messageId priority in
    let d4 := logFunction d3 "info"
                ("Queued message for " +:+ Js.ofZ queuedCount +:+ " users") in
    let '(sentResults, d5) := processInjectionQueue (fun i => clock (S i)) d4 in
    (inr (mkReport messageId protocol (Z.of_nat (List.length activeUsers)) queuedCount
                   (r_sent sentResults) (r_skipped sentResults) (r_errors sentResults)),
     d5).

(** [cleanupOldInjections()]: [cutoffDate] is the instant thirty calendar
    days before the call on the server's clock.  Returns the number of rows
    deleted. *)
Definition cleanupOldInjections (cutoffDate : Z) (d : Db) : Z * Db :=
  let old (p : PendingMessage) :=
    (String.eqb (pm_status p) "sent" || String.eqb (pm_status p) "skipped"
     || String.eqb (pm_status p) "failed")
    && (pm_created_timestamp p <? cutoffDate) in
  (Z.of_nat (List.length (List.filter old (pending_messages d))),
   set_pending_messages d (List.filter (fun p => negb (old p)) (pending_messages d))).

End Injector.

(** ** Phone normalisation with validation (wordpressSync.js,
    test-phone-matching.js) *)

Module WordPressSync.

(** [normalizePhoneNumber(phoneNumber)]; [None] is the [null] of a missing
    or invalid number. *)
Definition normalizePhoneNumber (phoneNumber : option string) : option string :=
  if negb (Js.truthy phoneNumber) then None
  else
    let normalized := Js.filter Js.isDigit (default EmptyString phoneNumber) in
    let normalized :=
      if (String.length normalized =? 10)%nat then "1" +:+ normalized
      else normalized in
    if negb (String.length normalized =? 11)%nat || negb (Js.startsWith normalized "1")
    then None
    else Some ("+" +:+ normalized).

(** What [validateTimezone] returns: a zone name, or the member that
    [timezoneMap[timezone]] finds on the prototype of the object literal
    when [timezone] is one of the names every object inherits. *)
Inductive Validated :=
| Zone (name : string)
| Inherited (name : string).

Definition validTimezones : list string :=
  [ "America/New_York"; "America/Chicago"; "America/Denver"; "America/Phoenix";
    "America/Los_Angeles"; "America/Anchorage"; "Pacific/Honolulu" ].

Definition timezoneMap : list (string * string) :=
  [ ("Eastern", "America/New_York");
    ("Central", "America/Chicago");
    ("Mountain", "America/Denver");
    ("Pacific", "America/Los_Angeles");
    ("EST", "America/New_York");
    ("CST", "America/Chicago");
    ("MST", "America/Denver");
    ("PST", "America/Los_Angeles");
    ("EDT", "America/New_York");
    ("CDT", "America/Chicago");
    ("MDT", "America/Denver");
    ("PDT", "America/Los_Angeles") ].

(** The members of [Object.prototype]; each is a function or an object, so
    truthy. *)
Definition inheritedNames : list string :=
  [ "constructor"; "hasOwnProperty"; "isPrototypeOf"; "propertyIsEnumerable";
    "toLocaleString"; "toString"; "valueOf"; "__defineGetter__";
    "__defineSetter__"; "__lookupGetter__"; "__lookupSetter__"; "__proto__" ].

(** [xs.includes(x)] on strings *)
Definition includes (xs : list string) (x : string) : bool :=
  existsb (String.eqb x) xs.

(** [timezoneMap[name]] for a name the literal defines *)
Definition mapped (name : string) : option string :=
  snd <$> List.find (fun kv => String.eqb kv.1 name) timezoneMap.

(** [validateTimezone(timezone)] *)
Definition validateTimezone (timezone : option string) : Validated :=
  let name := default EmptyString timezone in
  if Js.truthy timezone && includes validTimezones name then Zone name
  else if Js.truthy timezone then
    match mapped name with
    | Some zone => Zone zone
    | None =>
        if includes inheritedNames name then Inherited name
        else Zone "America/Chicago"
    end
  else Zone "America/Chicago".

(** The [userData] of [syncUserToSMS], with the fields that reach modelled
    columns. *)
Record UserData := mkUserData {
  phoneNumber : string;
  firstName : option string;
  userType : string;
  subscriptionStatus : string;
  ud_timezone : option string;
  ud_protocol : string
}.

(** [getUserFromSMS(phoneNumber)] *)
Definition getUserFromSMS (d : Db) (phone : string) : option User :=
  users d !! phone.

(** The row that [INSERT OR REPLACE INTO users ...] of [syncUserToSMS]
    writes: the columns it lists, each COALESCE reading the row it
    replaces; the columns it does not list fall back to their defaults. *)
Definition syncedRow (nowIso : Z) (userData : UserData) (userTimezone : string)
    (existing : option User) : User :=
  mkUser (ud_protocol userData) (userType userData)
    (default 1 (current_sequence_position <$> existing))
    (default 0 (total_messages_sent <$> existing))
    (subscriptionStatus userData)
    (default 0 (trial_messages_sent <$> existing))
    (default 1 (post_trial_phase <$> existing))
    (default 0 (post_trial_day <$> existing))
    (default nowIso (date_joined <$> existing))
    (existing ≫= last_message_sent)
    userTimezone (firstName userData)
    None None None
    nowIso.

(** [syncUserToSMS(userData)]; [None] when the validated zone is not a
    string, where what the driver binds is outside the model. *)
Definition syncUserToSMS (e : Env) (d : Db) (userData : UserData) : option Db :=
  match validateTimezone (ud_timezone userData) with
  | Inherited _ => None
  | Zone userTimezone =>
      let key := phoneNumber userData in
      Some (set_users d
              (<[key := syncedRow (now e) userData userTimezone (users d !! key)]> (users d)))
  end.

(** [getWelcomeMessage(program)] *)
Definition getWelcomeMessage (d : Db) (program : string) : option Message :=
  List.find (fun m => match number m with Some n => n =? 1 | None => false end
                      && String.eqb (msg_protocol m) program
                      && active m) (messages d).

(** The [UPDATE users SET ...] of [updateUserAfterWelcome] on one row. *)
Definition welcomedRow (nowIso : Z) (row : User) : User :=
  mkUser (protocol row) (user_type row) 2 1 (subscription_status row) 1
    (post_trial_phase row) (post_trial_day row) (date_joined row)
    (Some nowIso)
    (timezone row) (first_name row)
    (awaiting_response row) (awaiting_response_since row)
    (stopped_at_position row)
    nowIso.

(** [updateUserAfterWelcome(phoneNumber, userTimezone)]: the day's counter
    is written as 1, not incremented. *)
Definition updateUserAfterWelcome (e : Env) (d : Db) (phone userTimezone : string) : Db :=
  let today := Moment.format_date (tzdb e) userTimezone (now e) in
  let d1 := set_users d (alter (welcomedRow (now e)) phone (users d)) in
  set_daily_limits d1 (<[(phone, today) := 1]> (daily_limits d1)).

(** [{success: true, sentAt}] or [{success: false, error}]; the formatted
    time [sentAt] is left out. *)
Inductive WelcomeResult :=
| Welcomed
| NotWelcomed (error : string).

Definition success (r : WelcomeResult) : bool :=
  match r with
  | Welcomed => true
  | NotWelcomed _ => false
  end.

(** [sendWelcomeMessage(phoneNumber, firstName, program,
    sendMessageFunction)]; whatever is thrown inside is caught and
    returned as the error. *)
Definition sendWelcomeMessage (e : Env) (d : Db) (phone : string)
    (name : option string) (program : string) : WelcomeResult * Db :=
  let userTimezone :=
    match getUserFromSMS d phone with
    | Some user => if String.eqb (timezone user) EmptyString
                   then "America/Chicago" else timezone user
    | None => "America/Chicago"
    end in
  let hour := Moment.hour (tzdb e) userTimezone (now e) in
  let day := Moment.day (tzdb e) userTimezone (now e) in
  if day =? 0 then
    (NotWelcomed "Sunday rest day - welcome message delayed", d)
  else if (hour <? 8) || (hour >=? 20) then
    (NotWelcomed ("Outside welcome hours in " +:+ userTimezone), d)
  else
    match getWelcomeMessage d program with
    | None => (NotWelcomed ("Welcome message not found for program: " +:+ program), d)
    | Some welcomeMessage =>
        match message_text welcomeMessage with
        | None => (NotWelcomed "Cannot read properties of null (reading 'replace')", d)
        | Some text =>
            let personalizedMessage :=
              if Js.truthy name
              then replaceName 0 (default EmptyString name) text
              else Js.trim (collapseSpaces false (stripName 0 false text)) in
            let '(result, d1) := send e d phone personalizedMessage (id welcomeMessage) in
            match result with
            | SendOk => (Welcomed, updateUserAfterWelcome e d1 phone userTimezone)
            | SendFailed error => (NotWelcomed error, d1)
            end
        end
    end.

(** [`${value}`] of a nullable string *)
Definition show (value : option string) : string := default "null" value.

(** A row of the immediate queue, as [checkImmediateQueue] selects it. *)
Record QueueEntry := mkQueueEntry {
  q_id : Z;
  q_phone_number : option string;
  q_first_name : option string;
  q_program : option string
}.

(** One turn of the loop of [processImmediateQueue]: the status that
    [markQueueEntryProcessed] records for the entry, and the store
    afterwards.  The [None] branch of the sync is the [catch] of the turn.
    The log line of a welcome that was sent ends, in the source, with the
    formatted local time, which is left out. *)
Definition processQueueEntry (e : Env) (d : Db) (entry : QueueEntry) : string * Db :=
  match normalizePhoneNumber (q_phone_number entry) with
  | None => ("invalid_phone", d)
  | Some phone =>
      match getUserFromSMS d phone with
      | Some _ =>
          ("user_exists",
           logFunction d "info"
             ("User " +:+ phone +:+ " already exists, skipping welcome message"))
      | None =>
          let program := Js.orElse (q_program entry) "Elevate" in
          match syncUserToSMS e d
                  (mkUserData phone (q_first_name entry) "trial" "trial"
                              (Some "America/Chicago") program) with
          | None =>
              ("error",
               logFunction d "error" ("Error processing queue entry " +:+ Js.ofZ (q_id entry)))
          | Some d1 =>
              match sendWelcomeMessage e d1 phone (q_first_name entry) program with
              | (Welcomed, d2) =>
                  ("sent",
                   logFunction d2 "info"
                     ("Welcome message sent to " +:+ show (q_first_name entry)
                      +:+ " (" +:+ phone +:+ ")"))
              | (NotWelcomed error, d2) =>
                  if Js.includes error "Sunday" || Js.includes error "hours"
                  then ("delayed",
                        logFunction d2 "info"
                          ("Welcome message delayed for " +:+ show (q_first_name entry)
                           +:+ ": " +:+ error))
                  else ("send_failed",
                        logFunction d2 "error"
                          ("Failed to send welcome message to " +:+ phone +:+ ": " +:+ error))
              end
          end
      end
  end.

(** A submission of the trial form, as [getNinjaFormTrialUsers] selects
    it. *)
Record TrialUser := mkTrialUser {
  t_form_submission_id : Z;
  t_phone_number : option string;
  t_first_name : option string
}.

(** One turn of the loop of [syncTrialUsers]: whether the submission was
    synced, and the store afterwards.  The [None] branch of the sync is the
    [catch] of the turn. *)
Definition syncTrialUser (e : Env) (d : Db) (trialUser : TrialUser) : bool * Db :=
  match normalizePhoneNumber (t_phone_number trialUser) with
  | None => (false, d)
  | Some phone =>
      match getUserFromSMS d phone with
      | Some _ => (false, d)
      | None =>
          match syncUserToSMS e d
                  (mkUserData phone (t_first_name trialUser) "trial" "trial"
                              (Some "America/Chicago") "Elevate") with
          | Some d1 => (true, d1)
          | None =>
              (false,
               logFunction d "error"
                 ("Failed to sync trial user " +:+ Js.ofZ (t_form_submission_id trialUser)))
          end
      end
  end.

(** [syncTrialUsers()] over the submissions read from the form store: the
    numbers synced and skipped, and the store afterwards. *)
Fixpoint syncTrialRows (e : Env) (d : Db) (trialUsers : list TrialUser) : Z * Z * Db :=
  match trialUsers with
  | [] => (0, 0, d)
  | trialUser :: rest =>
      let '(synced, d1) := syncTrialUser e d trialUser in
      let '(syncedCount, skippedCount, d2) := syncTrialRows e d1 rest in
      if synced then (syncedCount + 1, skippedCount, d2)
      else (syncedCount, skippedCount + 1, d2)
  end.

Definition syncTrialUsers (e : Env) (d : Db) (trialUsers : list TrialUser) : Z * Z * Db :=
  let '(syncedCount, skippedCount, d1) := syncTrialRows e d trialUsers in
  (syncedCount, skippedCount,
   logFunction d1 "info"
     ("Trial user sync complete: " +:+ Js.ofZ syncedCount +:+ " synced, "
      +:+ Js.ofZ skippedCount +:+ " skipped")).

End WordPressSync.

(** ** The transport's own normalisation (app.js, sendMessage) *)

Module App.

Definition normalizedPhone (phoneNumber : string) : string :=
  let normalizedPhone := Js.filter Js.isDigit phoneNumber in
  let normalizedPhone :=
    if negb (Js.startsWith normalizedPhone "1")
       && (String.length normalizedPhone =? 10)%nat
    then "1" +:+ normalizedPhone else normalizedPhone in
  "+" +:+ normalizedPhone.

(** [messageId && (messageText.includes('A)') || messageText.includes('Reply:'))]:
    the test by which [sendMessage] takes a text for an interactive one.  The
    empty string stands for a [messageId] that is missing. *)
Definition isInteractive (messageText messageId : string) : bool :=
  negb (String.eqb messageId EmptyString)
  && (Js.includes messageText "A)" || Js.includes messageText "Reply:").



End App.

(** ** The reply handler (responseHandler.js) *)

Module ResponseHandler.

(** [{handled: true, action, message}] or [{handled: false}].  Every
    awaited operation of the model is total (the store answers, the
    transport returns a result), so the [catch] of
    [processIncomingMessage], which yields [{handled: false, error}], has no
    counterpart here. *)
Inductive Result :=
| Handled (action text : string)
| NotHandled.

Definition handled (r : Result) : bool :=
  match r with
  | Handled _ _ => true
  | NotHandled => false
  end.

Definition action (r : Result) : option string :=
  match r with
  | Handled a _ => Some a
  | NotHandled => None
  end.

Definition normalizePhoneNumber (phoneNumber : string) : string :=
  let normalized := Js.filter Js.isDigit phoneNumber in
  let normalized :=
    if negb (Js.startsWith normalized "1") && (String.length normalized =? 10)%nat
    then "1" +:+ normalized else normalized in
  "+" +:+ normalized.

Definition getUser (d : Db) (phoneNumber : string) : option User :=
  users d !! phoneNumber.

Definition isOptionLetter (c : ascii) : bool :=
  ((65 <=? Js.code c) && (Js.code c <=? 68))%N.

Definition letter (c : ascii) : string := String c EmptyString.

(** The next character of the subject is [ch]. *)
Definition nextIs (ch : ascii) (rest : string) : bool :=
match rest with
| String c _ => Ascii.eqb c ch
| EmptyString => false
end.

(** The subject ends here ([$]). *)
Definition atEnd (rest : string) : bool :=
match rest with
| EmptyString => true
| String _ _ => false
end.

(** All matches of [/[A-D]\)/g], each with its [')'] removed. *)
Fixpoint parenOptions (s : string) : list string :=
match s with
| EmptyString => []
| String c r =>
    if isOptionLetter c && nextIs ")" r
    then letter c :: parenOptions r
    else parenOptions r
end.

(** All matches of [/[A-D](?=\/|$)/g]. *)
Fixpoint slashOptions (s : string) : list string :=
match s with
| EmptyString => []
| String c r =>
    if isOptionLetter c && (nextIs "/" r || atEnd r)
    then letter c :: slashOptions r
    else slashOptions r
end.

Definition extractResponseOptions (messageText : option string) : list string :=
  if negb (Js.truthy messageText) then []
  else
    let text := default EmptyString messageText in
    match parenOptions text with
    | (_ :: _) as optionsMatch => optionsMatch
    | [] =>
        match slashOptions text with
        | (_ :: _) as slashPattern => slashPattern
        | [] => []
        end
    end.

(** [validOptions.includes(response)] *)
Definition includes (xs : list string) (x : string) : bool :=
  existsb (String.eqb x) xs.

Definition stoppedRow (nowIso : Z) (row : User) : User :=
  mkUser (protocol row) (user_type row) (current_sequence_position row)
    (total_messages_sent row) "stopped" (trial_messages_sent row)
    (post_trial_phase row) (post_trial_day row) (date_joined row)
    (last_message_sent row) (timezone row) (first_name row)
    (awaiting_response row) (awaiting_response_since row)
    (Some (current_sequence_position row)) nowIso.

Definition startedRow (nowIso : Z) (row : User) : User :=
  mkUser (protocol row) (user_type row) (current_sequence_position row)
    (total_messages_sent row)
    (if String.eqb (user_type row) "trial" then "trial" else "active")
    (trial_messages_sent row)
    (post_trial_phase row) (post_trial_day row) (date_joined row)
    (last_message_sent row) (timezone row) (first_name row)
    (awaiting_response row) (awaiting_response_since row)
    (stopped_at_position row) nowIso.

Definition resetRow (nowIso : Z) (row : User) : User :=
  mkUser (protocol row) (user_type row) 1
    (total_messages_sent row) "active" 0
    (post_trial_phase row) (post_trial_day row) (date_joined row)
    (last_message_sent row) (timezone row) (first_name row)
    (awaiting_response row) (awaiting_response_since row)
    (stopped_at_position row) nowIso.

Definition clearedRow (row : User) : User :=
  mkUser (protocol row) (user_type row) (current_sequence_position row)
    (total_messages_sent row) (subscription_status row) (trial_messages_sent row)
    (post_trial_phase row) (post_trial_day row) (date_joined row)
    (last_message_sent row) (timezone row) (first_name row)
    None None
    (stopped_at_position row) (date_modified row).

Definition stopUser (e : Env) (d : Db) (phoneNumber : string) : Db :=
  set_users d (alter (stoppedRow (now e)) phoneNumber (users d)).

Definition startUser (e : Env) (d : Db) (phoneNumber : string) : Db :=
  set_users d (alter (startedRow (now e)) phoneNumber (users d)).

Definition resetUser (e : Env) (d : Db) (phoneNumber : string) : Db :=
  set_users d (alter (resetRow (now e)) phoneNumber (users d)).

Definition clearAwaitingResponse (d : Db) (phoneNumber : string) : Db :=
  set_users d (alter clearedRow phoneNumber (users d)).

Definition matchesRow (phoneNumber messageId : string) (h : HistoryRow) : bool :=
  String.eqb (h_phone_number h) phoneNumber && String.eqb (h_message_id h) messageId.

Definition respondedRow (nowIso : Z) (h : HistoryRow) : HistoryRow :=
  mkHistoryRow (h_phone_number h) (h_message_id h) (h_sent_timestamp h)
               true (Some nowIso).

(** Marks the last row (the one of greatest rowid) that matches; [rows] is
    in rowid order. *)
Fixpoint markLast (nowIso : Z) (phoneNumber messageId : string)
    (rows : list HistoryRow) : list HistoryRow :=
  match rows with
  | [] => []
  | h :: r =>
      if matchesRow phoneNumber messageId h
         && negb (existsb (matchesRow phoneNumber messageId) r)
      then respondedRow nowIso h :: r
      else h :: markLast nowIso phoneNumber messageId r
  end.

(** [recordInteractiveResponse(phoneNumber, messageId, response)] *)
Definition recordInteractiveResponse (e : Env) (d : Db)
    (phoneNumber messageId : string) : Db :=
  set_message_history d (markLast (now e) phoneNumber messageId (message_history d)).

(** [sendSystemMessage(phoneNumber, messageId)] *)
Definition sendSystemMessage (e : Env) (d : Db) (phoneNumber messageId : string) : Db :=
  match getMessage d messageId with
  | Some m =>
      let user := getUser d phoneNumber in
      let personalizedMessage :=
        personalizeMessage (message_text m) (user ≫= first_name) in
      (send e d phoneNumber personalizedMessage messageId).2
  | None => d
  end.

(** [handleSystemCommands(phoneNumber, message)] *)
Definition handleSystemCommands (e : Env) (d : Db) (phoneNumber message : string)
    : Result * Db :=
  let user := getUser d phoneNumber in
  if String.eqb message "STOP" then
    let d1 := stopUser e d phoneNumber in
    let d2 := sendSystemMessage e d1 phoneNumber "34453cds" in
    (Handled "stopped" "User stopped successfully", d2)
  else if String.eqb message "START" then
    let d1 := startUser e d phoneNumber in
    let d2 := sendSystemMessage e d1 phoneNumber "3452cds3" in
    (Handled "started" "User restarted successfully", d2)
  else if String.eqb message "RESET" then
    match user with
    | Some u =>
        if negb (String.eqb (user_type u) "subscriber") then
          ((Handled "reset_denied" "Reset denied - trial user"),
           (send e d phoneNumber
              "RESET is only available for subscribers. Upgrade at healthytext.com to access this feature!"
              "reset_denied").2)
        else
          let d1 := resetUser e d phoneNumber in
          let d2 :=
            (send e d1 phoneNumber
               ("Welcome back " +:+ Js.orElse (first_name u) EmptyString
                +:+ "! Your Elevate sequence has been reset to message 1. Ready for a fresh start!")
               "reset_confirm").2 in
          (Handled "reset" "User sequence reset successfully", d2)
    | None =>
        ((Handled "reset_denied" "Reset denied - trial user"),
         (send e d phoneNumber
            "RESET is only available for subscribers. Upgrade at healthytext.com to access this feature!"
            "reset_denied").2)
    end
  else (NotHandled, d).

Definition crisisKeywords : list (string * string) :=
  [ ("HELP", "help_response");
    ("ANXIETY", "anxiety_response");
    ("STRESS", "stress_response");
    ("PANIC", "panic_response");
    ("CRISIS", "crisis_response");
    ("POSITIVE", "positive_response");
    ("AFFIRM", "positive_response");
    ("BREATHE", "breathe_response");
    ("CALM", "calm_response") ].

Definition responses : list (string * string) :=
  [ ("HELP", "We're here to support you. If this is an emergency, please call 911. For mental health support, call 988 (Suicide & Crisis Lifeline). Visit healthytext.com for more resources.");
    ("ANXIETY", "Take a deep breath. You're safe right now. Try the 4-7-8 technique: breathe in for 4, hold for 7, out for 8. Repeat 3 times. You've got this.");
    ("STRESS", "Stress is temporary. Take 5 slow, deep breaths. Focus on what you can control right now. You're stronger than you think.");
    ("PANIC", "You're experiencing panic, but you're safe. Ground yourself: name 5 things you see, 4 you hear, 3 you feel, 2 you smell, 1 you taste. This will pass.");
    ("CRISIS", "If you're in crisis, please reach out immediately: 911 for emergencies, 988 for suicide prevention. You matter and help is available 24/7.");
    ("BREATHE", "Let's breathe together. In for 4... hold for 4... out for 4... hold for 4. Repeat this pattern. Focus only on your breath.");
    ("CALM", "Finding calm in the storm. Close your eyes if you can. Take 3 deep breaths. Remember: this feeling is temporary, but your strength is permanent.") ].

(** [table[key]] on an object literal whose keys are upper-case words. *)
Definition property (table : list (string * string)) (key : string) : option string :=
  snd <$> List.find (fun kv => String.eqb (fst kv) key) table.

(** [sendFallbackCrisisResponse(phoneNumber, keyword)] *)
Definition sendFallbackCrisisResponse (e : Env) (d : Db) (phoneNumber keyword : string) : Db :=
  let responseText :=
    Js.orElse (property responses keyword)
              (default EmptyString (property responses "HELP")) in
  (send e d phoneNumber responseText ("crisis_" +:+ Js.toLowerCase keyword)).2.

(** [handleCrisisKeywords(phoneNumber, message)] *)
Definition handleCrisisKeywords (e : Env) (d : Db) (phoneNumber message : string)
    : Result * Db :=
  match property crisisKeywords message with
  | Some responseMessageId =>
      let d1 :=
        match getMessage d responseMessageId with
        | Some crisisMessage =>
            let user := getUser d phoneNumber in
            let personalizedMessage :=
              personalizeMessage (message_text crisisMessage)
                                 (user ≫= first_name) in
            (send e d phoneNumber personalizedMessage responseMessageId).2
        | None => sendFallbackCrisisResponse e d phoneNumber message
        end in
      let d2 := logFunction d1 "info" ("Crisis keyword used: " +:+ message) in
      (Handled "crisis_support"
               ("Crisis keyword " +:+ Js.dquote +:+ message +:+ Js.dquote +:+ " handled"),
       d2)
  | None => (NotHandled, d)
  end.

(** [handleInteractiveResponse(phoneNumber, response)].
    [new Date(null)] is the epoch; [setHours(getHours() + 24)] moves it one
    day ahead on the server's clock. *)
Definition handleInteractiveResponse (e : Env) (d : Db) (phoneNumber response : string)
    : Result * Db :=
  match getUser d phoneNumber with
  | None => (NotHandled, d)
  | Some user =>
      if negb (Js.truthy (awaiting_response user)) then (NotHandled, d)
      else
        let awaiting := default EmptyString (awaiting_response user) in
        let responseWindow :=
          Moment.addLocalDay (tzdb e) (default 0 (awaiting_response_since user)) in
        if now e >? responseWindow then
          (NotHandled, clearAwaitingResponse d phoneNumber)
        else
          match getMessage d awaiting with
          | None => (NotHandled, clearAwaitingResponse d phoneNumber)
          | Some originalMessage =>
              let validOptions := extractResponseOptions (message_text originalMessage) in
              if (List.length validOptions =? 0)%nat then
                (NotHandled, clearAwaitingResponse d phoneNumber)
              else if negb (includes validOptions response) then
                let optionsText := Js.join " or " validOptions in
                let d1 :=
                  (send e d phoneNumber
                     ("Please respond with " +:+ optionsText
                      +:+ " only. What's your choice?")
                     "invalid_response").2 in
                (Handled "invalid_response"
                         ("Invalid response " +:+ Js.dquote +:+ response +:+ Js.dquote
                          +:+ " - valid options: " +:+ optionsText),
                 d1)
              else
                let followUpId := awaiting +:+ Js.toLowerCase response in
                let d1 :=
                  match getMessage d followUpId with
                  | Some followUpMessage =>
                      let personalizedFollowUp :=
                        personalizeMessage (message_text followUpMessage) (first_name user) in
                      (send e d phoneNumber personalizedFollowUp followUpId).2
                  | None =>
                      (send e d phoneNumber
                         "Thanks for your response! Your wellness journey continues."
                         "generic_followup").2
                  end in
                let d2 := recordInteractiveResponse e d1 phoneNumber awaiting in
                let d3 := clearAwaitingResponse d2 phoneNumber in
                (Handled "interactive_response"
                         ("Interactive response " +:+ Js.dquote +:+ response
                          +:+ Js.dquote +:+ " processed"),
                 d3)
          end
  end.

(** [handleUnrecognizedMessage(phoneNumber, originalMessage)] *)
Definition handleUnrecognizedMessage (e : Env) (d : Db)
    (phoneNumber originalMessage : string) : Result * Db :=
  let user := getUser d phoneNumber in
  let helpText :=
    "Hi " +:+ Js.orElse (user ≫= first_name) EmptyString
    +:+ "! Thanks for your message. "
    +:+ "Reply HELP for support, or visit healthytext.com for more options. "
    +:+ "Text STOP to unsubscribe." in
  let d1 := (send e d phoneNumber helpText "unrecognized_response").2 in
  let d2 := logFunction d1 "info"
              ("Unrecognized message from " +:+ phoneNumber +:+ ": " +:+ originalMessage) in
  (Handled "unrecognized" "Sent help response for unrecognized message", d2).

(** [processIncomingMessage(phoneNumber, messageBody)] *)
Definition processIncomingMessage (e : Env) (d : Db) (phoneNumber messageBody : string)
    : Result * Db :=
  let normalizedPhone := normalizePhoneNumber phoneNumber in
  let cleanMessage := Js.toUpperCase (Js.trim messageBody) in
  let d0 := logFunction d "info"
              ("Received message from " +:+ normalizedPhone +:+ ": " +:+ messageBody) in
  let '(commandResult, d1) := handleSystemCommands e d0 normalizedPhone cleanMessage in
  if handled commandResult then (commandResult, d1)
  else
    let '(crisisResult, d2) := handleCrisisKeywords e d1 normalizedPhone cleanMessage in
    if handled crisisResult then (crisisResult, d2)
    else
      let '(interactiveResult, d3) :=
        handleInteractiveResponse e d2 normalizedPhone cleanMessage in
      if handled interactiveResult then (interactiveResult, d3)
      else handleUnrecognizedMessage e d3 normalizedPhone messageBody.

End ResponseHandler.

(** * Vocabulary of the statements *)

(** What the scheduler does once the hour and weekday checks have passed. *)
Definition afterWindow (e : Env) (d : Db) (phone : string) (user : User) : Scheduler.Outcome * Db :=
  if Scheduler.messagesSentToday (Scheduler.checkDailyLimit e d phone) >=? 4 then
    (Scheduler.NotSent "Daily limit reached (4 messages)", d)
  else
    match Scheduler.isUserDueForMessage e user with
    | Scheduler.NotDue reason => (Scheduler.NotSent reason, d)
    | Scheduler.Due messageType position _ =>
        match Scheduler.getNextMessage e d user messageType position with
        | inl err => (Scheduler.Threw err, d)
        | inr None => (Scheduler.NotSent "No message found for user position", d)
        | inr (Some m) =>
            let personalizedMessage := personalizeMessage (message_text m) (first_name user) in
            let '(sendResult, d1) := send e d phone personalizedMessage (id m) in
            match sendResult with
            | SendFailed err => (Scheduler.NotSent ("Send failed: " +:+ err), d1)
            | SendOk =>
                (Scheduler.Sent (String.substring 0 50 personalizedMessage +:+ "...")
                                (id m) (timezone user),
                 Scheduler.updateUserProgress e d1 phone user messageType)
            end
        end
    end.

(** What the injector does once the counter and hour checks have passed. *)
Definition afterChecks (e : Env) (d : Db) (injection : Injector.Injection) : Injector.Outcome * Db :=
  let phone := pm_phone_number (Injector.row injection) in
  match getMessage d (pm_message_id (Injector.row injection)) with
  | None => (Injector.NotSent "Message not found in database", d)
  | Some m =>
      let personalizedMessage :=
        personalizeMessage (message_text m) (Injector.inj_first_name injection) in
      let '(sendResult, d1) :=
        send e d phone personalizedMessage (pm_message_id (Injector.row injection)) in
      match sendResult with
      | SendFailed err => (Injector.NotSent ("Send failed: " +:+ err), d1)
      | SendOk => (Injector.Sent, Injector.updateUserAfterInjection e d1 phone)
      end
  end.

(** Runs the injections one after the other. *)
Fixpoint injectAll (e : Env) (d : Db) (queue : list Injector.Injection)
    : list Injector.Outcome * Db :=
match queue with
| [] => ([], d)
| i :: rest =>
    let '(o, d1) := Injector.processSingleInjection e d i in
    let '(os, d2) := injectAll e d1 rest in
    (o :: os, d2)
end.


(** [after] differs from [before] at most in the conversation state. *)
Definition sameButConversation (before after : User) : Prop :=
after = mkUser (protocol before) (user_type before) (current_sequence_position before)
               (total_messages_sent before) (subscription_status before)
               (trial_messages_sent before) (post_trial_phase before)
               (post_trial_day before) (date_joined before) (last_message_sent before)
               (timezone before) (first_name before) (awaiting_response after)
               (awaiting_response_since after) (stopped_at_position before)
               (date_modified before).

(** The reprompt that lists the valid options. *)
Definition reprompt (phone : string) (validOptions : list string) : Outbound :=
mkOutbound phone
  ("Please respond with " +:+ Js.join " or " validOptions +:+ " only. What's your choice?")
  "invalid_response".

(** The branch-specific follow-up when the catalog has it, else the generic
    acknowledgment. *)
Definition followUp (d : Db) (phone : string) (user : User) (followUpId : string) : Outbound :=
match getMessage d followUpId with
| Some followUpMessage =>
    mkOutbound phone (personalizeMessage (message_text followUpMessage) (first_name user))
               followUpId
| None =>
    mkOutbound phone "Thanks for your response! Your wellness journey continues."
               "generic_followup"
end.


(** The help text of the fallback. *)
Definition helpText (phone : string) (firstName : option string) : Outbound :=
mkOutbound phone
  ("Hi " +:+ Js.orElse firstName EmptyString
   +:+ "! Thanks for your message. "
   +:+ "Reply HELP for support, or visit healthytext.com for more options. "
   +:+ "Text STOP to unsubscribe.")
  "unrecognized_response".

(** What a reply may do to the store: the registry keeps its keys and only
    the sender's row may change; counters, catalog and pending rows stay; no
    delivery record is removed; at most one message goes out, and it goes to
    the sender. *)
Definition replyFrame (phone : string) (d d' : Db) : Prop :=
dom (users d') = dom (users d)
/\ (forall other, other <> phone -> users d' !! other = users d !! other)
/\ daily_limits d' = daily_limits d
/\ messages d' = messages d
/\ pending_messages d' = pending_messages d
/\ (List.length (message_history d) <= List.length (message_history d'))%nat
/\ (outbox d' = outbox d
    \/ exists o, outbox d' = (outbox d ++ [o])%list /\ o_to o = phone).

(** The number of dispatches addressed to [phone]. *)
Definition sentTo (phone : string) (d : Db) : nat :=
List.length (List.filter (fun o => String.eqb (o_to o) phone) (outbox d)).

(** The pending row [p] under another status. *)
Definition withStatus (p : PendingMessage) (status : string) : PendingMessage :=
mkPending (pm_id p) (pm_phone_number p) (pm_message_id p) (pm_priority p)
          (pm_created_timestamp p) status.

(** The rowids of a queue of injections. *)
Definition rowids (queue : list Injector.Injection) : list Z :=
List.map (fun i => pm_id (Injector.row i)) queue.

(** The recipients of a queue of injections. *)
Definition recipients (queue : list Injector.Injection) : list string :=
List.map (fun i => pm_phone_number (Injector.row i)) queue.

(** The text does not start with white space. *)
Definition startsClean (s : string) : bool :=
match s with
| EmptyString => true
| String c _ => negb (Js.isSpace c)
end.

(** Every white-space character of the text is a blank, and no two of them
    are neighbours. *)
Fixpoint singleBlanks (s : string) : bool :=
match s with
| EmptyString => true
| String c r =>
    (negb (Js.isSpace c) || (Ascii.eqb c " " && startsClean r)) && singleBlanks r
end.

(** * Sample data for the closed instances *)

(** Standard-time offsets of three zones of the deployment. *)
Definition zones : Moment.TzDb :=
fun zone _ =>
  if String.eqb zone "America/Los_Angeles" then -480
  else if String.eqb zone "America/New_York" then -300
  else -360.

Definition alwaysDelivers : Transport := fun _ _ _ => SendOk.

(** 2024-01-01T18:00:00Z *)
Definition newYearNoon : Z := 1704132000000.

(** A trial recipient in Chicago who joined on 2024-01-01 at noon and has had
    the seven trial messages. *)
Definition graduate : User :=
mkUser "Elevate" "trial" 8 7 "trial" 7 1 0 newYearNoon (Some (newYearNoon + 7 * 86400000))
       "America/Chicago" (Some "Jane") None None None newYearNoon.

(** A recipient on Pacific time. *)
Definition pacific : User :=
mkUser "Elevate" "subscriber" 12 40 "active" 7 1 0 1700000000000 (Some 1703900000000)
       "America/Los_Angeles" (Some "Sam") None None None 1703900000000.

Definition pacificPhone : string := "+13105550123".

Definition notice : Message :=
mkMessage "notice1" None "ALL" "Manual" (Some "Hello {name}, the office is closed today.") true.

Definition noticeFor (n : Z) : Injector.Injection :=
Injector.mkInjection (mkPending n pacificPhone "notice1" 1 1704130000000 "pending")
                     (Some "Sam") "America/Los_Angeles" "subscriber".

Definition pacificDb : Db :=
mkDb {[ pacificPhone := pacific ]} ∅ [notice] [] [] [] [].

(** 2024-01-01 10:00 in Los Angeles (18:00 UTC, same date). *)
Definition mondayMorning : Env := mkEnv zones alwaysDelivers 1704132000000 0.

(** 2024-01-01 16:30 in Los Angeles (2024-01-02 00:30 UTC). *)
Definition mondayAfternoon : Env := mkEnv zones alwaysDelivers 1704155400000 0.

(** Sample conversation: a subscriber who was sent the mood check-in "2" (or
    the yes/no question "poll1") one hour before the reply arrives. *)
Definition checkIn : Message :=
mkMessage "2" (Some 2) "Elevate" "Interactive"
  (Some "Good morning {name}! How are you feeling today? A) Energized B) Calm C) Stressed D) Tired")
  true.

Definition checkInCalm : Message :=
mkMessage "2b" None "Elevate" "Response"
  (Some "Calm is a superpower, {name}. Carry it with you today.") true.

Definition poll : Message :=
mkMessage "poll1" None "Elevate" "Interactive"
  (Some "Quick check-in {name}. Reply: YES or NO") true.

Definition janePhone : string := "+13122858457".

Definition jane (awaiting : string) (since : Z) : User :=
mkUser "Elevate" "subscriber" 3 2 "active" 0 1 0 1703000000000 (Some since)
       "America/Chicago" (Some "Jane") (Some awaiting) (Some since) None since.

Definition janeDb (awaiting : string) (since : Z) : Db :=
mkDb {[ janePhone := jane awaiting since ]} ∅ [checkIn; checkInCalm; poll]
     [mkHistoryRow janePhone "2" 1704100000000 false None;
      mkHistoryRow janePhone "poll1" 1704110000000 false None;
      mkHistoryRow janePhone "2" (newYearNoon - 3600000) false None]
     [] [] [].

Definition atNoon : Env := mkEnv zones alwaysDelivers newYearNoon 0.








(** The offsets of a server that keeps Chicago time in 2024: daylight
    saving from 2024-03-10 08:00Z to 2024-11-03 07:00Z. *)
Definition chicago2024 : Moment.TzDb :=
fun _ t => if (1710057600000 <=? t) && (t <? 1730617200000) then -300 else -360.

(** The twelfth message of the Elevate sequence, which the Pacific
    recipient is due for. *)
Definition dayTwelve : Message :=
mkMessage "12" (Some 12) "Elevate" "Sequence"
  (Some "Day 12, {name}: take a short walk today.") true.

Definition sequenceDb : Db :=
mkDb {[ pacificPhone := pacific ]} ∅ [notice; dayTwelve] [] [] [] [].

(** A post-trial note, and the graduate's store; day 25 after the join is
    Friday 2024-01-26, noon in Chicago. *)
Definition postTrialNote : Message :=
mkMessage "pt1" None "Elevate" "Post-Trial" (Some "We miss you, {name}.") true.

Definition graduateDb : Db :=
mkDb {[ janePhone := graduate ]} ∅ [postTrialNote] [] [] [] [].

Definition dayTwentyFive : Env := mkEnv zones alwaysDelivers (newYearNoon + 25 * 86400000) 0.




(** * Properties *)

(** ** The eligibility evaluator *)

Section Evaluator.

Import Scheduler.

Lemma includes_In (xs : list Z) (x : Z) : includes xs x = true <-> In x xs.
Proof.
  unfold includes. rewrite existsb_exists. split.
  - intros (y & Hy & Heq). apply Z.eqb_eq in Heq. now subst.
  - intros Hx. exists x. split; [assumption | apply Z.eqb_refl].
Qed.

Lemma includes_not_In (xs : list Z) (x : Z) : includes xs x = false <-> ~ In x xs.
Proof.
  rewrite <- includes_In. destruct (includes xs x); split; congruence.
Qed.

(** The days on which the post-trial schedule has a message. *)
Lemma checkPostTrialSchedule_due (n : Z) :
  due (checkPostTrialSchedule n) = true <->
  In n [8; 10; 13; 17] \/ In n [25; 33; 41] \/ In n [71; 101; 131]
  \/ (191 <= n /\ (60 | n - 191)).
Proof.
  unfold checkPostTrialSchedule.
  destruct (includes [8; 10; 13; 17] n) eqn:H1.
  { apply includes_In in H1. simpl. tauto. }
  destruct (includes [25; 33; 41] n) eqn:H2.
  { apply includes_In in H2. simpl. tauto. }
  destruct (includes [71; 101; 131] n) eqn:H3.
  { apply includes_In in H3. simpl. tauto. }
  apply includes_not_In in H1, H2, H3.
  destruct ((n >=? 191) && (Z.rem (n - 191) 60 =? 0)) eqn:H4; simpl.
  - apply andb_true_iff in H4 as [Hge Hrem].
    apply Z.geb_le in Hge. apply Z.eqb_eq in Hrem.
    apply Z.rem_divide in Hrem; [tauto | lia].
  - split; [discriminate |].
    intros [H | [H | [H | [Hge Hdiv]]]]; [contradiction | contradiction | contradiction |].
    apply Z.rem_divide in Hdiv; [| lia].
    apply andb_false_iff in H4 as [H4 | H4].
    + rewrite Z.geb_leb in H4. apply Z.leb_gt in H4. lia.
    + apply Z.eqb_neq in H4. contradiction.
Qed.

(** Phase 1 hands out the ids ptmb1 .. ptmb4 in the order of its days. *)
Lemma checkPostTrialSchedule_phase1 (n : Z) (k : nat) :
  nth_error [8; 10; 13; 17] k = Some n ->
  checkPostTrialSchedule n
  = Due "post-trial-phase1" PosUndefined (Some ("ptmb" +:+ Js.ofZ (Z.of_nat k + 1))).
Proof.
  destruct k as [| [| [| [| k]]]]; simpl; intros H; try (destruct k; discriminate);
    injection H as <-; reflexivity.
Qed.

Lemma trial_after_seven (e : Env) (user : User) :
  user_type user = "trial" -> 7 <= trial_messages_sent user ->
  isUserDueForMessage e user = checkPostTrialSchedule (daysSinceJoined e user).
Proof.
  intros Ht Hn. unfold isUserDueForMessage. rewrite Ht.
  change (String.eqb "trial" "trial") with true. cbv iota.
  rewrite Z.geb_leb.
  destruct (Z.leb_spec 7 (trial_messages_sent user)); [reflexivity | lia].
Qed.

End Evaluator.

(** C1.  A trial recipient who has received at least 7 trial messages is due
    exactly when the whole-day offset since the join date, taken in the
    recipient's zone, is one of 8, 10, 13, 17 (phase 1, with the message ids
    ptmb1 .. ptmb4 in that order), 25, 33, 41 (phase 2), 71, 101, 131
    (phase 3), or is at least 191 with (offset - 191) divisible by 60
    (phase 4).  Days 190 and 192 are not due; 191, 251 and 311 are. *)
Theorem post_trial_schedule (e : Env) (user : User) :
  user_type user = "trial" ->
  7 <= trial_messages_sent user ->
  let offset := Scheduler.daysSinceJoined e user in
  let verdict := Scheduler.isUserDueForMessage e user in
  (Scheduler.due verdict = true <->
     In offset [8; 10; 13; 17] \/ In offset [25; 33; 41] \/ In offset [71; 101; 131]
     \/ (191 <= offset /\ (60 | offset - 191)))
  /\ (forall k : nat,
        nth_error [8; 10; 13; 17] k = Some offset ->
        verdict = Scheduler.Due "post-trial-phase1" Scheduler.PosUndefined
                    (Some ("ptmb" +:+ Js.ofZ (Z.of_nat k + 1))))
  /\ (In offset [25; 33; 41] ->
      verdict = Scheduler.Due "post-trial-phase2" Scheduler.PosUndefined None)
  /\ (In offset [71; 101; 131] ->
      verdict = Scheduler.Due "post-trial-phase3" Scheduler.PosUndefined None)
  /\ (191 <= offset /\ (60 | offset - 191) ->
      verdict = Scheduler.Due "post-trial-phase4" Scheduler.PosUndefined None)
  /\ (In offset [190; 192] -> Scheduler.due verdict = false)
  /\ (In offset [191; 251; 311] -> Scheduler.due verdict = true).
Proof.
  intros Ht Hn offset verdict.
  assert (Hv : verdict = Scheduler.checkPostTrialSchedule offset)
    by (apply trial_after_seven; assumption).
  rewrite Hv. clear Hv verdict.
  split; [apply checkPostTrialSchedule_due |].
  split; [intros k Hk; now apply checkPostTrialSchedule_phase1 |].
  split.
  { simpl. intros [<- | [<- | [<- | []]]]; reflexivity. }
  split.
  { simpl. intros [<- | [<- | [<- | []]]]; reflexivity. }
  split.
  { intros [Hge [q Hq]]. unfold Scheduler.checkPostTrialSchedule.
    assert (H1 : Scheduler.includes [8; 10; 13; 17] offset = false)
      by (apply includes_not_In; simpl; lia).
    assert (H2 : Scheduler.includes [25; 33; 41] offset = false)
      by (apply includes_not_In; simpl; lia).
    assert (H3 : Scheduler.includes [71; 101; 131] offset = false)
      by (apply includes_not_In; simpl; lia).
    rewrite H1, H2, H3.
    assert (Hr : Z.rem (offset - 191) 60 = 0)
      by (apply Z.rem_divide; [lia | now exists q]).
    rewrite Hr. rewrite Z.geb_leb.
    destruct (Z.leb_spec 191 offset); [reflexivity | lia]. }
  split.
  - simpl. intros [<- | [<- | []]]; reflexivity.
  - simpl. intros [<- | [<- | [<- | []]]]; reflexivity.
Qed.

(** ** The rate and time policy *)

Section Policy.

Variables (e : Env) (d : Db).

Lemma checkUserForMessage_cases (phone : string) (user : User) :
  let zone := Scheduler.zoneOf (timezone user) in
  let hour := Moment.hour (tzdb e) zone (now e) in
  let weekday := Moment.day (tzdb e) zone (now e) in
  (weekday = 0 /\
   Scheduler.checkUserForMessage e d phone user
   = (Scheduler.NotSent ("Sunday rest day in " +:+ timezone user), d))
  \/ (weekday <> 0 /\ (hour < 9 \/ 18 <= hour) /\
      Scheduler.checkUserForMessage e d phone user
      = (Scheduler.NotSent ("Outside sending hours in " +:+ timezone user +:+ " ("
                            +:+ Moment.format_hmmA (tzdb e) zone (now e) +:+ ")"), d))
  \/ (weekday <> 0 /\ 9 <= hour < 18 /\
      Scheduler.checkUserForMessage e d phone user = afterWindow e d phone user).
Proof.
  intros zone hour weekday. unfold Scheduler.checkUserForMessage.
  fold zone. fold hour. fold weekday.
  destruct (Z.eqb_spec weekday 0) as [Hd | Hd]; [left; split; [assumption | reflexivity] |].
  right. rewrite Z.geb_leb.
  destruct (Z.ltb_spec hour 9) as [Hh | Hh]; simpl.
  { left. split; [assumption |]. split; [lia | reflexivity]. }
  destruct (Z.leb_spec 18 hour) as [Hh' | Hh'].
  { left. split; [assumption |]. split; [lia | reflexivity]. }
  right. split; [assumption |]. split; [lia | reflexivity].
Qed.

Lemma isInSendingWindow_spec (zone : string) :
  zone <> EmptyString ->
  Injector.isInSendingWindow e zone = inr Injector.CanSend
  <-> 9 <= Moment.hour (tzdb e) zone (now e) < 18.
Proof.
  intros Hz. unfold Injector.isInSendingWindow.
  destruct (String.eqb_spec zone EmptyString) as [-> | _]; [contradiction |].
  rewrite Z.geb_leb.
  destruct (Z.ltb_spec (Moment.hour (tzdb e) zone (now e)) 9);
    destruct (Z.leb_spec 18 (Moment.hour (tzdb e) zone (now e)));
    simpl; split; (discriminate || lia || reflexivity).
Qed.

Lemma isInSendingWindow_outside (zone : string) :
  zone <> EmptyString ->
  Moment.hour (tzdb e) zone (now e) < 9 \/ 18 <= Moment.hour (tzdb e) zone (now e) ->
  Injector.isInSendingWindow e zone
  = inr (Injector.CannotSend "Outside sending hours (9 AM - 6 PM)").
Proof.
  intros Hz H. unfold Injector.isInSendingWindow.
  destruct (String.eqb_spec zone EmptyString) as [-> | _]; [contradiction |].
  rewrite Z.geb_leb.
  destruct (Z.ltb_spec (Moment.hour (tzdb e) zone (now e)) 9);
    destruct (Z.leb_spec 18 (Moment.hour (tzdb e) zone (now e)));
    simpl; (reflexivity || lia).
Qed.

(** Without a zone name the window check throws, at every instant. *)
Lemma isInSendingWindow_throws :
  exists error, Injector.isInSendingWindow e EmptyString = inl error.
Proof. eexists. reflexivity. Qed.

Lemma processSingleInjection_cases (injection : Injector.Injection) :
  let phone := pm_phone_number (Injector.row injection) in
  let hour := Moment.hour (tzdb e) (Injector.inj_timezone injection) (now e) in
  (4 <= Injector.checkDailyLimit e d phone /\
   Injector.processSingleInjection e d injection
   = (Injector.NotSent "Daily limit reached (4 messages)", d))
  \/ (Injector.checkDailyLimit e d phone < 4 /\
      Injector.inj_timezone injection = EmptyString /\
      exists error, Injector.processSingleInjection e d injection
                    = (Injector.Threw error, d))
  \/ (Injector.checkDailyLimit e d phone < 4 /\
      Injector.inj_timezone injection <> EmptyString /\ (hour < 9 \/ 18 <= hour) /\
      Injector.processSingleInjection e d injection
      = (Injector.NotSent "Outside sending hours (9 AM - 6 PM)", d))
  \/ (Injector.checkDailyLimit e d phone < 4 /\
      Injector.inj_timezone injection <> EmptyString /\ 9 <= hour < 18 /\
      Injector.processSingleInjection e d injection = afterChecks e d injection).
Proof.
  intros phone hour. unfold Injector.processSingleInjection. fold phone.
  rewrite Z.geb_leb.
  destruct (Z.leb_spec 4 (Injector.checkDailyLimit e d phone)) as [Hc | Hc].
  { left. split; [assumption | reflexivity]. }
  right.
  destruct (String.eqb_spec (Injector.inj_timezone injection) EmptyString) as [Hz | Hz].
  { left. split; [assumption |]. split; [assumption |].
    rewrite Hz. eexists. reflexivity. }
  right.
  destruct (Z.lt_ge_cases hour 9) as [Hh | Hh].
  { left. split; [assumption |]. split; [assumption |]. split; [lia |].
    rewrite isInSendingWindow_outside by (try assumption; fold hour; lia). reflexivity. }
  destruct (Z.le_gt_cases 18 hour) as [Hh' | Hh'].
  { left. split; [assumption |]. split; [assumption |]. split; [lia |].
    rewrite isInSendingWindow_outside by (try assumption; fold hour; lia). reflexivity. }
  right. split; [assumption |]. split; [assumption |]. split; [lia |].
  assert (Hw : Injector.isInSendingWindow e (Injector.inj_timezone injection)
               = inr Injector.CanSend)
    by (apply isInSendingWindow_spec; [assumption | fold hour; lia]).
  rewrite Hw. reflexivity.
Qed.

End Policy.

Lemma post_trial_schedule_witness :
  let e := mkEnv zones alwaysDelivers (newYearNoon + 191 * 86400000) 0 in
  user_type graduate = "trial"
  /\ 7 <= trial_messages_sent graduate
  /\ Scheduler.daysSinceJoined e graduate = 191
  /\ Scheduler.isUserDueForMessage e graduate
     = Scheduler.Due "post-trial-phase4" Scheduler.PosUndefined None.
Proof.
  intros e.
  assert (H7 : 7 <= trial_messages_sent graduate) by (vm_compute; discriminate).
  split; [reflexivity |]. split; [exact H7 |]. split; [vm_compute; reflexivity |].
  destruct (post_trial_schedule e graduate eq_refl H7) as (_ & _ & _ & _ & H4 & _).
  apply H4. split; [vm_compute; discriminate |].
  exists 0. vm_compute. reflexivity.
Defined.

(** The scenario of the specification: joined at t0 with seven trial
    messages; on day 8 the evaluator answers due with the first phase-1 id,
    on day 9 not due. *)
Example day_eight_then_nine :
  Scheduler.isUserDueForMessage
    (mkEnv zones alwaysDelivers (newYearNoon + 8 * 86400000) 0) graduate
  = Scheduler.Due "post-trial-phase1" Scheduler.PosUndefined (Some "ptmb1")
  /\ Scheduler.isUserDueForMessage
       (mkEnv zones alwaysDelivers (newYearNoon + 9 * 86400000) 0) graduate
     = Scheduler.NotDue "Not scheduled for post-trial message today".
Proof. split; vm_compute; reflexivity. Qed.

(** The verdict of phase 1 carries its id in [messageId]; [checkUserForMessage]
    passes [isDue.position], which that verdict does not have, and
    [getNextMessage] reads [position.messageId]: on a phase-1 day inside the
    sending window the scheduler's turn ends in a rejected promise. *)
Remark phase_one_lookup_throws :
  (Scheduler.checkUserForMessage
     (mkEnv zones alwaysDelivers (newYearNoon + 8 * 86400000) 0)
     (mkDb {[ janePhone := graduate ]} ∅ [] [] [] [] []) janePhone graduate).1
  = Scheduler.Threw "Cannot read properties of undefined (reading 'messageId')".
Proof. vm_compute. reflexivity. Qed.




(** ** The daily counter *)

Section DailyCounter.

Variables (e : Env) (d : Db).

Lemma messages_sent_bump (phone : string) (date : Z) (phone' : string) (date' : Z) :
  messages_sent (bump_daily_limit d phone date) phone' date'
  = if decide ((phone, date) = (phone', date'))
    then messages_sent d phone date + 1
    else messages_sent d phone' date'.
Proof.
  unfold messages_sent, bump_daily_limit. simpl.
  rewrite lookup_insert. destruct (decide ((phone, date) = (phone', date'))); reflexivity.
Qed.

(** The scheduler's update adds one at the recipient's local date and leaves
    every other counter alone. *)
Lemma updateUserProgress_counter (phone : string) (user : User) (messageType : string)
    (phone' : string) (date' : Z) :
  let today := Moment.format_date (tzdb e) (Scheduler.zoneOf (timezone user)) (now e) in
  messages_sent (Scheduler.updateUserProgress e d phone user messageType) phone' date'
  = if decide ((phone, today) = (phone', date'))
    then messages_sent d phone today + 1
    else messages_sent d phone' date'.
Proof.
  intros today. unfold Scheduler.updateUserProgress. fold today.
  unfold messages_sent, bump_daily_limit. simpl.
  rewrite lookup_insert. destruct (decide ((phone, today) = (phone', date'))); reflexivity.
Qed.

(** The injector's update adds one at the UTC date of the call. *)
Lemma updateUserAfterInjection_counter (phone : string) (phone' : string) (date' : Z) :
  let today := Moment.utc_date (now e) in
  messages_sent (Injector.updateUserAfterInjection e d phone) phone' date'
  = if decide ((phone, today) = (phone', date'))
    then messages_sent d phone today + 1
    else messages_sent d phone' date'.
Proof.
  intros today. unfold Injector.updateUserAfterInjection. fold today.
  unfold messages_sent, bump_daily_limit. simpl.
  rewrite lookup_insert. destruct (decide ((phone, today) = (phone', date'))); reflexivity.
Qed.

(** The counter the scheduler consults is the one of the recipient's local
    date. *)
Lemma scheduler_reads_local_date (phone : string) (user : User) :
  users d !! phone = Some user ->
  let check := Scheduler.checkDailyLimit e d phone in
  Scheduler.localDate check
  = Moment.format_date (tzdb e) (Scheduler.zoneOf (timezone user)) (now e)
  /\ Scheduler.messagesSentToday check = messages_sent d phone (Scheduler.localDate check).
Proof.
  intros Hu. unfold Scheduler.checkDailyLimit. rewrite Hu. simpl. split; reflexivity.
Qed.

(** No counter ever goes down in a scheduler turn. *)
Lemma scheduler_counter_monotone (phone : string) (user : User) (phone' : string) (date' : Z) :
  messages_sent d phone' date'
  <= messages_sent (Scheduler.checkUserForMessage e d phone user).2 phone' date'.
Proof.
  destruct (checkUserForMessage_cases e d phone user)
    as [[_ H] | [(_ & _ & H) | (_ & _ & H)]]; rewrite H; simpl; try lia.
  unfold afterWindow.
  destruct (Scheduler.messagesSentToday (Scheduler.checkDailyLimit e d phone) >=? 4);
    [simpl; lia |].
  destruct (Scheduler.isUserDueForMessage e user) as [mt pos mid | reason]; [| simpl; lia].
  destruct (Scheduler.getNextMessage e d user mt pos) as [err | [m |]]; try (simpl; lia).
  unfold send.
  destruct (sendMessageFunction e phone _ (id m)); simpl; [| unfold messages_sent; simpl; lia].
  unfold Scheduler.updateUserProgress, messages_sent, bump_daily_limit. simpl.
  rewrite lookup_insert. destruct (decide _) as [Heq | Hne]; simpl; [| lia].
  injection Heq as <- <-. unfold messages_sent. simpl. lia.
Qed.

(** Nor in the processing of an injection. *)
Lemma injector_counter_monotone (injection : Injector.Injection) (phone' : string) (date' : Z) :
  messages_sent d phone' date'
  <= messages_sent (Injector.processSingleInjection e d injection).2 phone' date'.
Proof.
  destruct (processSingleInjection_cases e d injection)
    as [[_ H] | [(_ & _ & err & H) | [(_ & _ & _ & H) | (_ & _ & _ & H)]]];
    rewrite H; simpl; try lia.
  unfold afterChecks.
  destruct (getMessage d (pm_message_id (Injector.row injection))) as [m |]; [| simpl; lia].
  unfold send.
  destruct (sendMessageFunction e _ _ _); simpl; [| unfold messages_sent; simpl; lia].
  unfold Injector.updateUserAfterInjection, messages_sent, bump_daily_limit. simpl.
  rewrite lookup_insert. destruct (decide _) as [Heq | Hne]; simpl; [| lia].
  injection Heq as <- <-. unfold messages_sent. simpl. lia.
Qed.

(** Inside the sending window the scheduler refuses, with the cap's reason
    and the store untouched, exactly when the counter of the local date has
    reached 4; below the cap it goes on to the eligibility check. *)
Lemma scheduler_daily_cap (phone : string) (user : User) :
  let zone := Scheduler.zoneOf (timezone user) in
  Moment.day (tzdb e) zone (now e) <> 0 ->
  9 <= Moment.hour (tzdb e) zone (now e) < 18 ->
  let count := Scheduler.messagesSentToday (Scheduler.checkDailyLimit e d phone) in
  (4 <= count ->
   Scheduler.checkUserForMessage e d phone user
   = (Scheduler.NotSent "Daily limit reached (4 messages)", d))
  /\ (count < 4 ->
      forall messageType position messageId m,
        Scheduler.isUserDueForMessage e user
        = Scheduler.Due messageType position messageId ->
        Scheduler.getNextMessage e d user messageType position = inr (Some m) ->
        sendMessageFunction e phone
          (personalizeMessage (message_text m) (first_name user)) (id m) = SendOk ->
        Scheduler.sent (Scheduler.checkUserForMessage e d phone user).1 = true).
Proof.
  intros zone Hday Hhour count.
  destruct (checkUserForMessage_cases e d phone user)
    as [[H0 _] | [(_ & H0 & _) | (_ & _ & H)]];
    [contradiction | fold zone in H0; lia |].
  rewrite H. unfold afterWindow. fold count. rewrite Z.geb_leb.
  destruct (Z.leb_spec 4 count); split; intros; try lia; [reflexivity |].
  match goal with
  | Hd : Scheduler.isUserDueForMessage _ _ = _,
    Hg : Scheduler.getNextMessage _ _ _ _ _ = _,
    Hs : sendMessageFunction _ _ _ _ = _ |- _ =>
      rewrite Hd, Hg; unfold send; rewrite Hs; reflexivity
  end.
Qed.

End DailyCounter.

(** C3.  The scheduler keeps the cap of four per local day
    ([scheduler_daily_cap]); the injector counts per UTC date, so a recipient
    on Pacific time who has had four messages on a local day is sent a fifth
    one that same local day once UTC has passed midnight.  Four injections at
    10:00 local time are sent and a fifth is refused; at 16:30 local time the
    scheduler still refuses, and the injector sends. *)
Theorem fifth_send_same_local_day :
  let localDate := Moment.format_date zones "America/Los_Angeles" in
  let morning :=
    injectAll mondayMorning pacificDb [noticeFor 1; noticeFor 2; noticeFor 3; noticeFor 4] in
  morning.1 = [Injector.Sent; Injector.Sent; Injector.Sent; Injector.Sent]
  /\ Injector.processSingleInjection mondayMorning morning.2 (noticeFor 5)
     = (Injector.NotSent "Daily limit reached (4 messages)", morning.2)
  /\ localDate (now mondayAfternoon) = localDate (now mondayMorning)
  /\ Moment.hour zones "America/Los_Angeles" (now mondayAfternoon) = 16
  /\ messages_sent morning.2 pacificPhone (localDate (now mondayAfternoon)) = 4
  /\ Scheduler.checkUserForMessage mondayAfternoon morning.2 pacificPhone pacific
     = (Scheduler.NotSent "Daily limit reached (4 messages)", morning.2)
  /\ (Injector.processSingleInjection mondayAfternoon morning.2 (noticeFor 5)).1
     = Injector.Sent.
Proof.
  vm_compute. repeat split; reflexivity.
Qed.

(** C4.  No counter decreases ([scheduler_counter_monotone],
    [injector_counter_monotone]) and the scheduler keys the counter by the
    recipient's local date ([scheduler_reads_local_date],
    [updateUserProgress_counter]); the injector keys it by the UTC date.  At
    16:30 on 2024-01-01 in Los Angeles (day 19723) the UTC date is
    2024-01-02 (day 19724): an injection leaves the counter of the local date
    at 0 and sets the one of the UTC date to 1, where a scheduler update at
    the same instant counts on the local date. *)
Theorem injector_counter_keyed_by_utc_date :
  let after := Injector.processSingleInjection mondayAfternoon pacificDb (noticeFor 1) in
  after.1 = Injector.Sent
  /\ Moment.format_date zones (timezone pacific) (now mondayAfternoon) = 19723
  /\ Moment.utc_date (now mondayAfternoon) = 19724
  /\ Injector.checkDailyLimit mondayAfternoon after.2 pacificPhone
     = messages_sent after.2 pacificPhone 19724
  /\ messages_sent after.2 pacificPhone 19723 = 0
  /\ messages_sent after.2 pacificPhone 19724 = 1
  /\ messages_sent
       (Scheduler.updateUserProgress mondayAfternoon pacificDb pacificPhone pacific "sequence")
       pacificPhone 19723 = 1.
Proof.
  vm_compute. repeat split; reflexivity.
Qed.

(** ** What a send writes *)

Section Frames.

Variables (e : Env) (d : Db).



End Frames.






(** ** The reply handler *)

Section Replies.

Import ResponseHandler.

Variables (e : Env) (d : Db).

Lemma property_is_Some (table : list (string * string)) (key : string) :
  is_Some (property table key) <-> In key (List.map fst table).
Proof.
  unfold property. induction table as [| [k v] table IH]; simpl.
  - split; [intros [x Hx]; discriminate | intros []].
  - destruct (String.eqb_spec k key) as [-> | Hne]; simpl.
    + split; [now left | intros _; eexists; reflexivity].
    + rewrite IH. split; [now right | intros [Heq | Hin]; [contradiction | assumption]].
Qed.

Lemma handleSystemCommands_handled (phone text : string) :
  handled (handleSystemCommands e d phone text).1 = true
  <-> In text ["STOP"; "START"; "RESET"].
Proof.
  unfold handleSystemCommands.
  destruct (String.eqb_spec text "STOP") as [-> | H1]; [simpl; tauto |].
  destruct (String.eqb_spec text "START") as [-> | H2]; [simpl; tauto |].
  destruct (String.eqb_spec text "RESET") as [-> | H3].
  - split; [simpl; tauto | intros _].
    destruct (getUser d phone) as [u |]; [| reflexivity].
    destruct (String.eqb (user_type u) "subscriber"); reflexivity.
  - simpl. split; [discriminate |].
    intros [H | [H | [H | []]]]; congruence.
Qed.

Lemma handleSystemCommands_unhandled (phone text : string) :
  handled (handleSystemCommands e d phone text).1 = false ->
  handleSystemCommands e d phone text = (NotHandled, d).
Proof.
  unfold handleSystemCommands.
  destruct (String.eqb text "STOP"); [discriminate |].
  destruct (String.eqb text "START"); [discriminate |].
  destruct (String.eqb text "RESET"); [| reflexivity].
  destruct (getUser d phone) as [u |]; [| discriminate].
  destruct (String.eqb (user_type u) "subscriber"); discriminate.
Qed.

Lemma handleCrisisKeywords_handled (phone text : string) :
  handled (handleCrisisKeywords e d phone text).1 = true
  <-> In text ["HELP"; "ANXIETY"; "STRESS"; "PANIC"; "CRISIS"; "POSITIVE";
               "AFFIRM"; "BREATHE"; "CALM"].
Proof.
  change ["HELP"; "ANXIETY"; "STRESS"; "PANIC"; "CRISIS"; "POSITIVE";
          "AFFIRM"; "BREATHE"; "CALM"] with (List.map fst crisisKeywords).
  rewrite <- property_is_Some. unfold handleCrisisKeywords.
  destruct (property crisisKeywords text) as [rid |]; simpl.
  - split; [intros _; eexists; reflexivity | reflexivity].
  - split; [discriminate | intros [x Hx]; discriminate].
Qed.

Lemma handleCrisisKeywords_unhandled (phone text : string) :
  handled (handleCrisisKeywords e d phone text).1 = false ->
  handleCrisisKeywords e d phone text = (NotHandled, d).
Proof.
  unfold handleCrisisKeywords.
  destruct (property crisisKeywords text); [discriminate | reflexivity].
Qed.

Lemma handleUnrecognizedMessage_handled (phone text : string) :
  (handleUnrecognizedMessage e d phone text).1
  = Handled "unrecognized" "Sent help response for unrecognized message".
Proof. reflexivity. Qed.

End Replies.

(** The four steps of [processIncomingMessage], each started from the store
    the log line left. *)
Lemma processIncomingMessage_steps (e : Env) (d : Db) (phoneNumber messageBody : string) :
  let phone := ResponseHandler.normalizePhoneNumber phoneNumber in
  let clean := Js.toUpperCase (Js.trim messageBody) in
  let d0 := logFunction d "info"
              ("Received message from " +:+ phone +:+ ": " +:+ messageBody) in
  let command := ResponseHandler.handleSystemCommands e d0 phone clean in
  let crisis := ResponseHandler.handleCrisisKeywords e d0 phone clean in
  let interactive := ResponseHandler.handleInteractiveResponse e d0 phone clean in
  let fallback := ResponseHandler.handleUnrecognizedMessage e interactive.2 phone messageBody in
  ResponseHandler.processIncomingMessage e d phoneNumber messageBody
  = if ResponseHandler.handled command.1 then command
    else if ResponseHandler.handled crisis.1 then crisis
    else if ResponseHandler.handled interactive.1 then interactive
    else fallback.
Proof.
  intros phone clean d0 command crisis interactive fallback.
  unfold ResponseHandler.processIncomingMessage.
  fold phone clean d0 command.
  destruct (ResponseHandler.handled command.1) eqn:Hc.
  - destruct command as [r1 d1]. simpl in Hc. rewrite Hc. reflexivity.
  - pose proof (handleSystemCommands_unhandled e d0 phone clean Hc) as Hcmd.
    fold command in Hcmd. rewrite Hcmd. simpl. fold crisis.
    destruct (ResponseHandler.handled crisis.1) eqn:Hk.
    + destruct crisis as [r2 d2]. simpl in Hk. rewrite Hk. reflexivity.
    + pose proof (handleCrisisKeywords_unhandled e d0 phone clean Hk) as Hcr.
      fold crisis in Hcr. rewrite Hcr. simpl. fold interactive.
      unfold fallback.
      destruct interactive as [r3 d3]. simpl.
      destruct (ResponseHandler.handled r3); reflexivity.
Qed.

(** C5.  [processIncomingMessage] tries the system commands (STOP, START,
    RESET), then the crisis keywords, then the interactive step, then the
    fallback.  The first step that handles the reply gives the result and the
    final store; a step that does not match leaves the store as it found it,
    and the steps after the matching one contribute nothing.  A reply that
    none of the first three steps handles is answered by the fallback, so the
    result is handled for every input. *)
Theorem reply_priority_order (e : Env) (d : Db) (phoneNumber messageBody : string) :
  let phone := ResponseHandler.normalizePhoneNumber phoneNumber in
  let clean := Js.toUpperCase (Js.trim messageBody) in
  let d0 := logFunction d "info"
              ("Received message from " +:+ phone +:+ ": " +:+ messageBody) in
  let command := ResponseHandler.handleSystemCommands e d0 phone clean in
  let crisis := ResponseHandler.handleCrisisKeywords e d0 phone clean in
  let interactive := ResponseHandler.handleInteractiveResponse e d0 phone clean in
  let fallback := ResponseHandler.handleUnrecognizedMessage e interactive.2 phone messageBody in
  let result := ResponseHandler.processIncomingMessage e d phoneNumber messageBody in
  (ResponseHandler.handled command.1 = true <-> In clean ["STOP"; "START"; "RESET"])
  /\ (ResponseHandler.handled crisis.1 = true
      <-> In clean ["HELP"; "ANXIETY"; "STRESS"; "PANIC"; "CRISIS"; "POSITIVE";
                    "AFFIRM"; "BREATHE"; "CALM"])
  /\ (ResponseHandler.handled command.1 = false -> command.2 = d0)
  /\ (ResponseHandler.handled crisis.1 = false -> crisis.2 = d0)
  /\ (ResponseHandler.handled command.1 = true -> result = command)
  /\ (ResponseHandler.handled command.1 = false ->
      ResponseHandler.handled crisis.1 = true -> result = crisis)
  /\ (ResponseHandler.handled command.1 = false ->
      ResponseHandler.handled crisis.1 = false ->
      ResponseHandler.handled interactive.1 = true -> result = interactive)
  /\ (ResponseHandler.handled command.1 = false ->
      ResponseHandler.handled crisis.1 = false ->
      ResponseHandler.handled interactive.1 = false -> result = fallback)
  /\ ResponseHandler.action fallback.1 = Some "unrecognized"
  /\ ResponseHandler.handled result.1 = true.
Proof.
  intros phone clean d0 command crisis interactive fallback result.
  pose proof (processIncomingMessage_steps e d phoneNumber messageBody) as Hres.
  cbv zeta in Hres. fold phone clean d0 command crisis interactive fallback result in Hres.
  split; [apply handleSystemCommands_handled |].
  split; [apply handleCrisisKeywords_handled |].
  split.
  { intros Hc. unfold command. now rewrite handleSystemCommands_unhandled. }
  split.
  { intros Hk. unfold crisis. now rewrite handleCrisisKeywords_unhandled. }
  split; [intros Hc; now rewrite Hres, Hc |].
  split; [intros Hc Hk; now rewrite Hres, Hc, Hk |].
  split; [intros Hc Hk Hi; now rewrite Hres, Hc, Hk, Hi |].
  split; [intros Hc Hk Hi; now rewrite Hres, Hc, Hk, Hi |].
  split; [reflexivity |].
  rewrite Hres.
  destruct (ResponseHandler.handled command.1) eqn:Hc; [exact Hc |].
  destruct (ResponseHandler.handled crisis.1) eqn:Hk; [exact Hk |].
  destruct (ResponseHandler.handled interactive.1) eqn:Hi; [exact Hi |].
  reflexivity.
Qed.

Lemma reply_priority_order_witness :
  let d := janeDb "2" (newYearNoon - 3600000) in
  let result := ResponseHandler.processIncomingMessage atNoon d janePhone " stop" in
  ResponseHandler.action result.1 = Some "stopped"
  /\ subscription_status <$> (users result.2 !! janePhone) = Some "stopped"
  /\ (users result.2 !! janePhone) ≫= awaiting_response = Some "2".
Proof.
  intros d result.
  destruct (reply_priority_order atNoon d janePhone " stop")
    as (_ & _ & _ & _ & Hcommand & _).
  unfold result. rewrite Hcommand by (vm_compute; reflexivity).
  vm_compute. repeat split; reflexivity.
Defined.

(** ** The letters of an option set, and texts without an option marker *)

Section Letters.

Import ResponseHandler.











End Letters.

(** ** The interactive step *)

Section Interactive.

Import ResponseHandler.

Variables (e : Env) (d : Db) (phone : string) (user : User) (mid : string).

Hypothesis Huser : getUser d phone = Some user.
Hypothesis Hawaiting : awaiting_response user = Some mid.
Hypothesis Hmid : mid <> EmptyString.






End Interactive.

Lemma clearAwaitingResponse_other (d : Db) (phone other : string) :
  other <> phone ->
  users (ResponseHandler.clearAwaitingResponse d phone) !! other = users d !! other.
Proof.
  intros Hne. unfold ResponseHandler.clearAwaitingResponse. simpl.
  rewrite lookup_alter_ne by congruence. reflexivity.
Qed.

Lemma markLast_length (t : Z) (p mid : string) (rows : list HistoryRow) :
  List.length (ResponseHandler.markLast t p mid rows) = List.length rows.
Proof.
  induction rows as [| h rows IH]; simpl; [reflexivity |].
  destruct (ResponseHandler.matchesRow p mid h && _); simpl; congruence.
Qed.






(** The window is a day on the server's clock, not 24 hours.  On a server
    that keeps Chicago time, a question sent at noon on the eve of the spring
    change is open for 23 hours: the answer B that arrives 23 and a half
    hours later finds the state expired and gets the help text. *)
Example spring_window_is_23_hours :
  let since := 1710007200000 in
  let e := mkEnv chicago2024 alwaysDelivers (since + 23 * 3600000 + 1800000) 0 in
  let d := janeDb "2" since in
  let result := ResponseHandler.processIncomingMessage e d janePhone "B" in
  Moment.addLocalDay chicago2024 since = since + 23 * 3600000
  /\ now e <= since + 24 * 3600000
  /\ In "B" (ResponseHandler.extractResponseOptions (message_text checkIn))
  /\ ResponseHandler.action result.1 = Some "unrecognized"
  /\ outbox result.2 = [helpText janePhone (Some "Jane")].
Proof.
  vm_compute. repeat split; try reflexivity; try discriminate.
  right. left. reflexivity.
Qed.




(** Nor is the bound 24 hours.  On a server that keeps Chicago time, a
    question sent at noon on the eve of the autumn change is open for 25
    hours: the answer B that arrives 24 and a half hours later is read as
    the interactive answer and gets its follow-up. *)
Example autumn_window_is_25_hours :
  let since := 1730566800000 in
  let e := mkEnv chicago2024 alwaysDelivers (since + 24 * 3600000 + 1800000) 0 in
  let d := janeDb "2" since in
  let result := ResponseHandler.processIncomingMessage e d janePhone "B" in
  Moment.addLocalDay chicago2024 since = since + 25 * 3600000
  /\ since + 24 * 3600000 < now e
  /\ ResponseHandler.action result.1 = Some "interactive_response"
  /\ outbox result.2
     = [mkOutbound janePhone "Calm is a superpower, Jane. Carry it with you today." "2b"].
Proof.
  vm_compute. repeat split; reflexivity.
Qed.

Section Expiry.

Import ResponseHandler.



Lemma getUser_logFunction (d : Db) (level text phone : string) :
  getUser (logFunction d level text) phone = getUser d phone.
Proof. reflexivity. Qed.

End Expiry.



(** ** The option set *)

Section Options.

Import ResponseHandler.


End Options.




(** ** Phone identifiers *)

(** The validated normaliser of the sync keeps to the contract: strip the
    non-digits, prepend 1 to ten digits, accept exactly the eleven-digit
    results that start with 1. *)
Lemma validated_normalisation (phoneNumber result : string) :
  WordPressSync.normalizePhoneNumber (Some phoneNumber) = Some result
  <-> (let digits := Js.filter Js.isDigit phoneNumber in
       let padded := if (String.length digits =? 10)%nat then "1" +:+ digits else digits in
       String.length padded = 11%nat
       /\ Js.startsWith padded "1" = true
       /\ result = "+" +:+ padded).
Proof.
  destruct phoneNumber as [| c r].
  { split; [discriminate | intros (H & _); discriminate]. }
  set (s := String c r).
  set (digits := Js.filter Js.isDigit s).
  set (padded := if (String.length digits =? 10)%nat then "1" +:+ digits else digits).
  assert (H : WordPressSync.normalizePhoneNumber (Some s)
              = if negb (String.length padded =? 11)%nat
                   || negb (Js.startsWith padded "1")
                then None else Some ("+" +:+ padded)) by reflexivity.
  rewrite H. clear H. cbv zeta. fold digits. fold padded.
  destruct (Nat.eqb_spec (String.length padded) 11) as [Hlen | Hlen]; cbn [negb orb].
  - destruct (Js.startsWith padded "1") eqn:Hs; cbn [negb].
    + split; [intros [= <-]; auto | intros (_ & _ & ->); reflexivity].
    + split; [discriminate | intros (_ & H & _); discriminate].
  - split; [discriminate | intros (H & _); contradiction].
Qed.

(** C8.  The sync validates ([validated_normalisation]); the reply handler
    and the transport normalise without validating, and with another
    prepending rule.  The identifier 123 is invalid under the contract, yet
    the handler takes it as +123, answers the reply and logs it; with a row
    stored under +123 a STOP from it changes that row.  The ten digits
    123-456-7890 are +11234567890 for the sync and +1234567890 for the
    handler and the transport. *)
Theorem unvalidated_identifier_handled :
  let stranger := mkUser "Elevate" "trial" 1 0 "trial" 0 1 0 0 None "America/Chicago"
                         None None None None 0 in
  let empty := mkDb ∅ ∅ [] [] [] [] [] in
  let stored := mkDb {[ "+123" := stranger ]} ∅ [] [] [] [] [] in
  let hello := ResponseHandler.processIncomingMessage atNoon empty "123" "hello" in
  let stop := ResponseHandler.processIncomingMessage atNoon stored "123" "STOP" in
  WordPressSync.normalizePhoneNumber (Some "123") = None
  /\ ResponseHandler.normalizePhoneNumber "123" = "+123"
  /\ App.normalizedPhone "123" = "+123"
  /\ ResponseHandler.handled hello.1 = true
  /\ outbox hello.2 = [helpText "+123" None]
  /\ List.length (log hello.2) = 2%nat
  /\ ResponseHandler.action stop.1 = Some "stopped"
  /\ subscription_status <$> (users stop.2 !! "+123") = Some "stopped"
  /\ WordPressSync.normalizePhoneNumber (Some "123-456-7890") = Some "+11234567890"
  /\ ResponseHandler.normalizePhoneNumber "123-456-7890" = "+1234567890"
  /\ App.normalizedPhone "123-456-7890" = "+1234567890".
Proof.
  vm_compute. repeat split; reflexivity.
Qed.


(** * Further properties of the reply handler *)

Section ReplyFrames.

Import ResponseHandler.

Variables (e : Env) (phone : string).

Lemma replyFrame_refl (d : Db) : replyFrame phone d d.
Proof. repeat split; auto. Qed.

Lemma replyFrame_alter (f : User -> User) (d : Db) :
  replyFrame phone d (set_users d (alter f phone (users d))).
Proof.
  split; [simpl; apply dom_alter_L |].
  split; [intros other Hne; simpl; now rewrite lookup_alter_ne by congruence |].
  repeat split; auto.
Qed.

Lemma replyFrame_send (d : Db) (body mid : string) :
  replyFrame phone d (send e d phone body mid).2.
Proof.
  repeat split; auto. right. eexists. split; reflexivity.
Qed.

Lemma replyFrame_log (d d' : Db) (level text : string) :
  replyFrame phone d d' -> replyFrame phone d (logFunction d' level text).
Proof. intros H. exact H. Qed.

Lemma replyFrame_log_l (d d' : Db) (level text : string) :
  replyFrame phone (logFunction d level text) d' -> replyFrame phone d d'.
Proof. intros H. exact H. Qed.

(** A change of the sender's row followed by one dispatch. *)
Lemma replyFrame_alter_send (f : User -> User) (d d' : Db) :
  d' = set_users d (alter f phone (users d)) ->
  forall d'', (d'' = d' \/ exists body mid, d'' = (send e d' phone body mid).2) ->
  replyFrame phone d d''.
Proof.
  intros -> d'' [-> | (body & mid & ->)]; [apply replyFrame_alter |].
  split; [simpl; apply dom_alter_L |].
  split; [intros other Hne; simpl; now rewrite lookup_alter_ne by congruence |].
  repeat split; auto. right. eexists. split; reflexivity.
Qed.

Lemma sendSystemMessage_cases (d : Db) (mid : string) :
  sendSystemMessage e d phone mid = d
  \/ exists body, sendSystemMessage e d phone mid = (send e d phone body mid).2.
Proof.
  unfold sendSystemMessage. destruct (getMessage d mid); [right; eauto | now left].
Qed.

Lemma handleSystemCommands_frame (d : Db) (text : string) :
  replyFrame phone d (handleSystemCommands e d phone text).2.
Proof.
  unfold handleSystemCommands.
  destruct (String.eqb text "STOP").
  { simpl. eapply replyFrame_alter_send; [reflexivity |].
    destruct (sendSystemMessage_cases (stopUser e d phone) "34453cds") as [-> | [b ->]];
      [now left | right; eauto]. }
  destruct (String.eqb text "START").
  { simpl. eapply replyFrame_alter_send; [reflexivity |].
    destruct (sendSystemMessage_cases (startUser e d phone) "3452cds3") as [-> | [b ->]];
      [now left | right; eauto]. }
  destruct (String.eqb text "RESET"); [| apply replyFrame_refl].
  destruct (getUser d phone) as [u |]; [| apply replyFrame_send].
  destruct (negb _); [apply replyFrame_send |].
  simpl. eapply replyFrame_alter_send; [reflexivity |]. right. eauto.
Qed.

Lemma handleCrisisKeywords_frame (d : Db) (text : string) :
  replyFrame phone d (handleCrisisKeywords e d phone text).2.
Proof.
  unfold handleCrisisKeywords.
  destruct (property crisisKeywords text) as [rid |]; [| apply replyFrame_refl].
  simpl. destruct (getMessage d rid); apply replyFrame_send.
Qed.

(** The four ways the interactive step can end. *)
Lemma handleInteractiveResponse_cases (d : Db) (response : string) :
  handleInteractiveResponse e d phone response = (NotHandled, d)
  \/ handleInteractiveResponse e d phone response
     = (NotHandled, clearAwaitingResponse d phone)
  \/ (exists text options,
        handleInteractiveResponse e d phone response
        = (Handled "invalid_response" text, push_outbox d (reprompt phone options)))
  \/ (exists text user mid,
        handleInteractiveResponse e d phone response
        = (Handled "interactive_response" text,
           clearAwaitingResponse
             (recordInteractiveResponse e
                (push_outbox d (followUp d phone user (mid +:+ Js.toLowerCase response)))
                phone mid)
             phone)).
Proof.
  unfold handleInteractiveResponse.
  destruct (getUser d phone) as [user |]; [| now left].
  destruct (negb (Js.truthy (awaiting_response user))); [now left |].
  destruct (now e >? _); [right; now left |].
  destruct (getMessage d _) as [original |]; [| right; now left].
  cbv zeta.
  destruct (_ =? 0)%nat; [right; now left |].
  destruct (negb _).
  - right. right. left. eexists. eexists. reflexivity.
  - right. right. right.
    eexists. exists user, (default EmptyString (awaiting_response user)).
    unfold followUp, send.
    destruct (getMessage d (default EmptyString (awaiting_response user)
                            +:+ Js.toLowerCase response)); reflexivity.
Qed.

Lemma followUp_to (d : Db) (user : User) (fid : string) :
  o_to (followUp d phone user fid) = phone.
Proof. unfold followUp. destruct (getMessage d fid); reflexivity. Qed.

Lemma handleInteractiveResponse_frame (d : Db) (response : string) :
  replyFrame phone d (handleInteractiveResponse e d phone response).2.
Proof.
  destruct (handleInteractiveResponse_cases d response)
    as [-> | [-> | [(t & o & ->) | (t & u & m & ->)]]]; simpl.
  - apply replyFrame_refl.
  - apply replyFrame_alter.
  - repeat split; auto. right. eexists. split; reflexivity.
  - split; [simpl; apply dom_alter_L |].
    split; [intros other Hne; simpl; now rewrite lookup_alter_ne by congruence |].
    repeat split; auto.
    + simpl. rewrite markLast_length. apply le_n.
    + right. eexists. split; [reflexivity | apply followUp_to].
Qed.

(** An interactive step that declines has sent nothing. *)
Lemma handleInteractiveResponse_declines (d : Db) (response : string) :
  handled (handleInteractiveResponse e d phone response).1 = false ->
  handleInteractiveResponse e d phone response = (NotHandled, d)
  \/ handleInteractiveResponse e d phone response
     = (NotHandled, clearAwaitingResponse d phone).
Proof.
  destruct (handleInteractiveResponse_cases d response)
    as [H | [H | [(t & o & H) | (t & u & m & H)]]]; rewrite H; simpl; auto; discriminate.
Qed.

End ReplyFrames.

Lemma filter_filter (p : ascii -> bool) (s : string) :
  Js.filter p (Js.filter p s) = Js.filter p s.
Proof.
  induction s as [| c r IH]; [reflexivity |].
  simpl. destruct (p c) eqn:Hc; [| exact IH].
  simpl. rewrite Hc. now rewrite IH.
Qed.

Lemma startsWith_one (national : string) :
  Js.startsWith (String "1" national) "1" = true.
Proof.
  unfold Js.startsWith. cbn [String.prefix].
  destruct (ascii_dec "1" "1") as [_ | Hne]; [| now destruct Hne].
  now destruct national.
Qed.

(** The transport normalises the number it is given once more; a number the
    handler has normalised comes out as it went in, so the row the transport
    addresses is the sender's. *)
Lemma transport_keeps_the_sender (phoneNumber : string) :
  App.normalizedPhone (ResponseHandler.normalizePhoneNumber phoneNumber)
  = ResponseHandler.normalizePhoneNumber phoneNumber.
Proof.
  unfold App.normalizedPhone, ResponseHandler.normalizePhoneNumber.
  set (n := Js.filter Js.isDigit phoneNumber).
  assert (Hn : Js.filter Js.isDigit n = n) by apply filter_filter.
  destruct (negb (Js.startsWith n "1") && (String.length n =? 10)%nat) eqn:Hc.
  - change (Js.filter Js.isDigit ("+" +:+ "1" +:+ n))
      with (String "1" (Js.filter Js.isDigit n)).
    rewrite Hn. rewrite startsWith_one. reflexivity.
  - change (Js.filter Js.isDigit ("+" +:+ n)) with (Js.filter Js.isDigit n).
    rewrite Hn, Hc. reflexivity.
Qed.

(** X1.  Whatever the sender and the text, handling a reply never adds or
    removes a row of the registry and changes no row but the sender's, which
    is also the row the transport addresses; it leaves the daily counters,
    the catalog and the pending injections alone, removes no delivery
    record, and dispatches at most one message, addressed to the normalised
    sender. *)
Theorem reply_touches_only_the_sender (e : Env) (d : Db) (phoneNumber messageBody : string) :
  let phone := ResponseHandler.normalizePhoneNumber phoneNumber in
  let result := ResponseHandler.processIncomingMessage e d phoneNumber messageBody in
  App.normalizedPhone phone = phone
  /\ dom (users result.2) = dom (users d)
  /\ (forall other, other <> phone -> users result.2 !! other = users d !! other)
  /\ daily_limits result.2 = daily_limits d
  /\ messages result.2 = messages d
  /\ pending_messages result.2 = pending_messages d
  /\ (List.length (message_history d) <= List.length (message_history result.2))%nat
  /\ (outbox result.2 = outbox d
      \/ exists o, outbox result.2 = (outbox d ++ [o])%list /\ o_to o = phone).
Proof.
  intros phone result.
  split; [apply transport_keeps_the_sender |].
  change (replyFrame phone d result.2).
  unfold result. rewrite processIncomingMessage_steps. cbv zeta. fold phone.
  set (clean := Js.toUpperCase (Js.trim messageBody)).
  set (d0 := logFunction d "info" _).
  destruct (ResponseHandler.handled _) eqn:Hc.
  { apply (replyFrame_log_l phone d _ "info" _ (handleSystemCommands_frame e phone d0 clean)). }
  destruct (ResponseHandler.handled (ResponseHandler.handleCrisisKeywords _ _ _ _).1) eqn:Hk.
  { apply (replyFrame_log_l phone d _ "info" _ (handleCrisisKeywords_frame e phone d0 clean)). }
  destruct (ResponseHandler.handled (ResponseHandler.handleInteractiveResponse _ _ _ _).1) eqn:Hi.
  { apply (replyFrame_log_l phone d _ "info" _ (handleInteractiveResponse_frame e phone d0 clean)). }
  destruct (handleInteractiveResponse_declines e phone d0 clean Hi) as [-> | ->]; simpl.
  - repeat split; auto. right. eexists. split; reflexivity.
  - split; [simpl; apply dom_alter_L |].
    split; [intros other Hne; simpl; now rewrite lookup_alter_ne by congruence |].
    repeat split; auto. right. eexists. split; reflexivity.
Qed.

(** ** STOP and START *)

Section Commands.

Import ResponseHandler.

Variable (e : Env).

Lemma users_sendSystemMessage (d : Db) (phone mid : string) :
  users (sendSystemMessage e d phone mid) = users d.
Proof. unfold sendSystemMessage. destruct (getMessage d mid); reflexivity. Qed.

Lemma processIncomingMessage_stop (d : Db) (phoneNumber messageBody : string) :
  Js.toUpperCase (Js.trim messageBody) = "STOP" ->
  let phone := normalizePhoneNumber phoneNumber in
  action (processIncomingMessage e d phoneNumber messageBody).1 = Some "stopped"
  /\ users (processIncomingMessage e d phoneNumber messageBody).2
     = alter (stoppedRow (now e)) phone (users d).
Proof.
  intros Hclean phone. unfold processIncomingMessage. rewrite Hclean. fold phone.
  unfold handleSystemCommands. simpl String.eqb. cbv iota. simpl.
  split; [reflexivity |]. now rewrite users_sendSystemMessage.
Qed.

Lemma processIncomingMessage_start (d : Db) (phoneNumber messageBody : string) :
  Js.toUpperCase (Js.trim messageBody) = "START" ->
  let phone := normalizePhoneNumber phoneNumber in
  action (processIncomingMessage e d phoneNumber messageBody).1 = Some "started"
  /\ users (processIncomingMessage e d phoneNumber messageBody).2
     = alter (startedRow (now e)) phone (users d).
Proof.
  intros Hclean phone. unfold processIncomingMessage. rewrite Hclean. fold phone.
  unfold handleSystemCommands. simpl String.eqb. cbv iota. simpl.
  split; [reflexivity |]. now rewrite users_sendSystemMessage.
Qed.

End Commands.



(** ** Crisis keywords *)

Section Crisis.

Import ResponseHandler.

(** The message a crisis keyword is answered with. *)
Lemma handleCrisisKeywords_keyword (e : Env) (d : Db) (phone text responseId : string) :
  property crisisKeywords text = Some responseId ->
  exists summary,
    handleCrisisKeywords e d phone text
    = (Handled "crisis_support" summary,
       logFunction
         (push_outbox d
            match getMessage d responseId with
            | Some template =>
                mkOutbound phone
                  (personalizeMessage (message_text template) (getUser d phone ≫= first_name))
                  responseId
            | None =>
                mkOutbound phone
                  (Js.orElse (property responses text)
                             (default EmptyString (property responses "HELP")))
                  ("crisis_" +:+ Js.toLowerCase text)
            end)
         "info" ("Crisis keyword used: " +:+ text)).
Proof.
  intros Hp. unfold handleCrisisKeywords. rewrite Hp.
  eexists. unfold sendFallbackCrisisResponse, send.
  destruct (getMessage d responseId); reflexivity.
Qed.

(** The built-in texts: POSITIVE and AFFIRM have none and get the one of
    HELP. *)
Lemma fallback_text (text : string) :
  In text ["HELP"; "ANXIETY"; "STRESS"; "PANIC"; "CRISIS"; "POSITIVE";
           "AFFIRM"; "BREATHE"; "CALM"] ->
  Js.orElse (property responses text) (default EmptyString (property responses "HELP"))
  = if String.eqb text "POSITIVE" || String.eqb text "AFFIRM"
    then default EmptyString (property responses "HELP")
    else default EmptyString (property responses text).
Proof.
  simpl In.
  intros [H | [H | [H | [H | [H | [H | [H | [H | [H | []]]]]]]]]];
    rewrite <- H; reflexivity.
Qed.

End Crisis.

(** The built-in texts carry no option marker. *)
Lemma fallback_plain (text : string) :
  In text ["HELP"; "ANXIETY"; "STRESS"; "PANIC"; "CRISIS"; "POSITIVE";
           "AFFIRM"; "BREATHE"; "CALM"] ->
  App.isInteractive
    (if String.eqb text "POSITIVE" || String.eqb text "AFFIRM"
     then default EmptyString (ResponseHandler.property ResponseHandler.responses "HELP")
     else default EmptyString (ResponseHandler.property ResponseHandler.responses text))
    ("crisis_" +:+ Js.toLowerCase text)
  = false.
Proof.
  simpl In.
  intros [H | [H | [H | [H | [H | [H | [H | [H | [H | []]]]]]]]]];
    rewrite <- H; vm_compute; reflexivity.
Qed.

(** X3.  A crisis keyword is answered with exactly one message to the sender:
    the catalog's response template when it is present and active, else the
    built-in text of the keyword, which for POSITIVE and AFFIRM is the text
    of HELP.  The handler leaves the registry (so also any awaiting state),
    the counters, the catalog and the pending rows as they were.  A
    built-in text carries no option marker, so the transport that carries it
    leaves the registry as well. *)
Theorem crisis_keyword_reply (e : Env) (d : Db) (phoneNumber messageBody : string) :
  let phone := ResponseHandler.normalizePhoneNumber phoneNumber in
  let clean := Js.toUpperCase (Js.trim messageBody) in
  In clean ["HELP"; "ANXIETY"; "STRESS"; "PANIC"; "CRISIS"; "POSITIVE";
            "AFFIRM"; "BREATHE"; "CALM"] ->
  let result := ResponseHandler.processIncomingMessage e d phoneNumber messageBody in
  ResponseHandler.action result.1 = Some "crisis_support"
  /\ daily_limits result.2 = daily_limits d
  /\ messages result.2 = messages d
  /\ pending_messages result.2 = pending_messages d
  /\ exists responseId,
      ResponseHandler.property ResponseHandler.crisisKeywords clean = Some responseId
      /\ let sent :=
           match getMessage d responseId with
           | Some template =>
               mkOutbound phone
                 (personalizeMessage (message_text template)
                    (ResponseHandler.getUser d phone ≫= first_name))
                 responseId
           | None =>
               mkOutbound phone
                 (if String.eqb clean "POSITIVE" || String.eqb clean "AFFIRM"
                  then default EmptyString
                         (ResponseHandler.property ResponseHandler.responses "HELP")
                  else default EmptyString
                         (ResponseHandler.property ResponseHandler.responses clean))
                 ("crisis_" +:+ Js.toLowerCase clean)
           end in
         outbox result.2 = (outbox d ++ [sent])%list
         /\ (getMessage d responseId = None ->
             App.isInteractive (o_body sent) (o_message_id sent) = false)
         /\ (App.isInteractive (o_body sent) (o_message_id sent) = false ->
             users result.2 = users d).
Proof.
  intros phone clean Hin result.
  unfold result. rewrite processIncomingMessage_steps. cbv zeta. fold phone clean.
  set (d0 := logFunction d "info" _).
  assert (Hc : ResponseHandler.handled
                 (ResponseHandler.handleSystemCommands e d0 phone clean).1 = false).
  { apply not_true_is_false. intros H.
    apply (handleSystemCommands_handled e d0 phone clean) in H.
    simpl in Hin, H. intuition congruence. }
  rewrite Hc.
  assert (Hk : ResponseHandler.handled
                 (ResponseHandler.handleCrisisKeywords e d0 phone clean).1 = true)
    by now apply handleCrisisKeywords_handled.
  rewrite Hk.
  assert (Hsome : is_Some (ResponseHandler.property ResponseHandler.crisisKeywords clean))
    by now apply property_is_Some.
  destruct Hsome as [rid Hrid].
  destruct (handleCrisisKeywords_keyword e d0 phone clean rid Hrid) as [summary ->].
  rewrite (fallback_text clean Hin).
  split; [reflexivity |]. split; [reflexivity |]. split; [reflexivity |].
  split; [reflexivity |].
  exists rid. split; [exact Hrid |].
  split; [reflexivity |]. split; [| intros _; reflexivity].
  intros Hnone. rewrite Hnone. cbn [o_body o_message_id].
  exact (fallback_plain clean Hin).
Qed.

Lemma crisis_keyword_reply_witness :
  let since := newYearNoon - 3600000 in
  let d := janeDb "2" since in
  let result := ResponseHandler.processIncomingMessage atNoon d janePhone " affirm " in
  ResponseHandler.action result.1 = Some "crisis_support"
  /\ users result.2 = users d
  /\ o_message_id <$> outbox result.2 = ["crisis_affirm"].
Proof.
  intros since d result.
  destruct (crisis_keyword_reply atNoon d janePhone " affirm ")
    as (Ha & _ & _ & _ & rid & Hrid & Ho & Hplain & Hu).
  - vm_compute. repeat (try (left; reflexivity); right).
  - vm_compute in Hrid. injection Hrid as <-.
    split; [exact Ha |]. split; [apply Hu, Hplain; reflexivity |].
    unfold result. rewrite Ho. vm_compute. reflexivity.
Defined.

(** ** The options of a template *)

Section OptionSet.

Import ResponseHandler.

Lemma prefix_letter_paren (c a : ascii) (r : string) :
  String.prefix (String c (String ")" EmptyString)) (String a r) = true
  <-> a = c /\ nextIs ")" r = true.
Proof.
  cbn [String.prefix]. destruct (ascii_dec c a) as [-> | Hne].
  - destruct r as [| b r]; cbn [String.prefix nextIs].
    + split; [intros H; discriminate H | intros [_ H]; discriminate H].
    + destruct (ascii_dec ")" b) as [<- | Hb].
      * split; [intros _; split; [reflexivity | apply Ascii.eqb_refl] |].
        intros _. now destruct r.
      * split; [intros H; discriminate H |].
        intros [_ H]. apply Ascii.eqb_eq in H. congruence.
  - split; [intros H; discriminate H | intros [H _]; congruence].
Qed.

(** A letter is among the matches of [/[A-D]\)/g] exactly when it is one of
    A to D and the text has it followed by a closing parenthesis. *)
Lemma parenOptions_spec (s : string) (c : ascii) :
  In (letter c) (parenOptions s)
  <-> isOptionLetter c = true
      /\ Js.includes s (String c (String ")" EmptyString)) = true.
Proof.
  induction s as [| a r IH].
  - simpl. split; [intros [] | intros [_ H]; discriminate].
  - cbn [parenOptions Js.includes].
    rewrite orb_true_iff, prefix_letter_paren.
    destruct (isOptionLetter a && nextIs ")" r) eqn:Hhit.
    + apply andb_true_iff in Hhit as [Ha Hn]. simpl In. rewrite IH. split.
      * intros [Heq | [Hc Hinc]].
        -- injection Heq as ->. auto.
        -- auto.
      * intros [Hc [[-> _] | Hinc]]; [now left | right; auto].
    + rewrite IH. split.
      * intros [Hc Hinc]. auto.
      * intros [Hc [[-> Hn] | Hinc]]; [| auto].
        rewrite Hc, Hn in Hhit. discriminate.
Qed.

End OptionSet.

(** X4.  When the body of a template has some letter A to D directly
    followed by a closing parenthesis, its option set consists of exactly the
    letters A to D that occur so followed; in particular a body that contains
    "A)", which is what makes the transport mark a recipient as awaiting,
    always has a non-empty option set with A in it. *)
Theorem options_are_the_parenthesised_letters (body : string) (c0 : ascii) :
  ResponseHandler.isOptionLetter c0 = true ->
  Js.includes body (String c0 (String ")" EmptyString)) = true ->
  forall c : ascii,
    In (String c EmptyString) (ResponseHandler.extractResponseOptions (Some body))
    <-> ResponseHandler.isOptionLetter c = true
        /\ Js.includes body (String c (String ")" EmptyString)) = true.
Proof.
  intros Hc0 Hinc0 c.
  assert (Hin0 : In (ResponseHandler.letter c0) (ResponseHandler.parenOptions body))
    by (apply parenOptions_spec; auto).
  assert (Hbody : Js.truthy (Some body) = true).
  { destruct body; [discriminate | reflexivity]. }
  unfold ResponseHandler.extractResponseOptions. rewrite Hbody. simpl negb. cbv iota.
  simpl default.
  destruct (ResponseHandler.parenOptions body) as [| x xs] eqn:Hp; [destruct Hin0 |].
  rewrite <- Hp. apply parenOptions_spec.
Qed.

Lemma options_are_the_parenthesised_letters_witness :
  Js.includes (default EmptyString (message_text checkIn)) "A)" = true
  /\ In "A" (ResponseHandler.extractResponseOptions (message_text checkIn))
  /\ ~ In "E" (ResponseHandler.extractResponseOptions (message_text checkIn)).
Proof.
  assert (Hinc : Js.includes (default EmptyString (message_text checkIn)) "A)" = true)
    by (vm_compute; reflexivity).
  split; [exact Hinc |].
  pose proof (options_are_the_parenthesised_letters
                (default EmptyString (message_text checkIn)) "A" eq_refl Hinc) as H.
  split.
  - apply (H "A"%char). split; [reflexivity | exact Hinc].
  - intros HE. apply (H "E"%char) in HE as [HE _]. discriminate.
Defined.

(** * Further properties of the phone normalisers *)

Section Phones.

(** What the validating normaliser accepts: the digits of the input, with a
    1 put in front of ten of them, when that makes eleven digits that start
    with 1. *)
Lemma validated_shape (phoneNumber result : string) :
  WordPressSync.normalizePhoneNumber (Some phoneNumber) = Some result ->
  exists national,
    result = String "+" (String "1" national)
    /\ String.length national = 10%nat
    /\ Js.filter Js.isDigit national = national
    /\ (Js.filter Js.isDigit phoneNumber = national
        \/ Js.filter Js.isDigit phoneNumber = String "1" national).
Proof.
  intros H. apply validated_normalisation in H. cbv zeta in H.
  set (digits := Js.filter Js.isDigit phoneNumber) in *.
  assert (Hd : Js.filter Js.isDigit digits = digits) by apply filter_filter.
  destruct (Nat.eqb_spec (String.length digits) 10) as [Hten | Hten].
  - destruct H as (_ & _ & ->). exists digits. simpl. auto.
  - destruct H as (Hlen & Hstart & ->).
    destruct digits as [| c national]; [discriminate |].
    unfold Js.startsWith in Hstart. cbn [String.prefix] in Hstart.
    destruct (ascii_dec "1" c) as [<- | Hc]; [| discriminate Hstart].
    exists national. simpl in Hlen. injection Hlen as Hlen.
    split; [reflexivity |]. split; [exact Hlen |]. split; [| now right].
    simpl in Hd. now injection Hd.
Qed.

Lemma normalise_stored_key (national : string) :
  String.length national = 10%nat ->
  Js.filter Js.isDigit national = national ->
  let key := String "+" (String "1" national) in
  WordPressSync.normalizePhoneNumber (Some key) = Some key
  /\ ResponseHandler.normalizePhoneNumber key = key
  /\ App.normalizedPhone key = key.
Proof.
  intros Hlen Hd key.
  assert (Hf : Js.filter Js.isDigit key = String "1" national).
  { unfold key. simpl. now rewrite Hd. }
  split.
  - apply validated_normalisation. cbv zeta. rewrite Hf.
    change (String.length (String "1" national)) with (S (String.length national)).
    rewrite Hlen. change (11 =? 10)%nat with false. cbv iota.
    change (String.length (String "1" national)) with (S (String.length national)).
    rewrite Hlen.
    split; [reflexivity |]. split; [| reflexivity].
    unfold Js.startsWith. cbn [String.prefix].
    destruct (ascii_dec "1" "1") as [_ | Hne]; [| now destruct Hne].
    now destruct national.
  - unfold ResponseHandler.normalizePhoneNumber, App.normalizedPhone.
    rewrite Hf.
    assert (Hs : Js.startsWith (String "1" national) "1" = true).
    { unfold Js.startsWith. cbn [String.prefix].
      destruct (ascii_dec "1" "1") as [_ | Hne]; [| now destruct Hne].
      now destruct national. }
    rewrite Hs. cbn [negb andb]. split; reflexivity.
Qed.

End Phones.

(** X5.  Whatever the validating normaliser accepts is "+1" followed by ten
    digits, and normalising an accepted result again returns it unchanged. *)
Theorem validated_normalisation_is_idempotent (phoneNumber result : string) :
  WordPressSync.normalizePhoneNumber (Some phoneNumber) = Some result ->
  WordPressSync.normalizePhoneNumber (Some result) = Some result
  /\ exists national,
      result = "+1" +:+ national
      /\ String.length national = 10%nat
      /\ Js.filter Js.isDigit national = national.
Proof.
  intros H. apply validated_shape in H as (national & -> & Hlen & Hd & _).
  split; [now apply normalise_stored_key |].
  exists national. auto.
Qed.

Lemma validated_normalisation_is_idempotent_witness :
  WordPressSync.normalizePhoneNumber (Some "(312) 285-8457") = Some "+13122858457"
  /\ WordPressSync.normalizePhoneNumber (Some "+13122858457") = Some "+13122858457".
Proof.
  split; [reflexivity |].
  apply (validated_normalisation_is_idempotent "(312) 285-8457" "+13122858457" eq_refl).
Defined.

(** X6.  A key under which the sync stores a recipient is left as it is by
    the normalisers of the reply handler and of the transport, so a reply
    from that number finds the row.  On a raw identifier the three agree
    unless its digits are ten and start with 1, where the sync prepends
    the country code and the other two do not. *)
Theorem normalisers_agree_on_accepted_numbers (phoneNumber key : string) :
  WordPressSync.normalizePhoneNumber (Some phoneNumber) = Some key ->
  let digits := Js.filter Js.isDigit phoneNumber in
  ResponseHandler.normalizePhoneNumber key = key
  /\ App.normalizedPhone key = key
  /\ (~ (String.length digits = 10%nat /\ Js.startsWith digits "1" = true) ->
      ResponseHandler.normalizePhoneNumber phoneNumber = key
      /\ App.normalizedPhone phoneNumber = key)
  /\ (String.length digits = 10%nat /\ Js.startsWith digits "1" = true ->
      key = "+1" +:+ digits
      /\ ResponseHandler.normalizePhoneNumber phoneNumber = "+" +:+ digits
      /\ App.normalizedPhone phoneNumber = "+" +:+ digits).
Proof.
  intros H digits.
  pose proof (validated_shape phoneNumber key H) as (national & -> & Hlen & Hd & Hdigits).
  fold digits in Hdigits.
  destruct (normalise_stored_key national Hlen Hd) as (_ & Hh & Ha).
  split; [exact Hh |]. split; [exact Ha |].
  unfold ResponseHandler.normalizePhoneNumber, App.normalizedPhone. fold digits.
  destruct Hdigits as [Heq | Heq]; rewrite Heq.
  - (* ten digits *)
    rewrite Hlen. change (10 =? 10)%nat with true.
    destruct (Js.startsWith national "1") eqn:Hs; cbn [negb andb].
    + split; [intros Hno; exfalso; apply Hno; auto |]. intros _. auto.
    + split; [intros _; auto | intros [_ Hyes]; discriminate Hyes].
  - (* eleven digits that start with 1 *)
    change (String.length (String "1" national)) with (S (String.length national)).
    rewrite Hlen. rewrite startsWith_one. cbn [negb andb].
    split; [intros _; auto | intros [Hyes _]; discriminate Hyes].
Qed.

Lemma normalisers_agree_on_accepted_numbers_witness :
  WordPressSync.normalizePhoneNumber (Some "312.285.8457") = Some "+13122858457"
  /\ ResponseHandler.normalizePhoneNumber "312.285.8457" = "+13122858457"
  /\ ResponseHandler.normalizePhoneNumber "+13122858457" = "+13122858457".
Proof.
  split; [reflexivity |].
  destruct (normalisers_agree_on_accepted_numbers "312.285.8457" "+13122858457" eq_refl)
    as (Hkey & _ & Hraw & _).
  split; [| exact Hkey].
  apply Hraw. vm_compute. intros [_ H]. discriminate H.
Defined.


(** * Further properties of the scheduler *)

Section SchedulerTurn.

Variable e : Env.
Variable d : Db.

(** The three shapes of the store after a turn. *)
Lemma checkUserForMessage_shape (phone : string) (user : User) :
  let turn := Scheduler.checkUserForMessage e d phone user in
  (Scheduler.sent turn.1 = false /\ turn.2 = d)
  \/ (exists m err,
        In m (messages d)
        /\ turn = (Scheduler.NotSent ("Send failed: " +:+ err),
                   push_outbox d (mkOutbound phone
                     (personalizeMessage (message_text m) (first_name user)) (id m)))
        /\ sendMessageFunction e phone
             (personalizeMessage (message_text m) (first_name user)) (id m)
           = SendFailed err)
  \/ (exists m messageType position messageId,
        Scheduler.isUserDueForMessage e user
        = Scheduler.Due messageType position messageId
        /\ Scheduler.getNextMessage e d user messageType position = inr (Some m)
        /\ turn = (Scheduler.Sent
                     (String.substring 0 50
                        (personalizeMessage (message_text m) (first_name user)) +:+ "...")
                     (id m) (timezone user),
                   Scheduler.updateUserProgress e
                     (push_outbox d (mkOutbound phone
                        (personalizeMessage (message_text m) (first_name user)) (id m)))
                     phone user messageType)).
Proof.
  cbv zeta. unfold Scheduler.checkUserForMessage.
  destruct (_ =? 0); [left; split; reflexivity |].
  destruct (_ || _); [left; split; reflexivity |].
  destruct (_ >=? 4); [left; split; reflexivity |].
  destruct (Scheduler.isUserDueForMessage e user) as [mt pos mid | reason] eqn:Hdue;
    [| left; split; reflexivity].
  destruct (Scheduler.getNextMessage e d user mt pos) as [err | [m |]] eqn:Hnext;
    [left; split; reflexivity | | left; split; reflexivity].
  unfold send. cbn [fst snd].
  destruct (sendMessageFunction e phone _ (id m)) as [| err] eqn:Hsend.
  - right. right. exists m, mt, pos, mid. auto.
  - right. left. exists m, err. split; [| auto].
    revert Hnext. unfold Scheduler.getNextMessage, Scheduler.pickRandom.
    repeat match goal with
           | |- context [if ?c then _ else _] => destruct c
           | |- context [match ?p with Scheduler.PosNumber _ => _ | _ => _ end] => destruct p
           end;
      intros [= H]; try discriminate;
      first [ apply find_some in H; tauto
            | apply nth_error_In in H; apply filter_In in H; tauto ].
Qed.

(** The row that a lookup returns is an active template, and which one
    depends on the kind of the message. *)
Lemma getNextMessage_row (user : User) (messageType : string)
    (position : Scheduler.JsPosition) (m : Message) :
  Scheduler.getNextMessage e d user messageType position = inr (Some m) ->
  In m (messages d) /\ active m = true
  /\ (messageType = "trial" \/ messageType = "sequence" ->
      exists n, position = Scheduler.PosNumber n /\ number m = Some n
                /\ msg_protocol m = protocol user)
  /\ (messageType = "algorithm" -> number m = None /\ msg_protocol m = protocol user)
  /\ (messageType <> "trial" -> messageType <> "sequence" -> messageType <> "algorithm" ->
      category m = "Post-Trial").
Proof.
  unfold Scheduler.getNextMessage, Scheduler.pickRandom.
  destruct (String.eqb_spec messageType "trial") as [-> | Htrial]; cbn [orb].
  { intros [= H]. apply find_some in H as (Hin & H).
    apply andb_prop in H as (H & Hact). apply andb_prop in H as (Hnum & Hprot).
    apply String.eqb_eq in Hprot.
    unfold Scheduler.eqNumber in Hnum.
    destruct (number m) as [a |] eqn:Hn; [| discriminate].
    destruct position as [b | |]; try discriminate. apply Z.eqb_eq in Hnum as ->.
    split; [exact Hin |]. split; [exact Hact |]. split; [intros _; eauto |].
    split; [discriminate |]. intros Hne. now destruct Hne. }
  destruct (String.eqb_spec messageType "sequence") as [-> | Hseq].
  { intros [= H]. apply find_some in H as (Hin & H).
    apply andb_prop in H as (H & Hact). apply andb_prop in H as (Hnum & Hprot).
    apply String.eqb_eq in Hprot.
    unfold Scheduler.eqNumber in Hnum.
    destruct (number m) as [a |] eqn:Hn; [| discriminate].
    destruct position as [b | |]; try discriminate. apply Z.eqb_eq in Hnum as ->.
    split; [exact Hin |]. split; [exact Hact |]. split; [intros _; eauto |].
    split; [discriminate |]. intros _ Hne. now destruct Hne. }
  destruct (String.eqb_spec messageType "algorithm") as [-> | Halg].
  { intros [= H]. apply nth_error_In in H. apply filter_In in H as (Hin & H).
    apply andb_prop in H as (H & Hact). apply andb_prop in H as (Hnum & Hprot).
    apply String.eqb_eq in Hprot.
    destruct (number m) as [a |] eqn:Hn; [discriminate |].
    split; [exact Hin |]. split; [exact Hact |].
    split; [intros [H | H]; discriminate H |].
    split; [auto |]. intros _ _ Hne. now destruct Hne. }
  destruct (String.eqb_spec messageType "post-trial-phase1") as [-> | Hp1].
  { destruct position; intros [= H]. }
  intros [= H]. apply nth_error_In in H. apply filter_In in H as (Hin & H).
  apply andb_prop in H as (Hcat & Hact). apply String.eqb_eq in Hcat.
  split; [exact Hin |]. split; [exact Hact |].
  split; [intros [H | H]; contradiction |].
  split; [intros H; contradiction |]. auto.
Qed.

End SchedulerTurn.



(** X8.  What the scheduler sends is an active row of the catalog,
    personalised with the recipient's first name and dispatched under the
    row's id: the row numbered one past the trial count in the recipient's
    protocol for a trial, the row at the sequence position in the
    recipient's protocol up to position 30, an unnumbered row of the
    protocol after that, and a row of category Post-Trial, of whatever
    protocol, after the seventh trial message. *)
Theorem scheduled_message_is_an_active_template (e : Env) (d d' : Db) (phone : string)
    (user : User) (text mid zone : string) :
  Scheduler.checkUserForMessage e d phone user = (Scheduler.Sent text mid zone, d') ->
  exists m,
    In m (messages d) /\ active m = true /\ id m = mid
    /\ outbox d'
       = (outbox d ++ [mkOutbound phone
            (personalizeMessage (message_text m) (first_name user)) mid])%list
    /\ (user_type user = "trial" -> trial_messages_sent user < 7 ->
        number m = Some (trial_messages_sent user + 1)
        /\ msg_protocol m = protocol user)
    /\ (user_type user = "trial" -> 7 <= trial_messages_sent user ->
        category m = "Post-Trial")
    /\ (user_type user = "subscriber" -> current_sequence_position user <= 30 ->
        number m = Some (current_sequence_position user)
        /\ msg_protocol m = protocol user)
    /\ (user_type user = "subscriber" -> 30 < current_sequence_position user ->
        number m = None /\ msg_protocol m = protocol user).
Proof.
  intros Hturn.
  destruct (checkUserForMessage_shape e d phone user)
    as [(Hs & _) | [(m & err & _ & H & _) | (m & mt & pos & mid0 & Hdue & Hnext & H)]];
    try (rewrite Hturn in *; discriminate).
  rewrite Hturn in H. injection H as _ Hid _ Hd. subst d' mid.
  apply getNextMessage_row in Hnext as (Hin & Hact & Hnum & Halg & Hpost).
  exists m. split; [exact Hin |]. split; [exact Hact |]. split; [reflexivity |].
  split; [reflexivity |].
  unfold Scheduler.isUserDueForMessage, Scheduler.notDueYet in Hdue.
  split; [| split; [| split]].
  - intros Htype Hlt. rewrite Htype in Hdue. cbn in Hdue.
    destruct (Z.geb_spec (trial_messages_sent user) 7) as [Hge | _]; [lia |].
    destruct (_ >=? 1); [| discriminate Hdue].
    injection Hdue as <- <- _.
    destruct (Hnum (or_introl eq_refl)) as (n & [= <-] & Hn & Hp). auto.
  - intros Htype Hge. rewrite Htype in Hdue. cbn in Hdue.
    destruct (Z.geb_spec (trial_messages_sent user) 7) as [_ | Hlt]; [| lia].
    apply Hpost; intros ->; revert Hdue; unfold Scheduler.checkPostTrialSchedule;
      repeat match goal with |- context [if ?c then _ else _] => destruct c end;
      discriminate.
  - intros Htype Hle. rewrite Htype in Hdue. cbn in Hdue.
    destruct (Z.leb_spec (current_sequence_position user) 30) as [_ | Hgt]; [| lia].
    destruct (_ >=? 1); [| discriminate Hdue].
    injection Hdue as <- <- _.
    destruct (Hnum (or_intror eq_refl)) as (n & [= <-] & Hn & Hp). auto.
  - intros Htype Hgt. rewrite Htype in Hdue. cbn in Hdue.
    destruct (Z.leb_spec (current_sequence_position user) 30) as [Hle | _]; [lia |].
    destruct (_ >=? 2); [| discriminate Hdue].
    injection Hdue as <- _ _. auto.
Qed.

Lemma scheduled_message_is_an_active_template_witness :
  let turn := Scheduler.checkUserForMessage mondayMorning sequenceDb pacificPhone pacific in
  Scheduler.sent turn.1 = true
  /\ exists m, In m (messages sequenceDb) /\ id m = "12" /\ number m = Some 12
               /\ msg_protocol m = "Elevate".
Proof.
  split; [reflexivity |].
  destruct (scheduled_message_is_an_active_template mondayMorning sequenceDb _
              pacificPhone pacific _ "12" "America/Los_Angeles" eq_refl)
    as (m & Hin & _ & Hid & _ & _ & _ & Hsequence & _).
  exists m. split; [exact Hin |]. split; [exact Hid |].
  apply Hsequence; [reflexivity | vm_compute; intros H; discriminate H].
Defined.

Section SchedulerRepeat.

Lemma users_updateUserProgress (e : Env) (d : Db) (phone : string) (user : User)
    (messageType : string) (o : Outbound) :
  users (Scheduler.updateUserProgress e (push_outbox d o) phone user messageType)
  = alter (Scheduler.progressRow (now e) messageType) phone (users d).
Proof. reflexivity. Qed.

Lemma messages_updateUserProgress (e : Env) (d : Db) (phone : string) (user : User)
    (messageType : string) (o : Outbound) :
  messages (Scheduler.updateUserProgress e (push_outbox d o) phone user messageType)
  = messages d.
Proof. reflexivity. Qed.

(** A draw that found a row finds one whatever the draw. *)
Lemma pickRandom_some (e e' : Env) (p : Message -> bool) (rows : list Message) (m : Message) :
  Scheduler.pickRandom e p rows = Some m ->
  exists m', Scheduler.pickRandom e' p rows = Some m'.
Proof.
  unfold Scheduler.pickRandom. intros H.
  destruct (List.filter p rows) as [| h hits] eqn:Hhits.
  { destruct (random e `mod` List.length (@nil Message))%nat; discriminate H. }
  destruct (nth_error (h :: hits) (random e' `mod` List.length (h :: hits))%nat)
    as [m' |] eqn:Hnth; [eauto |].
  apply nth_error_None in Hnth.
  pose proof (Nat.mod_upper_bound (random e') (List.length (h :: hits))) as Hlt.
  cbn [List.length] in *. lia.
Qed.

(** Whoever is not in the post-trial schedule is not due less than one whole
    day after a send. *)
Lemma not_due_after_a_send (e e' : Env) (user : User) (messageType : string) :
  (user_type user = "trial" -> trial_messages_sent user < 6) ->
  Moment.diff_days (tzdb e') (Scheduler.zoneOf (timezone user)) (now e') (now e) < 1 ->
  Scheduler.isUserDueForMessage e' (Scheduler.progressRow (now e) messageType user)
  = Scheduler.notDueYet.
Proof.
  intros Htrial Hdiff.
  unfold Scheduler.isUserDueForMessage, Scheduler.daysSinceLastMessage.
  cbn [Scheduler.progressRow user_type trial_messages_sent current_sequence_position
       last_message_sent timezone date_joined default from_option Datatypes.id].
  destruct (Z.geb_spec
              (Moment.diff_days (tzdb e') (Scheduler.zoneOf (timezone user)) (now e') (now e))
              1) as [Hge | _]; [lia |].
  destruct (Z.geb_spec
              (Moment.diff_days (tzdb e') (Scheduler.zoneOf (timezone user)) (now e') (now e))
              2) as [Hge | _]; [lia |].
  destruct (String.eqb_spec (user_type user) "trial") as [Htype | _].
  - specialize (Htrial Htype).
    destruct (String.eqb messageType "trial");
      match goal with
      | |- context [?a >=? 7] => destruct (Z.geb_spec a 7) as [Hge | _]; [lia | reflexivity]
      end.
  - repeat match goal with |- context [if ?c then _ else _] => destruct c end; reflexivity.
Qed.

End SchedulerRepeat.

(** X9.  After the scheduler has sent a trial, sequence or algorithm
    message, the recipient is not due again until one whole day has passed on
    the wall clock of the recipient's zone: a later turn within that day
    sends nothing and changes nothing.  (A trial recipient is meant who
    stays a trial recipient, that is one with fewer than six trial messages
    before the send.) *)
Theorem scheduled_send_rests_a_day (e e' : Env) (d d' : Db) (phone : string)
    (user : User) (text mid zone : string) :
  users d !! phone = Some user ->
  Scheduler.checkUserForMessage e d phone user = (Scheduler.Sent text mid zone, d') ->
  (user_type user = "trial" -> trial_messages_sent user < 6) ->
  Moment.diff_days (tzdb e') (Scheduler.zoneOf (timezone user)) (now e') (now e) < 1 ->
  exists user',
    users d' !! phone = Some user'
    /\ last_message_sent user' = Some (now e)
    /\ Scheduler.isUserDueForMessage e' user' = Scheduler.notDueYet
    /\ exists reason,
         Scheduler.checkUserForMessage e' d' phone user' = (Scheduler.NotSent reason, d').
Proof.
  intros Hrow Hturn Htrial Hdiff.
  destruct (checkUserForMessage_shape e d phone user)
    as [(Hs & _) | [(m & err & _ & H & _) | (m & mt & pos & mid0 & Hdue & Hnext & H)]];
    try (rewrite Hturn in *; discriminate).
  rewrite Hturn in H. injection H as _ _ _ Hd.
  exists (Scheduler.progressRow (now e) mt user).
  pose proof (not_due_after_a_send e e' user mt Htrial Hdiff) as Hnot.
  split.
  { rewrite Hd, users_updateUserProgress, lookup_alter_eq, Hrow. reflexivity. }
  split; [reflexivity |]. split; [exact Hnot |].
  unfold Scheduler.checkUserForMessage.
  destruct (_ =? 0); [eauto |].
  destruct (_ || _); [eauto |].
  destruct (_ >=? 4); [eauto |].
  rewrite Hnot. unfold Scheduler.notDueYet. eauto.
Qed.

Lemma scheduled_send_rests_a_day_witness :
  let first := Scheduler.checkUserForMessage mondayMorning sequenceDb pacificPhone pacific in
  Scheduler.sent first.1 = true
  /\ exists user',
       users first.2 !! pacificPhone = Some user'
       /\ Scheduler.isUserDueForMessage mondayAfternoon user' = Scheduler.notDueYet.
Proof.
  split; [reflexivity |].
  destruct (scheduled_send_rests_a_day mondayMorning mondayAfternoon sequenceDb _
              pacificPhone pacific _ "12" "America/Los_Angeles" eq_refl eq_refl)
    as (user' & Hrow & _ & Hnot & _).
  - intros H. discriminate H.
  - vm_compute. reflexivity.
  - exists user'. split; [exact Hrow | exact Hnot].
Defined.

(** X10.  The post-trial schedule looks at the days since the join only, so
    a send does not end the day's appointment: on a scheduled day, once a
    post-trial message has been sent, a later turn on the same day count,
    within the sending hours and below the daily cap, sends again when the
    transport delivers. *)
Theorem post_trial_day_sends_again (e e' : Env) (d d' : Db) (phone : string)
    (user : User) (text mid zone : string) :
  users d !! phone = Some user ->
  user_type user = "trial" ->
  7 <= trial_messages_sent user ->
  Scheduler.checkUserForMessage e d phone user = (Scheduler.Sent text mid zone, d') ->
  Moment.day (tzdb e') (Scheduler.zoneOf (timezone user)) (now e') <> 0 ->
  9 <= Moment.hour (tzdb e') (Scheduler.zoneOf (timezone user)) (now e') < 18 ->
  Scheduler.daysSinceJoined e' user = Scheduler.daysSinceJoined e user ->
  messages_sent d' phone
    (Moment.format_date (tzdb e') (Scheduler.zoneOf (timezone user)) (now e')) < 4 ->
  (forall body mid', sendMessageFunction e' phone body mid' = SendOk) ->
  exists user',
    users d' !! phone = Some user'
    /\ Scheduler.isUserDueForMessage e' user' = Scheduler.isUserDueForMessage e user
    /\ Scheduler.sent (Scheduler.checkUserForMessage e' d' phone user').1 = true.
Proof.
  intros Hrow Htype Hseven Hturn Hday Hhour Hjoined Hcount Hdelivers.
  destruct (checkUserForMessage_shape e d phone user)
    as [(Hs & _) | [(m & err & _ & H & _) | (m & mt & pos & mid0 & Hdue & Hnext & H)]];
    try (rewrite Hturn in *; discriminate).
  rewrite Hturn in H. injection H as _ _ _ Hd.
  set (user' := Scheduler.progressRow (now e) mt user).
  assert (Hrow' : users d' !! phone = Some user').
  { rewrite Hd, users_updateUserProgress, lookup_alter_eq, Hrow. reflexivity. }
  assert (Hsame : Scheduler.isUserDueForMessage e' user'
                  = Scheduler.isUserDueForMessage e user).
  { rewrite (trial_after_seven e user Htype Hseven).
    rewrite (trial_after_seven e' user').
    - change (Scheduler.daysSinceJoined e' user') with (Scheduler.daysSinceJoined e' user).
      now rewrite Hjoined.
    - exact Htype.
    - unfold user'. cbn [Scheduler.progressRow trial_messages_sent].
      destruct (String.eqb mt "trial"); lia. }
  exists user'. split; [exact Hrow' |]. split; [exact Hsame |].
  (* the kind of the message is one the random pick serves *)
  assert (Hkind : String.eqb mt "trial" = false /\ String.eqb mt "sequence" = false
                  /\ String.eqb mt "algorithm" = false
                  /\ String.eqb mt "post-trial-phase1" = false).
  { rewrite (trial_after_seven e user Htype Hseven) in Hdue.
    revert Hdue Hnext. unfold Scheduler.checkPostTrialSchedule.
    repeat match goal with |- context [if ?c then _ else _] => destruct c end;
      intros [= <- <- _]; try (intros _; repeat split; reflexivity);
      intros Hnext; discriminate Hnext. }
  destruct Hkind as (Hk1 & Hk2 & Hk3 & Hk4).
  assert (Hnext' : exists m', Scheduler.getNextMessage e' d' user' mt pos = inr (Some m')).
  { revert Hnext. unfold Scheduler.getNextMessage. rewrite Hk1, Hk2, Hk3, Hk4. cbn [orb].
    rewrite Hd, messages_updateUserProgress.
    intros [= Hpick]. destruct (pickRandom_some e e' _ _ _ Hpick) as (m' & Hm').
    exists m'. now rewrite Hm'. }
  destruct Hnext' as (m' & Hnext').
  pose proof (scheduler_daily_cap e' d' phone user') as Hcap. cbv zeta in Hcap.
  change (timezone user') with (timezone user) in Hcap.
  destruct (Hcap Hday Hhour) as (_ & Hsends).
  apply (Hsends) with (messageType := mt) (position := pos) (messageId := mid0) (m := m').
  - destruct (scheduler_reads_local_date e' d' phone user' Hrow') as (Hdate & Hsent).
    rewrite Hsent, Hdate. exact Hcount.
  - rewrite Hsame. exact Hdue.
  - exact Hnext'.
  - apply Hdelivers.
Qed.

Lemma post_trial_day_sends_again_witness :
  let first := Scheduler.checkUserForMessage dayTwentyFive graduateDb janePhone graduate in
  let later := mkEnv zones alwaysDelivers (now dayTwentyFive + 1800000) 7 in
  Scheduler.sent first.1 = true
  /\ exists user',
       users first.2 !! janePhone = Some user'
       /\ Scheduler.sent (Scheduler.checkUserForMessage later first.2 janePhone user').1 = true.
Proof.
  intros first later. split; [reflexivity |].
  assert (Hseven : 7 <= trial_messages_sent graduate) by (vm_compute; intros H; discriminate H).
  assert (Hturn : Scheduler.checkUserForMessage dayTwentyFive graduateDb janePhone graduate
                  = (Scheduler.Sent "We miss you, Jane...." "pt1" "America/Chicago", first.2))
    by reflexivity.
  destruct (post_trial_day_sends_again dayTwentyFive later graduateDb first.2 janePhone
              graduate _ _ _ eq_refl eq_refl Hseven Hturn)
    as (user' & Hrow & _ & Hsent).
  - vm_compute. intros H. discriminate H.
  - vm_compute. split; [intros H; discriminate H | reflexivity].
  - reflexivity.
  - vm_compute. reflexivity.
  - intros body mid'. reflexivity.
  - exists user'. split; [exact Hrow | exact Hsent].
Defined.


(** * The scheduler's run over the registry *)

Section Ordering.

Context {A : Type}.
Variable le : A -> A -> bool.

Lemma insertBy_perm (x : A) (l : list A) : insertBy le x l ≡ₚ x :: l.
Proof.
  induction l as [| y r IH]; [reflexivity |].
  cbn [insertBy]. destruct (le x y); [reflexivity |].
  rewrite IH. apply Permutation_swap.
Qed.

Lemma orderBy_perm (l : list A) : orderBy le l ≡ₚ l.
Proof.
  induction l as [| x r IH]; [reflexivity |].
  cbn [orderBy]. rewrite insertBy_perm. now rewrite IH.
Qed.

End Ordering.

Section QueueRun.

Lemma getEligibleUsers_spec (d : Db) (phone : string) (row : User) :
  In (phone, row) (Scheduler.getEligibleUsers d)
  <-> users d !! phone = Some row /\ notStoppedOrExpired row = true.
Proof.
  unfold Scheduler.getEligibleUsers.
  rewrite <- list_elem_of_In, orderBy_perm, list_elem_of_In, filter_In.
  rewrite <- list_elem_of_In, elem_of_map_to_list. reflexivity.
Qed.

Lemma NoDup_fst_filter {K V : Type} (p : K * V -> bool) (l : list (K * V)) :
  NoDup l.*1 -> NoDup (List.filter p l).*1.
Proof.
  induction l as [| r l IH]; intros H; [constructor |].
  cbn [List.filter]. cbn [fmap list_fmap] in H. apply list.NoDup_cons in H as (Hr & Hl).
  destruct (p r); [| auto].
  cbn [fmap list_fmap]. apply list.NoDup_cons. split; [| auto].
  intros Hin. apply Hr. apply list_elem_of_fmap in Hin as (r' & -> & Hin).
  apply list_elem_of_fmap. exists r'. split; [reflexivity |].
  apply list_elem_of_In in Hin. apply filter_In in Hin as (Hin & _).
  now apply list_elem_of_In.
Qed.

Lemma getEligibleUsers_NoDup (d : Db) : NoDup (Scheduler.getEligibleUsers d).*1.
Proof.
  unfold Scheduler.getEligibleUsers. rewrite orderBy_perm.
  apply NoDup_fst_filter, NoDup_fst_map_to_list.
Qed.

Lemma sentTo_push_outbox (phone : string) (d : Db) (o : Outbound) :
  sentTo phone (push_outbox d o)
  = (sentTo phone d + (if String.eqb (o_to o) phone then 1 else 0))%nat.
Proof.
  unfold sentTo, push_outbox. cbn [outbox].
  rewrite List.filter_app, List.length_app. cbn [List.filter].
  destruct (String.eqb (o_to o) phone); reflexivity.
Qed.

(** One turn touches the recipient's row only and sends to the recipient
    only, at most once. *)
Lemma checkUserForMessage_local (e : Env) (d : Db) (phone : string) (user : User) :
  let turn := Scheduler.checkUserForMessage e d phone user in
  dom (users turn.2) = dom (users d)
  /\ (forall other, other <> phone ->
        users turn.2 !! other = users d !! other
        /\ sentTo other turn.2 = sentTo other d)
  /\ (sentTo phone d <= sentTo phone turn.2 <= sentTo phone d + 1)%nat
  /\ (Scheduler.sent turn.1 = true -> sentTo phone turn.2 = (sentTo phone d + 1)%nat)
  /\ (Scheduler.sent turn.1 = false -> users turn.2 = users d).
Proof.
  intros turn.
  destruct (checkUserForMessage_shape e d phone user)
    as [(Hs & H) | [(m & err & _ & H & _) | (m & mt & pos & mid0 & _ & _ & H)]];
    fold turn in H.
  - rewrite H. split; [reflexivity |]. split; [auto |]. split; [lia |].
    split; [intros Ht; fold turn in Hs; congruence | auto].
  - rewrite H. cbn [fst snd]. split; [reflexivity |].
    split.
    { intros other Hne. split; [reflexivity |].
      rewrite sentTo_push_outbox. cbn [o_to].
      destruct (String.eqb_spec phone other); [congruence | lia]. }
    rewrite sentTo_push_outbox. cbn [o_to]. rewrite String.eqb_refl.
    split; [lia |]. split; [discriminate | reflexivity].
  - rewrite H. cbn [fst snd].
    assert (Hsent : forall other,
               sentTo other (Scheduler.updateUserProgress e
                 (push_outbox d (mkOutbound phone
                    (personalizeMessage (message_text m) (first_name user)) (id m)))
                 phone user mt)
               = (sentTo other d + (if String.eqb phone other then 1 else 0))%nat).
    { intros other.
      exact (sentTo_push_outbox other d
               (mkOutbound phone
                  (personalizeMessage (message_text m) (first_name user)) (id m))). }
    split.
    { cbn [Scheduler.updateUserProgress bump_daily_limit set_daily_limits set_users users
           push_outbox]. apply dom_alter_L. }
    split.
    { intros other Hne. split.
      - cbn [Scheduler.updateUserProgress bump_daily_limit set_daily_limits set_users users
             push_outbox]. now apply lookup_alter_ne.
      - rewrite Hsent. destruct (String.eqb_spec phone other); [congruence | lia]. }
    rewrite Hsent, String.eqb_refl. split; [lia |]. split; [reflexivity | discriminate].
Qed.

(** The loop over recipients with distinct keys. *)
Lemma checkUsers_local (clock : nat -> Env) (rows : list (string * User)) :
  NoDup rows.*1 ->
  forall (i : nat) (d : Db),
    let run := Scheduler.checkUsers clock i rows d in
    List.length run.1 = List.length rows
    /\ dom (users run.2) = dom (users d)
    /\ (forall phone, phone ∉ rows.*1 ->
          users run.2 !! phone = users d !! phone
          /\ sentTo phone run.2 = sentTo phone d)
    /\ (forall phone, (sentTo phone d <= sentTo phone run.2 <= sentTo phone d + 1)%nat).
Proof.
  induction rows as [| [phone0 user0] rest IH]; intros Hnodup i d.
  { cbn. split; [reflexivity |]. split; [reflexivity |]. split; [auto | intros; lia]. }
  cbn [fmap list_fmap fst] in Hnodup. apply list.NoDup_cons in Hnodup as (Hfresh & Hnodup).
  cbn [Scheduler.checkUsers fst snd].
  pose proof (checkUserForMessage_local (clock i) d phone0 user0) as Hturn.
  destruct (Scheduler.checkUserForMessage (clock i) d phone0 user0) as [result d1].
  cbv zeta in Hturn. cbn [fst snd] in Hturn.
  destruct Hturn as (Hdom & Hother & Hself & _ & _).
  set (d2 := match result with
             | Scheduler.Threw _ =>
                 logFunction d1 "error" ("Error processing user " +:+ phone0)
             | _ => d1
             end).
  assert (Husers2 : users d2 = users d1) by (unfold d2; now destruct result).
  assert (Hsent2 : forall phone, sentTo phone d2 = sentTo phone d1)
    by (intros phone; unfold d2; now destruct result).
  specialize (IH Hnodup (S i) d2).
  destruct (Scheduler.checkUsers clock (S i) rest d2) as [results d3].
  cbv zeta in IH. cbn [fst snd] in IH |- *.
  destruct IH as (Hlen & Hdom3 & Hout3 & Hbound3).
  split; [cbn [List.length]; now rewrite Hlen |].
  split; [now rewrite Hdom3, Husers2 |].
  split.
  - intros phone Hnot. cbn [fmap list_fmap fst] in Hnot.
    apply not_elem_of_cons in Hnot as (Hne & Hnot).
    destruct (Hout3 phone Hnot) as (Hu & Hs). destruct (Hother phone Hne) as (Hu1 & Hs1).
    split; [now rewrite Hu, Husers2 | now rewrite Hs, Hsent2].
  - intros phone. destruct (decide (phone = phone0)) as [-> | Hne].
    + destruct (Hout3 phone0 Hfresh) as (_ & Hs). rewrite Hs, Hsent2. exact Hself.
    + destruct (Hother phone Hne) as (_ & Hs1).
      specialize (Hbound3 phone). rewrite Hsent2, Hs1 in Hbound3. exact Hbound3.
Qed.

End QueueRun.

(** X11.  A run of the scheduler visits each recipient who is neither
    stopped nor expired once.  No recipient gets more than one message from
    the run, and a recipient who is stopped or expired, or a number that is
    not in the registry, gets none and keeps the row as it was; the keys of
    the registry do not change. *)
Theorem queue_run_sends_at_most_once_and_skips_the_stopped (clock : nat -> Env) (d : Db) :
  let run := Scheduler.processMessageQueue clock d in
  List.length run.1 = List.length (Scheduler.getEligibleUsers d)
  /\ (forall phone row,
        In (phone, row) (Scheduler.getEligibleUsers d)
        <-> users d !! phone = Some row
            /\ subscription_status row <> "stopped"
            /\ subscription_status row <> "expired")
  /\ dom (users run.2) = dom (users d)
  /\ (forall phone, (sentTo phone d <= sentTo phone run.2 <= sentTo phone d + 1)%nat)
  /\ (forall phone,
        (forall row, users d !! phone = Some row ->
                     subscription_status row = "stopped"
                     \/ subscription_status row = "expired") ->
        users run.2 !! phone = users d !! phone
        /\ sentTo phone run.2 = sentTo phone d).
Proof.
  intros run.
  assert (Hstatus : forall row,
             notStoppedOrExpired row = true
             <-> subscription_status row <> "stopped" /\ subscription_status row <> "expired").
  { intros row. unfold notStoppedOrExpired.
    destruct (String.eqb_spec (subscription_status row) "stopped");
      destruct (String.eqb_spec (subscription_status row) "expired"); cbn;
      split; try discriminate; try tauto; intros []; congruence. }
  set (d0 := logFunction d "info" "Starting timezone-aware scheduled message check").
  pose proof (checkUsers_local clock (Scheduler.getEligibleUsers d0)
                (getEligibleUsers_NoDup d0) 0%nat d0) as Hloop.
  unfold run, Scheduler.processMessageQueue. fold d0.
  destruct (Scheduler.checkUsers clock 0 (Scheduler.getEligibleUsers d0) d0)
    as [results d1].
  cbv zeta in Hloop. cbn [fst snd] in Hloop |- *.
  change (Scheduler.getEligibleUsers d0) with (Scheduler.getEligibleUsers d) in Hloop.
  change (users d0) with (users d) in Hloop.
  destruct Hloop as (Hlen & Hdom & Hout & Hbound).
  split; [exact Hlen |].
  split; [intros phone row; now rewrite getEligibleUsers_spec, Hstatus |].
  split; [exact Hdom |].
  split; [intros phone; apply (Hbound phone) |].
  intros phone Hstopped.
  apply (Hout phone). intros Hin.
  apply list_elem_of_fmap in Hin as ([phone' row] & Heq & Hin). cbn in Heq. subst phone'.
  apply list_elem_of_In, getEligibleUsers_spec in Hin as (Hrow & Hok).
  apply Hstatus in Hok as (Hns & Hne).
  destruct (Hstopped row Hrow); contradiction.
Qed.


(** * The injector's pipeline *)

Section Catalog.

Lemma find_app_cons {A : Type} (p : A -> bool) (l : list A) (x : A) :
  List.find p (l ++ [x])
  = match List.find p l with
    | Some y => Some y
    | None => if p x then Some x else None
    end.
Proof.
  induction l as [| y r IH]; cbn; [reflexivity |].
  destruct (p y); [reflexivity | exact IH].
Qed.

Lemma find_filter_implied {A : Type} (p q : A -> bool) (l : list A) :
  (forall x, p x = true -> q x = true) ->
  List.find p (List.filter q l) = List.find p l.
Proof.
  intros Himp. induction l as [| y r IH]; cbn; [reflexivity |].
  destruct (q y) eqn:Hq; cbn.
  - destruct (p y); [reflexivity | exact IH].
  - destruct (p y) eqn:Hp; [| exact IH].
    apply Himp in Hp. congruence.
Qed.

Lemma find_filter_excluded {A : Type} (p q : A -> bool) (l : list A) :
  (forall x, p x = true -> q x = false) ->
  List.find p (List.filter q l) = None.
Proof.
  intros Himp. induction l as [| y r IH]; cbn; [reflexivity |].
  destruct (q y) eqn:Hq; cbn; [| exact IH].
  destruct (p y) eqn:Hp; [| exact IH].
  apply Himp in Hp. congruence.
Qed.

Lemma getMessage_addMessageToDatabase (d : Db) (messageId messageText program : string) :
  getMessage (Injector.addMessageToDatabase d messageId messageText program) messageId
  = Some (mkMessage messageId None program "Manual" (Some messageText) true).
Proof.
  unfold getMessage, Injector.addMessageToDatabase. cbn [messages set_messages].
  rewrite find_app_cons, find_filter_excluded.
  - cbn [id active]. now rewrite String.eqb_refl.
  - intros m Hm. apply andb_prop in Hm as (Hm & _). now rewrite Hm.
Qed.

End Catalog.

(** X12.  A message added for an injection can be read back under its id,
    replaces whatever row had that id, and leaves the lookup of every other
    id as it was.  The row is unnumbered and active, so it also joins the
    pool from which subscribers of its protocol past position 30 are served
    at random: for such a subscriber there is a draw that picks it. *)
Theorem injected_message_round_trip (d : Db) (messageId messageText program : string) :
  let d' := Injector.addMessageToDatabase d messageId messageText program in
  let added := mkMessage messageId None program "Manual" (Some messageText) true in
  getMessage d' messageId = Some added
  /\ (forall other, other <> messageId -> getMessage d' other = getMessage d other)
  /\ users d' = users d
  /\ pending_messages d' = pending_messages d
  /\ (forall user, protocol user = program ->
        exists draw, forall e,
          random e = draw ->
          Scheduler.getNextMessage e d' user "algorithm" Scheduler.PosNull
          = inr (Some added)).
Proof.
  intros d' added.
  split; [apply getMessage_addMessageToDatabase |].
  split.
  { intros other Hne.
    unfold getMessage, d', Injector.addMessageToDatabase. cbn [messages set_messages].
    rewrite find_app_cons, find_filter_implied.
    - destruct (List.find _ (messages d)); [reflexivity |].
      cbn [id]. destruct (String.eqb_spec messageId other); [congruence | reflexivity].
    - intros m Hm. apply andb_prop in Hm as (Hm & _). apply String.eqb_eq in Hm.
      destruct (String.eqb_spec (id m) messageId); [congruence | reflexivity]. }
  split; [reflexivity |]. split; [reflexivity |].
  intros user Hprotocol.
  set (pool := fun m : Message =>
                 Js.isNull (number m) && String.eqb (msg_protocol m) (protocol user)
                 && active m).
  set (kept := List.filter (fun m => negb (String.eqb (id m) messageId)) (messages d)).
  exists (List.length (List.filter pool kept)). intros e Hdraw.
  unfold Scheduler.getNextMessage. cbn [String.eqb Ascii.eqb Bool.eqb orb].
  unfold Scheduler.pickRandom, d', Injector.addMessageToDatabase.
  cbn [messages set_messages]. fold kept. fold pool.
  rewrite List.filter_app.
  assert (Hpool : List.filter pool [added] = [added]).
  { unfold pool, added. cbn. rewrite Hprotocol. now rewrite String.eqb_refl. }
  fold added. rewrite Hpool, Hdraw, List.length_app. cbn [List.length].
  rewrite Nat.mod_small by lia.
  rewrite nth_error_app2 by lia. now rewrite Nat.sub_diag.
Qed.

Section Drain.

Lemma processSingleInjection_shape (e : Env) (d : Db) (injection : Injector.Injection) :
  let phone := pm_phone_number (Injector.row injection) in
  let turn := Injector.processSingleInjection e d injection in
  (Injector.sent turn.1 = false /\ turn.2 = d)
  \/ (exists body,
        Injector.sent turn.1 = false
        /\ turn.2 = push_outbox d
                      (mkOutbound phone body (pm_message_id (Injector.row injection))))
  \/ (exists body,
        turn.1 = Injector.Sent
        /\ turn.2 = Injector.updateUserAfterInjection e
                      (push_outbox d
                         (mkOutbound phone body (pm_message_id (Injector.row injection))))
                      phone).
Proof.
  cbv zeta. unfold Injector.processSingleInjection.
  destruct (_ >=? 4); [left; split; reflexivity |].
  destruct (Injector.isInSendingWindow e _) as [err | [| reason]];
    [left; split; reflexivity | | left; split; reflexivity].
  destruct (getMessage d _) as [m |]; [| left; split; reflexivity].
  unfold send. cbn [fst snd].
  destruct (sendMessageFunction e _ _ _).
  - right. right. eexists. split; reflexivity.
  - right. left. eexists. split; reflexivity.
Qed.

(** One turn of the drain touches the recipient's row only, sends to the
    recipient only, at most once and under the row's message id, and marks
    the rows of its rowid sent, skipped or failed. *)
Lemma drainOne_local (e : Env) (d : Db) (injection : Injector.Injection) :
  let phone := pm_phone_number (Injector.row injection) in
  let turn := Injector.drainOne e d injection in
  dom (users turn.2) = dom (users d)
  /\ messages turn.2 = messages d
  /\ (forall other, other <> phone ->
        users turn.2 !! other = users d !! other
        /\ sentTo other turn.2 = sentTo other d)
  /\ (sentTo phone d <= sentTo phone turn.2 <= sentTo phone d + 1)%nat
  /\ (outbox turn.2 = outbox d
      \/ exists body,
           outbox turn.2
           = (outbox d ++ [mkOutbound phone body (pm_message_id (Injector.row injection))])%list)
  /\ exists status,
       (status = "sent" \/ status = "skipped" \/ status = "failed")
       /\ pending_messages turn.2
          = List.map (fun p => if pm_id p =? pm_id (Injector.row injection)
                               then withStatus p status else p)
                     (pending_messages d).
Proof.
  intros phone turn. unfold turn, Injector.drainOne.
  destruct (processSingleInjection_shape e d injection)
    as [(Hs & H) | [(body & Hs & H) | (body & Hs & H)]];
    destruct (Injector.processSingleInjection e d injection) as [result d1];
    cbn [fst snd] in Hs, H |- *; subst d1; fold phone.
  - split; [reflexivity |]. split; [reflexivity |].
    split; [intros other _; split; reflexivity |].
    split; [change (sentTo phone d <= sentTo phone d <= sentTo phone d + 1)%nat; lia |].
    split; [now left |].
    destruct result as [| reason | err]; [discriminate Hs | |].
    + exists "skipped". split; [right; now left | reflexivity].
    + exists "failed". split; [right; now right | reflexivity].
  - split; [reflexivity |]. split; [reflexivity |].
    split.
    { intros other Hne. split; [reflexivity |].
      change (sentTo other (push_outbox d (mkOutbound phone body
                (pm_message_id (Injector.row injection)))) = sentTo other d).
      rewrite sentTo_push_outbox. cbn [o_to].
      destruct (String.eqb_spec phone other); [congruence | lia]. }
    split.
    { change (sentTo phone d
              <= sentTo phone (push_outbox d (mkOutbound phone body
                   (pm_message_id (Injector.row injection))))
              <= sentTo phone d + 1)%nat.
      rewrite sentTo_push_outbox. cbn [o_to]. rewrite String.eqb_refl. lia. }
    split; [right; exists body; reflexivity |].
    destruct result as [| reason | err]; [discriminate Hs | |].
    + exists "skipped". split; [right; now left | reflexivity].
    + exists "failed". split; [right; now right | reflexivity].
  - rewrite Hs. cbn [Injector.sent].
    assert (Hsent : forall other,
               sentTo other
                 (Injector.markInjectionProcessed
                    (Injector.updateUserAfterInjection e
                       (push_outbox d (mkOutbound phone body
                          (pm_message_id (Injector.row injection)))) phone)
                    (pm_id (Injector.row injection)) "sent")
               = (sentTo other d + (if String.eqb phone other then 1 else 0))%nat).
    { intros other.
      exact (sentTo_push_outbox other d
               (mkOutbound phone body (pm_message_id (Injector.row injection)))). }
    split; [cbn; apply dom_alter_L |]. split; [reflexivity |].
    split.
    { intros other Hne. split; [cbn; now apply lookup_alter_ne |].
      rewrite Hsent. destruct (String.eqb_spec phone other); [congruence | lia]. }
    split; [rewrite Hsent, String.eqb_refl; lia |].
    split; [right; exists body; reflexivity |].
    exists "sent". split; [now left | reflexivity].
Qed.

Lemma withStatus_withStatus (p : PendingMessage) (s s' : string) :
  withStatus (withStatus p s) s' = withStatus p s'.
Proof. reflexivity. Qed.

(** The drain of a queue: what it leaves of the store. *)
Lemma drainFrom_local (clock : nat -> Env) (queue : list Injector.Injection) :
  forall (i : nat) (d : Db),
    let run := Injector.drainFrom clock i queue d in
    List.length run.1 = List.length queue
    /\ dom (users run.2) = dom (users d)
    /\ messages run.2 = messages d
    /\ (forall phone, ~ In phone (recipients queue) ->
          users run.2 !! phone = users d !! phone
          /\ sentTo phone run.2 = sentTo phone d)
    /\ (List.NoDup (recipients queue) ->
        forall phone, (sentTo phone d <= sentTo phone run.2 <= sentTo phone d + 1)%nat)
    /\ (exists new,
          outbox run.2 = (outbox d ++ new)%list
          /\ Forall (fun o => exists injection,
                                 In injection queue
                                 /\ o_to o = pm_phone_number (Injector.row injection)
                                 /\ o_message_id o = pm_message_id (Injector.row injection))
                     new)
    /\ exists status : Z -> string,
         (forall n, status n = "sent" \/ status n = "skipped" \/ status n = "failed")
         /\ pending_messages run.2
            = List.map (fun p => if existsb (fun n => pm_id p =? n) (rowids queue)
                                 then withStatus p (status (pm_id p)) else p)
                       (pending_messages d).
Proof.
  induction queue as [| injection rest IH]; intros i d.
  { cbn. split; [reflexivity |]. split; [reflexivity |]. split; [reflexivity |].
    split; [auto |]. split; [intros; lia |].
    split; [exists []; split; [now rewrite app_nil_r | constructor] |].
    exists (fun _ => "sent"). split; [auto |]. now rewrite List.map_id. }
  cbn [Injector.drainFrom].
  pose proof (drainOne_local (clock i) d injection) as Hturn.
  destruct (Injector.drainOne (clock i) d injection) as [result d1].
  cbv zeta in Hturn. cbn [fst snd] in Hturn.
  destruct Hturn as (Hdom1 & Hmsg1 & Hother1 & Hself1 & Hout1 & s0 & Hs0 & Hpend1).
  specialize (IH (S i) d1).
  destruct (Injector.drainFrom clock (S i) rest d1) as [results d2].
  cbv zeta in IH. cbn [fst snd] in IH |- *.
  destruct IH as (Hlen & Hdom2 & Hmsg2 & Hother2 & Hbound2 & (new & Hnew & Hall) & sr & Hsr & Hpend2).
  set (phone0 := pm_phone_number (Injector.row injection)) in *.
  split; [cbn [List.length]; now rewrite Hlen |].
  split; [now rewrite Hdom2 |]. split; [now rewrite Hmsg2 |].
  split.
  { intros phone Hnot. cbn [recipients List.map] in Hnot. fold phone0 in Hnot.
    assert (Hne : phone <> phone0) by (intros ->; apply Hnot; now left).
    assert (Hnot' : ~ In phone (recipients rest)) by (intros H; apply Hnot; now right).
    destruct (Hother2 phone Hnot') as (Hu & Hs). destruct (Hother1 phone Hne) as (Hu1 & Hs1).
    split; congruence. }
  split.
  { intros Hnodup phone. cbn [recipients List.map] in Hnodup. fold phone0 in Hnodup.
    apply List.NoDup_cons_iff in Hnodup as (Hfresh & Hnodup).
    destruct (decide (phone = phone0)) as [-> | Hne].
    - destruct (Hother2 phone0 Hfresh) as (_ & Hs). rewrite Hs. exact Hself1.
    - destruct (Hother1 phone Hne) as (_ & Hs1).
      specialize (Hbound2 Hnodup phone). rewrite Hs1 in Hbound2. exact Hbound2. }
  split.
  { destruct Hout1 as [Hout1 | (body & Hout1)].
    - exists new. rewrite Hnew, Hout1. split; [reflexivity |].
      eapply List.Forall_impl; [| exact Hall].
      intros o (inj & Hin & Hto & Hid). exists inj. split; [now right | auto].
    - exists (mkOutbound phone0 body (pm_message_id (Injector.row injection)) :: new).
      rewrite Hnew, Hout1, <- app_assoc. split; [reflexivity |].
      constructor.
      + exists injection. split; [now left | auto].
      + eapply List.Forall_impl; [| exact Hall].
        intros o (inj & Hin & Hto & Hid). exists inj. split; [now right | auto]. }
  exists (fun n => if existsb (fun n' => n =? n') (rowids rest) then sr n else s0).
  split.
  { intros n. destruct (existsb (fun n' => n =? n') (rowids rest)); [apply Hsr |].
    destruct Hs0 as [-> | [-> | ->]]; auto. }
  rewrite Hpend2, Hpend1, List.map_map. apply List.map_ext. intros p.
  unfold rowids. cbn [List.map existsb].
  destruct (pm_id p =? pm_id (Injector.row injection)) eqn:Hid;
    cbn [orb withStatus pm_id];
    set (hit := existsb (fun n => pm_id p =? n)
                  (List.map (fun i => pm_id (Injector.row i)) rest));
    destruct hit; reflexivity.
Qed.

Lemma omap_none {A B : Type} (f : A -> option B) (l : list A) :
  (forall x, In x l -> f x = None) -> omap f l = [].
Proof.
  induction l as [| x r IH]; intros H; [reflexivity |].
  cbn [omap list_omap]. rewrite (H x (or_introl eq_refl)).
  apply IH. intros y Hy. apply H. now right.
Qed.

Lemma orderBy_nil {A : Type} (le : A -> A -> bool) (l : list A) :
  orderBy le l = [] <-> l = [].
Proof.
  split; [| intros ->; reflexivity].
  intros H. apply Permutation_nil_r. rewrite <- H. symmetry. apply orderBy_perm.
Qed.

Lemma getPendingInjections_spec (d : Db) (injection : Injector.Injection) :
  In injection (Injector.getPendingInjections d)
  <-> In (Injector.row injection) (pending_messages d)
      /\ pm_status (Injector.row injection) = "pending"
      /\ Injector.joinUser d (Injector.row injection) = Some injection.
Proof.
  unfold Injector.getPendingInjections.
  rewrite <- list_elem_of_In, orderBy_perm, list_elem_of_omap.
  split.
  - intros (p & Hin & Hjoin).
    apply list_elem_of_In, filter_In in Hin as (Hin & Hstatus).
    apply String.eqb_eq in Hstatus.
    assert (Hrow : Injector.row injection = p).
    { unfold Injector.joinUser in Hjoin.
      destruct (users d !! pm_phone_number p); [| discriminate].
      cbn in Hjoin. injection Hjoin as <-. reflexivity. }
    rewrite Hrow. auto.
  - intros (Hin & Hstatus & Hjoin). exists (Injector.row injection).
    split; [| exact Hjoin].
    apply list_elem_of_In, filter_In. split; [exact Hin |]. now apply String.eqb_eq.
Qed.

Lemma getPendingInjections_nil (d : Db) :
  Injector.getPendingInjections d = []
  <-> forall p, In p (pending_messages d) -> pm_status p = "pending" ->
                users d !! pm_phone_number p = None.
Proof.
  split.
  - intros Hnil p Hin Hstatus.
    destruct (users d !! pm_phone_number p) as [u |] eqn:Hu; [| reflexivity].
    exfalso.
    assert (Hq : In (Injector.mkInjection p (first_name u) (timezone u) (user_type u))
                    (Injector.getPendingInjections d)).
    { apply getPendingInjections_spec. cbn [Injector.row].
      split; [exact Hin |]. split; [exact Hstatus |].
      unfold Injector.joinUser. now rewrite Hu. }
    rewrite Hnil in Hq. destruct Hq.
  - intros H. unfold Injector.getPendingInjections. apply orderBy_nil, omap_none.
    intros p Hin. apply filter_In in Hin as (Hin & Hstatus). apply String.eqb_eq in Hstatus.
    unfold Injector.joinUser. now rewrite (H p Hin Hstatus).
Qed.

(** Every turn is counted once: as sent, as skipped, or by its error. *)
Lemma tally_total (queue : list Injector.Injection) (outcomes : list Injector.Outcome) :
  List.length outcomes = List.length queue ->
  let results := Injector.tally queue outcomes in
  Injector.r_sent results + Injector.r_skipped results
  + Z.of_nat (List.length (Injector.r_errors results))
  = Z.of_nat (List.length queue).
Proof.
  unfold Injector.tally. cbn [Injector.r_sent Injector.r_skipped Injector.r_errors].
  revert queue. induction outcomes as [| o r IH]; intros [| q queue] Hlen;
    try discriminate Hlen; [reflexivity |].
  injection Hlen as Hlen. specialize (IH queue Hlen).
  cbn [zip zip_with omap list_omap fst snd List.filter List.length].
  destruct o as [| reason | err];
    cbn [Injector.sent Injector.threw Injector.errorOf negb andb List.length];
    cbn [List.length] in *; lia.
Qed.

(** A turn throws only for a recipient without a zone name. *)
Lemma drainOne_threw (e : Env) (d : Db) (injection : Injector.Injection) :
  Injector.threw (Injector.drainOne e d injection).1 = true ->
  Injector.inj_timezone injection = EmptyString.
Proof.
  unfold Injector.drainOne.
  destruct (processSingleInjection_cases e d injection)
    as [[_ H] | [(_ & Hz & _) | [(_ & _ & _ & H) | (_ & _ & _ & H)]]];
    try exact (fun _ => Hz); rewrite H; cbn [fst snd]; try discriminate.
  unfold afterChecks.
  destruct (getMessage d _); [| discriminate].
  unfold send. destruct (sendMessageFunction e _ _ _); discriminate.
Qed.

Lemma drainFrom_threw (clock : nat -> Env) (queue : list Injector.Injection) :
  forall (i : nat) (d : Db),
    Forall2 (fun injection o =>
               Injector.threw o = true -> Injector.inj_timezone injection = EmptyString)
            queue (Injector.drainFrom clock i queue d).1.
Proof.
  induction queue as [| injection rest IH]; intros i d; [constructor |].
  cbn [Injector.drainFrom].
  pose proof (drainOne_threw (clock i) d injection) as Hturn.
  destruct (Injector.drainOne (clock i) d injection) as [result d1].
  specialize (IH (S i) d1).
  destruct (Injector.drainFrom clock (S i) rest d1) as [results d2].
  cbn [fst snd] in *. now constructor.
Qed.

(** The errors of a drain name recipients of the queue without a zone
    name. *)
Lemma tally_errors (queue : list Injector.Injection) (outcomes : list Injector.Outcome)
    (phone error : string) :
  Forall2 (fun injection o =>
             Injector.threw o = true -> Injector.inj_timezone injection = EmptyString)
          queue outcomes ->
  In (phone, error) (Injector.r_errors (Injector.tally queue outcomes)) ->
  exists injection,
    In injection queue
    /\ pm_phone_number (Injector.row injection) = phone
    /\ Injector.inj_timezone injection = EmptyString.
Proof.
  unfold Injector.tally. cbn [Injector.r_errors].
  induction 1 as [| q o queue outcomes Hq _ IH]; [intros [] |].
  cbn [zip zip_with omap list_omap fst snd].
  destruct o as [| reason | err]; cbn [Injector.errorOf].
  - intros Hin. destruct (IH Hin) as (inj & ? & ? & ?). exists inj. auto with datatypes.
  - intros Hin. destruct (IH Hin) as (inj & ? & ? & ?). exists inj. auto with datatypes.
  - intros [Heq | Hin].
    + injection Heq as <- _. exists q. split; [now left |]. split; [reflexivity |].
      now apply Hq.
    + destruct (IH Hin) as (inj & ? & ? & ?). exists inj. auto with datatypes.
Qed.

Lemma tally_no_errors (queue : list Injector.Injection) (outcomes : list Injector.Outcome) :
  Forall2 (fun injection o =>
             Injector.threw o = true -> Injector.inj_timezone injection = EmptyString)
          queue outcomes ->
  (forall injection, In injection queue -> Injector.inj_timezone injection <> EmptyString) ->
  Injector.r_errors (Injector.tally queue outcomes) = [].
Proof.
  intros Hall Hzones.
  destruct (Injector.r_errors (Injector.tally queue outcomes)) as [| [phone error] r] eqn:He;
    [reflexivity |].
  destruct (tally_errors queue outcomes phone error Hall) as (inj & Hin & _ & Hz).
  { rewrite He. now left. }
  now apply Hzones in Hin.
Qed.

(** What a drain leaves pending is out of reach of the next drain. *)
Lemma drainFrom_drained (clock : nat -> Env) (d : Db) :
  Injector.getPendingInjections
    (Injector.drainFrom clock 0 (Injector.getPendingInjections d) d).2 = [].
Proof.
  destruct (drainFrom_local clock (Injector.getPendingInjections d) 0%nat d)
    as (_ & Hdom & _ & _ & _ & _ & status & Hstatus & Hpend).
  set (d' := (Injector.drainFrom clock 0 (Injector.getPendingInjections d) d).2) in *.
  apply getPendingInjections_nil. intros p' Hin Hpending.
  rewrite Hpend in Hin. apply in_map_iff in Hin as (p & Hp' & Hin).
  destruct (existsb (fun n => pm_id p =? n) (rowids (Injector.getPendingInjections d)))
    eqn:Hhit.
  { subst p'. cbn [withStatus pm_status] in Hpending.
    destruct (Hstatus (pm_id p)) as [H | [H | H]]; rewrite H in Hpending; discriminate. }
  subst p'.
  destruct (users d' !! pm_phone_number p) as [u' |] eqn:Hu'; [| reflexivity].
  exfalso.
  assert (Hsome : is_Some (users d !! pm_phone_number p)).
  { apply elem_of_dom. rewrite <- Hdom. apply elem_of_dom. eauto. }
  destruct Hsome as (u & Hu).
  assert (Hq : In (Injector.mkInjection p (first_name u) (timezone u) (user_type u))
                  (Injector.getPendingInjections d)).
  { apply getPendingInjections_spec. cbn [Injector.row].
    split; [exact Hin |]. split; [exact Hpending |].
    unfold Injector.joinUser. now rewrite Hu. }
  assert (Hex : existsb (fun n => pm_id p =? n)
                  (rowids (Injector.getPendingInjections d)) = true).
  { apply existsb_exists. exists (pm_id p). split; [| apply Z.eqb_refl].
    unfold rowids. apply in_map_iff. eexists. split; [| exact Hq]. reflexivity. }
  congruence.
Qed.

End Drain.

(** X13.  Draining the injection queue takes every pending row whose
    recipient is in the registry, by priority and then age, and marks it
    sent, skipped or failed: every turn is counted once, as sent, as
    skipped, or by an entry of the errors; an error names a recipient of the
    queue whose zone name is empty, and there is none when every recipient
    of the queue has a zone name.  No such row is pending afterwards, and a
    second drain finds nothing and changes nothing.  No row is added or
    removed, and a row changes in its status at most; the catalog and the
    keys of the registry stay. *)
Theorem injection_queue_is_drained (clock clock' : nat -> Env) (d : Db) :
  let queue := Injector.getPendingInjections d in
  let drained := Injector.processInjectionQueue clock d in
  Injector.r_sent drained.1 + Injector.r_skipped drained.1
  + Z.of_nat (List.length (Injector.r_errors drained.1))
  = Z.of_nat (List.length queue)
  /\ (forall phone error,
        In (phone, error) (Injector.r_errors drained.1) ->
        exists injection,
          In injection queue
          /\ pm_phone_number (Injector.row injection) = phone
          /\ Injector.inj_timezone injection = EmptyString)
  /\ ((forall injection, In injection queue ->
                         Injector.inj_timezone injection <> EmptyString) ->
      Injector.r_errors drained.1 = [])
  /\ Injector.getPendingInjections drained.2 = []
  /\ Injector.processInjectionQueue clock' drained.2
     = (Injector.mkResults 0 0 [], drained.2)
  /\ messages drained.2 = messages d
  /\ dom (users drained.2) = dom (users d)
  /\ Forall2 (fun p p' =>
                p' = withStatus p (pm_status p')
                /\ (pm_status p' = pm_status p
                    \/ pm_status p' = "sent" \/ pm_status p' = "skipped"
                    \/ pm_status p' = "failed"))
             (pending_messages d) (pending_messages drained.2).
Proof.
  intros queue drained.
  pose proof (drainFrom_drained clock d) as Hnil.
  pose proof (drainFrom_threw clock queue 0%nat d) as Hthrew.
  destruct (drainFrom_local clock queue 0%nat d)
    as (Hlen & Hdom & Hmsg & _ & _ & _ & status & Hstatus & Hpend).
  unfold drained, Injector.processInjectionQueue. fold queue in Hnil |- *.
  destruct (Injector.drainFrom clock 0 queue d) as [outcomes d1].
  cbn [fst snd] in *.
  split; [now apply tally_total |].
  split; [intros phone error; now apply tally_errors |].
  split; [now apply tally_no_errors |].
  split; [exact Hnil |].
  split; [unfold Injector.processInjectionQueue; now rewrite Hnil |].
  split; [exact Hmsg |]. split; [exact Hdom |].
  rewrite Hpend. clear Hpend.
  induction (pending_messages d) as [| p r IH]; [constructor |].
  cbn [List.map]. constructor; [| exact IH].
  destruct (existsb _ _); cbn [withStatus pm_status].
  - split; [reflexivity |]. right. apply Hstatus.
  - split; [now destruct p | now left].
Qed.

Section Injection.

Lemma getActiveUsers_spec (d : Db) (program phone : string) (row : User) :
  In (phone, row) (Injector.getActiveUsers d program)
  <-> users d !! phone = Some row
      /\ notStoppedOrExpired row = true
      /\ (program = EmptyString \/ program = "ALL" \/ protocol row = program).
Proof.
  unfold Injector.getActiveUsers.
  rewrite <- list_elem_of_In, orderBy_perm, list_elem_of_In, filter_In.
  rewrite <- list_elem_of_In, elem_of_map_to_list. cbn [snd].
  unfold Injector.follows.
  destruct (String.eqb_spec program EmptyString) as [-> | Hne];
    [cbn [negb andb]; rewrite andb_true_r; tauto |].
  destruct (String.eqb_spec program "ALL") as [-> | Hna];
    [cbn [negb andb]; rewrite andb_true_r; tauto |].
  cbn [negb andb]. rewrite andb_true_iff, String.eqb_eq. tauto.
Qed.

Lemma getActiveUsers_NoDup (d : Db) (program : string) :
  List.NoDup (Injector.getActiveUsers d program).*1.
Proof.
  apply NoDup_ListNoDup.
  unfold Injector.getActiveUsers. rewrite orderBy_perm.
  apply NoDup_fst_filter, NoDup_fst_map_to_list.
Qed.

Lemma queueMessageForUsers_spec (e : Env) (users : list (string * User))
    (messageId : string) (priority : Z) :
  forall (seq : Z) (d : Db),
  exists rows,
    Injector.queueMessageForUsers e seq d users messageId priority
    = (Z.of_nat (List.length users),
       set_pending_messages d (pending_messages d ++ rows)%list)
    /\ List.map pm_phone_number rows = users.*1
    /\ Forall (fun p => pm_message_id p = messageId /\ pm_status p = "pending"
                        /\ pm_priority p = priority
                        /\ pm_created_timestamp p = now e
                        /\ seq < pm_id p) rows.
Proof.
  induction users as [| user rest IH]; intros seq d.
  { exists []. cbn. rewrite app_nil_r. split; [now destruct d |]. split; constructor. }
  cbn [Injector.queueMessageForUsers].
  destruct (IH (seq + 1)
              (set_pending_messages d
                 (pending_messages d
                  ++ [mkPending (seq + 1) user.1 messageId priority (now e) "pending"])%list))
    as (rows & Heq & Hphones & Hall).
  rewrite Heq.
  exists (mkPending (seq + 1) user.1 messageId priority (now e) "pending" :: rows).
  split.
  { cbn [pending_messages set_pending_messages List.length].
    rewrite <- app_assoc. unfold set_pending_messages. cbn. f_equal. lia. }
  split; [cbn; now rewrite Hphones |].
  constructor.
  - cbn. repeat split; lia.
  - eapply List.Forall_impl; [| exact Hall]. cbn. intros p (? & ? & ? & ? & ?).
    repeat split; auto; lia.
Qed.

Lemma recipients_omap_joined (d : Db) (rows : list PendingMessage) :
  (forall p, In p rows -> is_Some (users d !! pm_phone_number p)) ->
  recipients (omap (Injector.joinUser d) rows) = List.map pm_phone_number rows
  /\ List.map (fun i => pm_message_id (Injector.row i)) (omap (Injector.joinUser d) rows)
     = List.map pm_message_id rows.
Proof.
  induction rows as [| p r IH]; intros H; [split; reflexivity |].
  destruct (H p (or_introl eq_refl)) as (u & Hu).
  destruct IH as (IH1 & IH2); [intros q Hq; apply H; now right |].
  assert (Hjoin : Injector.joinUser d p
                  = Some (Injector.mkInjection p (first_name u) (timezone u) (user_type u))).
  { unfold Injector.joinUser. now rewrite Hu. }
  cbn [omap list_omap]. rewrite Hjoin. fold (omap (Injector.joinUser d) r).
  unfold recipients in *. cbn [List.map Injector.row]. rewrite IH1, IH2.
  split; reflexivity.
Qed.

Lemma filter_all {A : Type} (p : A -> bool) (l : list A) :
  Forall (fun x => p x = true) l -> List.filter p l = l.
Proof.
  induction 1 as [| x r Hx _ IH]; [reflexivity |].
  cbn. now rewrite Hx, IH.
Qed.

Lemma omap_pointwise {A B : Type} (f g : A -> option B) (l : list A) :
  (forall x, f x = g x) -> omap f l = omap g l.
Proof.
  intros H. induction l as [| x r IH]; [reflexivity |].
  cbn [omap list_omap]. rewrite (H x).
  fold (omap f r). fold (omap g r). now rewrite IH.
Qed.

Lemma joinUser_row (d : Db) (p : PendingMessage) (injection : Injector.Injection) :
  Injector.joinUser d p = Some injection -> Injector.row injection = p.
Proof.
  unfold Injector.joinUser. destruct (users d !! pm_phone_number p); [| discriminate].
  cbn. intros [= <-]. reflexivity.
Qed.

(** The queue that an injection drains when nothing was pending before:
    one row for each recipient found, in some order. *)
Lemma queue_of_an_injection (d d4 : Db) (active : list (string * User))
    (rows : list PendingMessage) (messageId : string) :
  Injector.getPendingInjections d = [] ->
  users d4 = users d ->
  pending_messages d4 = (pending_messages d ++ rows)%list ->
  List.map pm_phone_number rows = active.*1 ->
  (forall phone row, In (phone, row) active -> users d !! phone = Some row) ->
  Forall (fun p => pm_message_id p = messageId /\ pm_status p = "pending") rows ->
  let queue := Injector.getPendingInjections d4 in
  recipients queue ≡ₚ active.*1
  /\ Forall (fun i => pm_message_id (Injector.row i) = messageId) queue
  /\ Forall (fun i => exists row,
                         In (pm_phone_number (Injector.row i), row) active
                         /\ Injector.inj_timezone i = timezone row)
            queue.
Proof.
  intros Hnil Husers Hpend Hphones Hactive Hrows queue.
  assert (Hjoin : forall p, Injector.joinUser d4 p = Injector.joinUser d p).
  { intros p. unfold Injector.joinUser. now rewrite Husers. }
  assert (Hold : omap (Injector.joinUser d)
                   (List.filter (fun p => String.eqb (pm_status p) "pending")
                      (pending_messages d)) = []).
  { now apply (orderBy_nil Injector.byPriorityThenCreated). }
  assert (Hnew : List.filter (fun p => String.eqb (pm_status p) "pending") rows = rows).
  { apply filter_all. eapply List.Forall_impl; [| exact Hrows].
    cbn. intros p (_ & ->). reflexivity. }
  assert (Hqueue : queue ≡ₚ omap (Injector.joinUser d) rows).
  { unfold queue, Injector.getPendingInjections. rewrite orderBy_perm, Hpend.
    rewrite (omap_pointwise _ _ _ Hjoin).
    rewrite List.filter_app, Hnew, omap_app, Hold. reflexivity. }
  assert (Hsome : forall p, In p rows -> is_Some (users d !! pm_phone_number p)).
  { intros p Hin.
    assert (Hp : In (pm_phone_number p) active.*1).
    { rewrite <- Hphones. now apply in_map. }
    apply list_elem_of_In, list_elem_of_fmap in Hp as ([phone row] & Heq & Hin').
    cbn in Heq. rewrite Heq. apply list_elem_of_In in Hin'.
    rewrite (Hactive phone row Hin'). eauto. }
  destruct (recipients_omap_joined d rows Hsome) as (Hrec & _).
  split; [| split].
  - unfold recipients in *. rewrite Hqueue, Hrec, Hphones. reflexivity.
  - apply List.Forall_forall. intros injection Hin.
    apply list_elem_of_In in Hin. rewrite Hqueue in Hin.
    apply list_elem_of_omap in Hin as (p & Hp & Hj).
    rewrite (joinUser_row d p injection Hj).
    apply list_elem_of_In in Hp.
    now destruct (proj1 (List.Forall_forall _ _) Hrows p Hp).
  - apply List.Forall_forall. intros injection Hin.
    apply list_elem_of_In in Hin. rewrite Hqueue in Hin.
    apply list_elem_of_omap in Hin as (p & Hp & Hj).
    apply list_elem_of_In in Hp.
    assert (Hphone : In (pm_phone_number p) active.*1).
    { rewrite <- Hphones. now apply in_map. }
    apply list_elem_of_In, list_elem_of_fmap in Hphone as ([phone row] & Heq & Hin').
    cbn in Heq. apply list_elem_of_In in Hin'.
    pose proof (Hactive phone row Hin') as Hrow. rewrite <- Heq in Hrow.
    unfold Injector.joinUser in Hj. rewrite Hrow in Hj. cbn in Hj.
    injection Hj as <-. cbn [Injector.row Injector.inj_timezone].
    exists row. rewrite Heq. split; [exact Hin' | reflexivity].
Qed.

End Injection.

(** X14.  An injection with a text and an id, made when nothing is pending,
    stores the text under the id, queues one row for each recipient who is
    neither stopped nor expired and follows the protocol named (any
    protocol for ALL), and drains the queue at once.  Each of these
    recipients gets the message at most once, under the id; nobody else
    gets anything, or has the row changed outside the conversation state;
    the report counts the recipients found and queued, and its sent, its
    skipped and its errors add up to them, without errors when every one of
    these recipients has a zone name; nothing is pending afterwards. *)
Theorem injection_reaches_the_active_recipients_once (clock : nat -> Env) (seq : Z)
    (d : Db) (message messageId : string) (priority : option Z) (program : option string) :
  message <> EmptyString ->
  messageId <> EmptyString ->
  Injector.getPendingInjections d = [] ->
  let target := default "ALL" program in
  let active := Injector.getActiveUsers d target in
  let outcome :=
    Injector.injectMessage clock seq d
      (Injector.mkMessageData (Some message) (Some messageId) priority program) in
  (exists report,
      outcome.1 = inr report
      /\ Injector.usersFound report = Z.of_nat (List.length active)
      /\ Injector.usersQueued report = Z.of_nat (List.length active)
      /\ Injector.messagesSent report + Injector.messagesSkipped report
         + Z.of_nat (List.length (Injector.errors report))
         = Z.of_nat (List.length active)
      /\ ((forall phone row, In (phone, row) active -> timezone row <> EmptyString) ->
          Injector.errors report = []))
  /\ (forall phone row,
        In (phone, row) active
        <-> users d !! phone = Some row
            /\ notStoppedOrExpired row = true
            /\ (target = "ALL" \/ target = EmptyString \/ protocol row = target))
  /\ getMessage outcome.2 messageId
     = Some (mkMessage messageId None target "Manual" (Some message) true)
  /\ Injector.getPendingInjections outcome.2 = []
  /\ (forall phone, (sentTo phone d <= sentTo phone outcome.2 <= sentTo phone d + 1)%nat)
  /\ (forall phone,
        (forall row, ~ In (phone, row) active) ->
        sentTo phone outcome.2 = sentTo phone d
        /\ forall row, users d !! phone = Some row ->
             exists row', users outcome.2 !! phone = Some row'
                          /\ sameButConversation row row')
  /\ (exists new,
        outbox outcome.2 = (outbox d ++ new)%list
        /\ Forall (fun o => o_message_id o = messageId) new).
Proof.
  intros Hmessage HmessageId Hnil target active outcome.
  unfold outcome, Injector.injectMessage.
  cbn [Injector.md_message Injector.md_messageId Injector.md_priority Injector.md_protocol
       Js.truthy default from_option Datatypes.id].
  fold target.
  destruct (String.eqb_spec message EmptyString) as [Heq | _]; [contradiction |].
  destruct (String.eqb_spec messageId EmptyString) as [Heq | _]; [contradiction |].
  cbn [negb orb].
  set (d0 := logFunction d "info" _).
  set (d1 := Injector.addMessageToDatabase d0 messageId message target).
  change (Injector.getActiveUsers d1 target) with active.
  set (d2 := logFunction d1 "info" _).
  destruct (queueMessageForUsers_spec (clock 0%nat) active messageId
              (default 1 priority) seq d2) as (rows & Hqueued & Hphones & Hrows).
  cbn [default from_option Datatypes.id] in Hqueued. rewrite Hqueued.
  set (d3 := set_pending_messages d2 (pending_messages d2 ++ rows)%list).
  set (d4 := logFunction d3 "info" _).
  assert (Hactive : forall phone row, In (phone, row) active -> users d !! phone = Some row).
  { intros phone row Hin. now apply getActiveUsers_spec in Hin. }
  assert (Hrows' : Forall (fun p => pm_message_id p = messageId /\ pm_status p = "pending")
                     rows).
  { eapply List.Forall_impl; [| exact Hrows]. cbn. tauto. }
  destruct (queue_of_an_injection d d4 active rows messageId Hnil eq_refl eq_refl
              Hphones Hactive Hrows') as (Hrecipients & Hids & Hzones).
  pose proof (drainFrom_drained (fun i => clock (S i)) d4) as Hdrained.
  pose proof (drainFrom_threw (fun i => clock (S i)) (Injector.getPendingInjections d4)
                0%nat d4) as Hthrew.
  destruct (drainFrom_local (fun i => clock (S i)) (Injector.getPendingInjections d4)
              0%nat d4)
    as (Hlen & Hdom & Hmsg & Hother & Hbound & (new & Hnew & Hall) & _).
  unfold Injector.processInjectionQueue.
  destruct (Injector.drainFrom (fun i => clock (S i)) 0 (Injector.getPendingInjections d4) d4)
    as [outcomes d5].
  cbn [fst snd] in *.
  assert (Hcount : List.length (Injector.getPendingInjections d4) = List.length active).
  { rewrite <- (List.length_map (fun i => pm_phone_number (Injector.row i))).
    fold (recipients (Injector.getPendingInjections d4)).
    rewrite Hrecipients. apply List.length_map. }
  split.
  { eexists. split; [reflexivity |].
    cbn [Injector.usersFound Injector.usersQueued Injector.messagesSent
         Injector.messagesSkipped].
    cbn [Injector.errors].
    split; [reflexivity |]. split; [reflexivity |].
    split.
    - rewrite <- Hcount. now apply tally_total.
    - intros Hnamed. apply tally_no_errors; [exact Hthrew |].
      intros injection Hin.
      destruct (proj1 (List.Forall_forall _ _) Hzones injection Hin) as (row & Hrow & ->).
      exact (Hnamed _ row Hrow). }
  split.
  { intros phone row. unfold active. rewrite getActiveUsers_spec. tauto. }
  split.
  { unfold getMessage. rewrite Hmsg.
    apply (getMessage_addMessageToDatabase d0 messageId message target). }
  split; [exact Hdrained |].
  split.
  { intros phone. apply (Hbound) .
    eapply Permutation_NoDup; [symmetry; exact Hrecipients |].
    apply getActiveUsers_NoDup. }
  split.
  { intros phone Habsent.
    destruct (Hother phone) as (Hu & Hs);
      [| split; [exact Hs |];
         intros row Hrow; exists row; split;
         [rewrite Hu; exact Hrow | destruct row; reflexivity]].
    intros Hin. apply list_elem_of_In in Hin. rewrite Hrecipients in Hin.
    apply list_elem_of_fmap in Hin as ([phone' row] & Heq & Hin). cbn in Heq. subst phone'.
    apply list_elem_of_In in Hin. exact (Habsent row Hin). }
  exists new. split; [exact Hnew |].
  eapply List.Forall_impl; [| exact Hall].
  cbn. intros o (injection & Hin & _ & Hid). rewrite Hid.
  exact (proj1 (List.Forall_forall _ _) Hids injection Hin).
Qed.

Lemma injection_reaches_the_active_recipients_once_witness :
  let outcome :=
    Injector.injectMessage (fun _ => mondayMorning) 0 pacificDb
      (Injector.mkMessageData (Some "Office closed today, {name}.") (Some "alert1")
                              None None) in
  outbox outcome.2 = [mkOutbound pacificPhone "Office closed today, Sam." "alert1"]
  /\ sentTo pacificPhone outcome.2 = 1%nat
  /\ Injector.getPendingInjections outcome.2 = [].
Proof.
  intros outcome.
  destruct (injection_reaches_the_active_recipients_once (fun _ => mondayMorning) 0
              pacificDb "Office closed today, {name}." "alert1" None None)
    as (_ & _ & _ & Hdrained & _).
  - discriminate.
  - discriminate.
  - reflexivity.
  - split; [reflexivity |]. split; [reflexivity | exact Hdrained].
Defined.

Section Cleanup.

Lemma filter_filter_implied {A : Type} (p q : A -> bool) (l : list A) :
  (forall x, p x = true -> q x = true) ->
  List.filter p (List.filter q l) = List.filter p l.
Proof.
  intros Himp. induction l as [| x r IH]; [reflexivity |].
  cbn [List.filter]. destruct (q x) eqn:Hq; cbn [List.filter].
  - now rewrite IH.
  - destruct (p x) eqn:Hp; [| exact IH]. apply Himp in Hp. congruence.
Qed.

Lemma filter_split_length {A : Type} (p : A -> bool) (l : list A) :
  (List.length (List.filter p l) + List.length (List.filter (fun x => negb (p x)) l))%nat
  = List.length l.
Proof.
  induction l as [| x r IH]; [reflexivity |].
  cbn [List.filter]. destruct (p x); cbn [negb List.length]; lia.
Qed.

End Cleanup.

(** X15.  The cleanup deletes processed rows only: it returns the number of
    rows it deleted, a pending row is never among them, and the queue that
    the next drain will read is the same before and after. *)
Theorem cleanup_keeps_the_pending_rows (cutoffDate : Z) (d : Db) :
  let cleaned := Injector.cleanupOldInjections cutoffDate d in
  Injector.getPendingInjections cleaned.2 = Injector.getPendingInjections d
  /\ cleaned.1 + Z.of_nat (List.length (pending_messages cleaned.2))
     = Z.of_nat (List.length (pending_messages d))
  /\ (forall p, In p (pending_messages d) ->
                (pm_status p = "pending" \/ cutoffDate <= pm_created_timestamp p) ->
                In p (pending_messages cleaned.2))
  /\ (forall p, In p (pending_messages cleaned.2) -> In p (pending_messages d))
  /\ users cleaned.2 = users d
  /\ outbox cleaned.2 = outbox d.
Proof.
  intros cleaned. unfold cleaned, Injector.cleanupOldInjections.
  cbn [fst snd pending_messages set_pending_messages users outbox].
  set (old := fun p : PendingMessage =>
                (String.eqb (pm_status p) "sent" || String.eqb (pm_status p) "skipped"
                 || String.eqb (pm_status p) "failed")
                && (pm_created_timestamp p <? cutoffDate)).
  split.
  { unfold Injector.getPendingInjections, Injector.joinUser.
    cbn [pending_messages set_pending_messages users].
    rewrite filter_filter_implied; [reflexivity |].
    intros p Hp. apply String.eqb_eq in Hp. unfold old. now rewrite Hp. }
  split.
  { change (Z.of_nat (List.length (List.filter old (pending_messages d)))
            + Z.of_nat (List.length
                          (List.filter (fun p => negb (old p)) (pending_messages d)))
            = Z.of_nat (List.length (pending_messages d))).
    pose proof (filter_split_length old (pending_messages d)). lia. }
  split.
  { intros p Hin Hkeep. apply filter_In. split; [exact Hin |].
    unfold old. destruct Hkeep as [-> | Hnew]; [reflexivity |].
    destruct (Z.ltb_spec (pm_created_timestamp p) cutoffDate); [lia |].
    now rewrite andb_false_r. }
  split; [intros p Hin; now apply filter_In in Hin |].
  split; reflexivity.
Qed.


(** * The sync from the site *)

Section Zones.

Import WordPressSync.

Lemma includes_In_names (xs : list string) (x : string) :
  includes xs x = true <-> In x xs.
Proof.
  unfold includes. rewrite existsb_exists. split.
  - intros (y & Hin & Heq). apply String.eqb_eq in Heq. now subst.
  - intros Hin. exists x. split; [exact Hin | apply String.eqb_refl].
Qed.

Lemma mapped_valid (name zone : string) :
  mapped name = Some zone -> In zone validTimezones.
Proof.
  unfold mapped, timezoneMap. cbn [List.find fst snd].
  repeat match goal with
         | |- context [String.eqb ?a name] => destruct (String.eqb a name)
         end;
    cbn; intros [= <-]; tauto.
Qed.

Lemma validateTimezone_fixes_zones (zone : string) :
  In zone validTimezones -> validateTimezone (Some zone) = Zone zone.
Proof.
  intros Hin.
  repeat (destruct Hin as [<- | Hin]; [reflexivity |]). destruct Hin.
Qed.

Lemma validateTimezone_valid (timezone : option string) (zone : string) :
  validateTimezone timezone = Zone zone -> In zone validTimezones.
Proof.
  unfold validateTimezone.
  destruct (Js.truthy timezone); cbn [andb]; [| intros [= <-]; cbn; tauto].
  destruct (includes validTimezones _) eqn:Hvalid.
  { intros [= <-]. now apply includes_In_names. }
  destruct (mapped _) as [z |] eqn:Hmapped.
  { intros [= <-]. now apply mapped_valid in Hmapped. }
  destruct (includes inheritedNames _); [discriminate |].
  intros [= <-]. cbn. tauto.
Qed.

End Zones.

(** X16.  The zone validator returns one of the seven zones of the
    deployment, and returns a zone of the seven unchanged, so validating
    twice is validating once; an absent or empty name gives the Central
    zone.  The one exception is a name that every JavaScript object
    inherits (constructor, toString, ...): the lookup in the table of
    abbreviations then finds the inherited member, and that is returned. *)
Theorem validated_zone_is_one_of_seven (timezone : option string) :
  match WordPressSync.validateTimezone timezone with
  | WordPressSync.Zone zone =>
      In zone WordPressSync.validTimezones
      /\ WordPressSync.validateTimezone (Some zone) = WordPressSync.Zone zone
  | WordPressSync.Inherited name =>
      timezone = Some name /\ In name WordPressSync.inheritedNames
  end
  /\ (forall zone, In zone WordPressSync.validTimezones ->
                   WordPressSync.validateTimezone (Some zone) = WordPressSync.Zone zone)
  /\ (Js.truthy timezone = false ->
      WordPressSync.validateTimezone timezone = WordPressSync.Zone "America/Chicago").
Proof.
  split; [| split; [apply validateTimezone_fixes_zones |]].
  - unfold WordPressSync.validateTimezone.
    destruct (Js.truthy timezone) eqn:Htruthy; cbn [andb].
    + destruct timezone as [name |]; [| discriminate]. cbn [default from_option Datatypes.id].
      destruct (WordPressSync.includes WordPressSync.validTimezones name) eqn:Hvalid.
      { apply includes_In_names in Hvalid.
        split; [exact Hvalid | now apply validateTimezone_fixes_zones]. }
      destruct (WordPressSync.mapped name) as [zone |] eqn:Hmapped.
      { apply mapped_valid in Hmapped.
        split; [exact Hmapped | now apply validateTimezone_fixes_zones]. }
      destruct (WordPressSync.includes WordPressSync.inheritedNames name) eqn:Hinherited.
      { apply includes_In_names in Hinherited. auto. }
      split; [cbn; tauto | reflexivity].
    + split; [cbn; tauto | reflexivity].
  - intros Hfalsy. unfold WordPressSync.validateTimezone. now rewrite Hfalsy.
Qed.

(** X17.  A sync of a number that is already in the registry rewrites the
    row from the site: status, type, protocol, first name and a zone of the
    seven.  It keeps the progress (sequence position, counters, join date,
    last send) and touches no other row.  The conversation state is lost:
    the stop position and the awaiting state are cleared, so a reply that
    arrives afterwards is not taken as an answer, and unless the site says
    stopped or expired the recipient is in the scheduler's queue again,
    whatever the status was. *)
Theorem sync_keeps_progress_and_forgets_the_conversation (e e' : Env) (d d' : Db)
    (userData : WordPressSync.UserData) (old : User) (reply : string) :
  let phone := WordPressSync.phoneNumber userData in
  users d !! phone = Some old ->
  WordPressSync.syncUserToSMS e d userData = Some d' ->
  exists row,
    users d' !! phone = Some row
    /\ (forall other, other <> phone -> users d' !! other = users d !! other)
    /\ subscription_status row = WordPressSync.subscriptionStatus userData
    /\ user_type row = WordPressSync.userType userData
    /\ protocol row = WordPressSync.ud_protocol userData
    /\ first_name row = WordPressSync.firstName userData
    /\ In (timezone row) WordPressSync.validTimezones
    /\ current_sequence_position row = current_sequence_position old
    /\ total_messages_sent row = total_messages_sent old
    /\ trial_messages_sent row = trial_messages_sent old
    /\ date_joined row = date_joined old
    /\ last_message_sent row = last_message_sent old
    /\ awaiting_response row = None
    /\ awaiting_response_since row = None
    /\ stopped_at_position row = None
    /\ ResponseHandler.handleInteractiveResponse e' d' phone reply
       = (ResponseHandler.NotHandled, d')
    /\ (WordPressSync.subscriptionStatus userData <> "stopped" ->
        WordPressSync.subscriptionStatus userData <> "expired" ->
        In (phone, row) (Scheduler.getEligibleUsers d')).
Proof.
  intros phone Hold Hsync. unfold WordPressSync.syncUserToSMS in Hsync.
  destruct (WordPressSync.validateTimezone (WordPressSync.ud_timezone userData))
    as [zone | name] eqn:Hzone; [| discriminate].
  apply validateTimezone_valid in Hzone.
  injection Hsync as <-. fold phone. rewrite Hold.
  set (row := WordPressSync.syncedRow (now e) userData zone (Some old)).
  assert (Hrow : users (set_users d (<[phone := row]> (users d))) !! phone = Some row)
    by apply lookup_insert_eq.
  exists row. split; [exact Hrow |].
  split; [intros other Hne; now apply lookup_insert_ne |].
  do 13 (split; [first [reflexivity | exact Hzone] |]).
  split.
  { unfold ResponseHandler.handleInteractiveResponse, ResponseHandler.getUser.
    rewrite Hrow. reflexivity. }
  intros Hstopped Hexpired. apply getEligibleUsers_spec. split; [exact Hrow |].
  unfold notStoppedOrExpired, row. cbn [WordPressSync.syncedRow subscription_status].
  destruct (String.eqb_spec (WordPressSync.subscriptionStatus userData) "stopped");
    [contradiction |].
  destruct (String.eqb_spec (WordPressSync.subscriptionStatus userData) "expired");
    [contradiction | reflexivity].
Qed.

Lemma sync_keeps_progress_and_forgets_the_conversation_witness :
  let since := newYearNoon - 3600000 in
  let stopped :=
    (ResponseHandler.processIncomingMessage atNoon (janeDb "2" since) janePhone "STOP").2 in
  let userData :=
    WordPressSync.mkUserData janePhone (Some "Jane") "subscriber" "active"
                             (Some "Central") "Elevate" in
  exists d',
    WordPressSync.syncUserToSMS mondayAfternoon stopped userData = Some d'
    /\ subscription_status <$> users stopped !! janePhone = Some "stopped"
    /\ awaiting_response <$> users stopped !! janePhone = Some (Some "2")
    /\ ResponseHandler.handleInteractiveResponse mondayAfternoon d' janePhone "B"
       = (ResponseHandler.NotHandled, d')
    /\ exists row, In (janePhone, row) (Scheduler.getEligibleUsers d')
                   /\ current_sequence_position row = 3.
Proof.
  intros since stopped userData.
  eexists. split; [reflexivity |]. split; [reflexivity |]. split; [reflexivity |].
  edestruct (sync_keeps_progress_and_forgets_the_conversation mondayAfternoon mondayAfternoon
               stopped _ userData _ "B" eq_refl eq_refl)
    as (row & _ & _ & _ & _ & _ & _ & _ & Hposition & _ & _ & _ & _ & _ & _ & _
        & Hreply & Heligible).
  split; [exact Hreply |].
  exists row. split; [| exact Hposition].
  apply Heligible; discriminate.
Defined.

Section Welcome.

Import WordPressSync.

(** The personalisation written out in [sendWelcomeMessage] is the one of
    [personalizeMessage]. *)
Lemma welcome_personalisation (text : string) (name : option string) :
  (if Js.truthy name
   then replaceName 0 (default EmptyString name) text
   else Js.trim (collapseSpaces false (stripName 0 false text)))
  = personalizeMessage (Some text) name.
Proof.
  unfold personalizeMessage. cbn [Js.truthy default from_option Datatypes.id].
  destruct (String.eqb_spec text EmptyString) as [-> | _]; cbn [negb]; [| reflexivity].
  destruct (Js.truthy name); reflexivity.
Qed.

Lemma getWelcomeMessage_row (d : Db) (program : string) (m : Message) :
  getWelcomeMessage d program = Some m ->
  In m (messages d) /\ number m = Some 1 /\ msg_protocol m = program /\ active m = true.
Proof.
  unfold getWelcomeMessage. intros H. apply find_some in H as (Hin & H).
  apply andb_prop in H as (H & Hactive). apply andb_prop in H as (Hnumber & Hprotocol).
  apply String.eqb_eq in Hprotocol.
  destruct (number m) as [n |]; [| discriminate]. apply Z.eqb_eq in Hnumber as ->. auto.
Qed.

(** The shapes of a welcome. *)
Lemma sendWelcomeMessage_shape (e : Env) (d : Db) (phone : string)
    (name : option string) (program : string) :
  let zone :=
    match users d !! phone with
    | Some user => Scheduler.zoneOf (timezone user)
    | None => "America/Chicago"
    end in
  let hour := Moment.hour (tzdb e) zone (now e) in
  let weekday := Moment.day (tzdb e) zone (now e) in
  let welcome := sendWelcomeMessage e d phone name program in
  ((weekday = 0 \/ hour < 8 \/ 20 <= hour)
   /\ welcome = (NotWelcomed (if weekday =? 0
                              then "Sunday rest day - welcome message delayed"
                              else "Outside welcome hours in " +:+ zone), d))
  \/ (weekday <> 0 /\ 8 <= hour < 20
      /\ ((exists error, welcome = (NotWelcomed error, d))
          \/ exists m text,
               getWelcomeMessage d program = Some m
               /\ message_text m = Some text
               /\ let o := mkOutbound phone (personalizeMessage (Some text) name) (id m) in
                  (exists error,
                      sendMessageFunction e phone (o_body o) (id m) = SendFailed error
                      /\ welcome = (NotWelcomed error, push_outbox d o))
                  \/ (sendMessageFunction e phone (o_body o) (id m) = SendOk
                      /\ welcome = (Welcomed,
                                    updateUserAfterWelcome e (push_outbox d o) phone zone)))).
Proof.
  cbv zeta. unfold sendWelcomeMessage, getUserFromSMS.
  change (match users d !! phone with
          | Some user => if String.eqb (timezone user) EmptyString
                         then "America/Chicago" else timezone user
          | None => "America/Chicago"
          end)
    with (match users d !! phone with
          | Some user => Scheduler.zoneOf (timezone user)
          | None => "America/Chicago"
          end).
  set (zone := match users d !! phone with
               | Some user => Scheduler.zoneOf (timezone user)
               | None => "America/Chicago"
               end).
  destruct (Z.eqb_spec (Moment.day (tzdb e) zone (now e)) 0) as [Hday | Hday].
  { left. split; [now left | reflexivity]. }
  destruct (Z.ltb_spec (Moment.hour (tzdb e) zone (now e)) 8) as [Hlow | Hlow];
    cbn [orb].
  { left. split; [right; now left | reflexivity]. }
  destruct (Z.geb_spec (Moment.hour (tzdb e) zone (now e)) 20) as [Hhigh | Hhigh].
  { left. split; [right; right; lia | reflexivity]. }
  right. split; [exact Hday |]. split; [lia |].
  destruct (getWelcomeMessage d program) as [m |] eqn:Hm; [| left; eauto].
  destruct (message_text m) as [text |] eqn:Htext; [| left; eauto].
  right. exists m, text. split; [reflexivity |]. split; [exact Htext |].
  rewrite welcome_personalisation. unfold send. cbn [fst snd o_body].
  destruct (sendMessageFunction e phone _ (id m)) as [| error] eqn:Hsend.
  - right. split; reflexivity.
  - left. exists error. split; reflexivity.
Qed.

End Welcome.

(** X18.  A welcome is sent on a weekday other than Sunday between 8 and 20
    o'clock in the recipient's zone (Central for a number not in the
    registry), and otherwise refused with nothing done.  What is sent is the
    active row numbered 1 of the program, personalised.  After a welcome
    that was sent the recipient's counters read one trial message, one
    message in total and sequence position 2, whatever they were, and the
    day's counter reads 1, whatever it was; a welcome that was not sent
    leaves registry and counters alone. *)
Theorem welcome_window_and_counters (e : Env) (d : Db) (phone : string)
    (name : option string) (program : string) :
  let zone :=
    match users d !! phone with
    | Some user => Scheduler.zoneOf (timezone user)
    | None => "America/Chicago"
    end in
  let hour := Moment.hour (tzdb e) zone (now e) in
  let weekday := Moment.day (tzdb e) zone (now e) in
  let today := Moment.format_date (tzdb e) zone (now e) in
  let welcome := WordPressSync.sendWelcomeMessage e d phone name program in
  (weekday = 0 \/ hour < 8 \/ 20 <= hour ->
   WordPressSync.success welcome.1 = false /\ welcome.2 = d)
  /\ (WordPressSync.success welcome.1 = false ->
      users welcome.2 = users d /\ daily_limits welcome.2 = daily_limits d)
  /\ (WordPressSync.success welcome.1 = true ->
      weekday <> 0 /\ 8 <= hour < 20
      /\ (exists m text,
            In m (messages d) /\ number m = Some 1 /\ msg_protocol m = program
            /\ active m = true /\ message_text m = Some text
            /\ outbox welcome.2
               = (outbox d ++ [mkOutbound phone (personalizeMessage (Some text) name)
                                          (id m)])%list)
      /\ messages_sent welcome.2 phone today = 1
      /\ (forall other, other <> phone -> users welcome.2 !! other = users d !! other)
      /\ (forall row, users d !! phone = Some row ->
            exists row',
              users welcome.2 !! phone = Some row'
              /\ trial_messages_sent row' = 1
              /\ total_messages_sent row' = 1
              /\ current_sequence_position row' = 2
              /\ last_message_sent row' = Some (now e)
              /\ user_type row' = user_type row
              /\ subscription_status row' = subscription_status row
              /\ date_joined row' = date_joined row)).
Proof.
  intros zone hour weekday today welcome.
  destruct (sendWelcomeMessage_shape e d phone name program)
    as [(Hout & H) | (Hday & Hhour & [(error & H) | (m & text & Hm & Htext & H)])];
    fold zone in H; fold welcome in H;
    try fold zone hour weekday in Hout; try fold zone hour weekday in Hday, Hhour.
  - rewrite H. cbn [fst snd WordPressSync.success].
    split; [auto |]. split; [auto |]. discriminate.
  - rewrite H. cbn [fst snd WordPressSync.success].
    split; [intros; lia |]. split; [auto |]. discriminate.
  - cbv zeta in H. cbn [o_body] in H.
    destruct H as [(error & Hsend & H) | (Hsend & H)]; rewrite H;
      cbn [fst snd WordPressSync.success].
    + split; [intros; lia |]. split; [auto |]. discriminate.
    + split; [intros; lia |]. split; [discriminate |]. intros _.
      split; [exact Hday |]. split; [exact Hhour |].
      apply getWelcomeMessage_row in Hm as (Hin & Hnumber & Hprotocol & Hactive).
      split; [exists m, text; auto 10 |].
      split.
      { unfold messages_sent, WordPressSync.updateUserAfterWelcome.
        cbn [daily_limits set_daily_limits]. fold today.
        now rewrite lookup_insert_eq. }
      split.
      { intros other Hne. cbn. now apply lookup_alter_ne. }
      intros row Hrow. exists (WordPressSync.welcomedRow (now e) row).
      split; [| repeat split].
      cbn. now rewrite lookup_alter_eq, Hrow.
Qed.

Section ImmediateQueue.

Import WordPressSync.

(** The row of a recipient whom the immediate queue has just registered. *)
Lemma processQueueEntry_fresh (e : Env) (d : Db) (entry : QueueEntry) (phone : string) :
  normalizePhoneNumber (q_phone_number entry) = Some phone ->
  users d !! phone = None ->
  let program := Js.orElse (q_program entry) "Elevate" in
  let fresh :=
    mkUser program "trial" 1 0 "trial" 0 1 0 (now e) None "America/Chicago"
           (q_first_name entry) None None None (now e) in
  let d1 := set_users d (<[phone := fresh]> (users d)) in
  processQueueEntry e d entry
  = match sendWelcomeMessage e d1 phone (q_first_name entry) program with
    | (Welcomed, d2) =>
        ("sent",
         logFunction d2 "info"
           ("Welcome message sent to " +:+ show (q_first_name entry)
            +:+ " (" +:+ phone +:+ ")"))
    | (NotWelcomed error, d2) =>
        if Js.includes error "Sunday" || Js.includes error "hours"
        then ("delayed",
              logFunction d2 "info"
                ("Welcome message delayed for " +:+ show (q_first_name entry)
                 +:+ ": " +:+ error))
        else ("send_failed",
              logFunction d2 "error"
                ("Failed to send welcome message to " +:+ phone +:+ ": " +:+ error))
    end.
Proof.
  intros Hphone Habsent program fresh d1.
  unfold processQueueEntry, getUserFromSMS. rewrite Hphone, Habsent.
  unfold syncUserToSMS. cbn [ud_timezone phoneNumber].
  change (validateTimezone (Some "America/Chicago")) with (Zone "America/Chicago").
  cbv iota. rewrite Habsent. reflexivity.
Qed.

(** A welcome on a fresh registration, read with the row just written. *)
Lemma welcome_after_registration (e : Env) (d : Db) (phone : string) (fresh : User)
    (name : option string) (program : string) :
  timezone fresh = "America/Chicago" ->
  let d1 := set_users d (<[phone := fresh]> (users d)) in
  let welcome := sendWelcomeMessage e d1 phone name program in
  (exists error o,
      welcome = (NotWelcomed error, d1)
      \/ (welcome = (NotWelcomed error, push_outbox d1 o) /\ o_to o = phone))
  \/ (exists o,
        o_to o = phone
        /\ welcome = (Welcomed,
                      updateUserAfterWelcome e (push_outbox d1 o) phone "America/Chicago")).
Proof.
  intros Hzone d1 welcome.
  assert (Hrow : users d1 !! phone = Some fresh) by apply lookup_insert_eq.
  pose proof (sendWelcomeMessage_shape e d1 phone name program) as H.
  cbv zeta in H. rewrite Hrow, Hzone in H.
  change (Scheduler.zoneOf "America/Chicago") with "America/Chicago" in H.
  fold welcome in H.
  destruct H as [(_ & H) | (_ & _ & [(error & H) | (m & text & _ & _ & H)])].
  - left. eexists. exists (mkOutbound phone EmptyString EmptyString). left. exact H.
  - left. exists error, (mkOutbound phone EmptyString EmptyString). left. exact H.
  - destruct H as [(error & _ & H) | (_ & H)].
    + left. exists error. eexists. right. split; [exact H | reflexivity].
    + right. eexists. split; [| exact H]. reflexivity.
Qed.

End ImmediateQueue.



(** X20.  The immediate queue never changes a row that is in the registry:
    an entry whose number does not normalise is marked invalid and an entry
    whose number is registered is marked as existing, both with nothing
    sent.  Any other entry registers its number, and touches no other
    number.  When its welcome is not sent the entry is still marked
    processed, and the recipient stays registered as a trial recipient
    without any message: the scheduler then sends trial message 1, a whole
    day after the registration at the earliest. *)
Theorem immediate_queue_registers_without_overwriting (e : Env) (d : Db)
    (entry : WordPressSync.QueueEntry) :
  let number := WordPressSync.normalizePhoneNumber (WordPressSync.q_phone_number entry) in
  let turn := WordPressSync.processQueueEntry e d entry in
  (forall phone row, users d !! phone = Some row -> users turn.2 !! phone = Some row)
  /\ (forall other, number <> Some other ->
        users turn.2 !! other = users d !! other
        /\ sentTo other turn.2 = sentTo other d)
  /\ (number = None -> turn = ("invalid_phone", d))
  /\ (forall phone, number = Some phone -> is_Some (users d !! phone) ->
        turn.1 = "user_exists" /\ users turn.2 = users d /\ outbox turn.2 = outbox d)
  /\ (forall phone, number = Some phone -> users d !! phone = None ->
        In turn.1 ["sent"; "delayed"; "send_failed"]
        /\ (turn.1 <> "sent" ->
            users turn.2 !! phone
            = Some (mkUser (Js.orElse (WordPressSync.q_program entry) "Elevate") "trial"
                           1 0 "trial" 0 1 0 (now e) None "America/Chicago"
                           (WordPressSync.q_first_name entry) None None None (now e))
            /\ forall e' row,
                 users turn.2 !! phone = Some row ->
                 Scheduler.isUserDueForMessage e' row
                 = if Moment.diff_days (tzdb e') "America/Chicago" (now e') (now e) >=? 1
                   then Scheduler.Due "trial" (Scheduler.PosNumber 1) None
                   else Scheduler.notDueYet)).
Proof.
  intros number turn.
  destruct number as [phone |] eqn:Hphone; subst number.
  2:{ assert (H : turn = ("invalid_phone", d)).
      { unfold turn, WordPressSync.processQueueEntry. now rewrite Hphone. }
      rewrite H. cbn [fst snd].
      split; [auto |]. split; [auto |]. split; [auto |].
      split; intros ? [=]. }
  destruct (users d !! phone) as [existing |] eqn:Hexisting.
  { assert (H : turn = ("user_exists",
                        logFunction d "info"
                          ("User " +:+ phone +:+ " already exists, skipping welcome message"))).
    { unfold turn, WordPressSync.processQueueEntry, WordPressSync.getUserFromSMS.
      now rewrite Hphone, Hexisting. }
    rewrite H. cbn [fst snd].
    split; [auto |]. split; [intros; split; reflexivity |]. split; [discriminate |].
    split; [intros p [= <-] _; repeat split |].
    intros p [= <-] Hnone. congruence. }
  pose proof (processQueueEntry_fresh e d entry phone Hphone Hexisting) as Hturn.
  cbv zeta in Hturn. fold turn in Hturn.
  set (program := Js.orElse (WordPressSync.q_program entry) "Elevate") in *.
  set (fresh := mkUser program "trial" 1 0 "trial" 0 1 0 (now e) None "America/Chicago"
                       (WordPressSync.q_first_name entry) None None None (now e)) in *.
  set (d1 := set_users d (<[phone := fresh]> (users d))) in *.
  assert (Hfresh : forall e',
             Scheduler.isUserDueForMessage e' fresh
             = if Moment.diff_days (tzdb e') "America/Chicago" (now e') (now e) >=? 1
               then Scheduler.Due "trial" (Scheduler.PosNumber 1) None
               else Scheduler.notDueYet) by reflexivity.
  assert (Hkept : forall p row, users d !! p = Some row -> users d1 !! p = Some row).
  { intros p row Hrow. unfold d1. cbn [users set_users].
    rewrite lookup_insert_ne; [exact Hrow | congruence]. }
  assert (Hothers : forall other, Some phone <> Some other ->
                                  users d1 !! other = users d !! other).
  { intros other Hne. unfold d1. cbn [users set_users].
    apply lookup_insert_ne. congruence. }
  destruct (welcome_after_registration e d phone fresh (WordPressSync.q_first_name entry)
              program eq_refl) as [(error & o & H) | (o & Hto & H)];
    cbv zeta in H; fold d1 in H.
  - assert (Hshape : (turn.1 = "delayed" \/ turn.1 = "send_failed")
                     /\ users turn.2 = users d1
                     /\ forall other, Some phone <> Some other ->
                                       sentTo other turn.2 = sentTo other d).
    { destruct H as [H | (H & Hto)]; rewrite H in Hturn; destruct (_ || _);
        rewrite Hturn; cbn [fst snd]; (split; [auto |]); (split; [reflexivity |]);
        intros other Hne;
        first [ reflexivity
              | change (sentTo other (push_outbox d o) = sentTo other d);
                rewrite sentTo_push_outbox, Hto;
                destruct (String.eqb_spec phone other); [congruence | lia] ]. }
    destruct Hshape as (Hstatus & Husers & Hsent).
    split; [intros p row Hrow; rewrite Husers; now apply Hkept |].
    split; [intros other Hne; rewrite Husers; split; [now apply Hothers | now apply Hsent] |].
    split; [discriminate |].
    split; [intros p [= <-] (x & Hx); congruence |].
    intros p [= <-] _. split.
    { destruct Hstatus as [-> | ->]; cbn; tauto. }
    intros _. rewrite Husers.
    assert (Hrow : users d1 !! phone = Some fresh) by apply lookup_insert_eq.
    split; [exact Hrow |].
    intros e' row Hrow'. rewrite Hrow in Hrow'. injection Hrow' as <-. apply Hfresh.
  - rewrite H in Hturn. rewrite Hturn. cbn [fst snd].
    split.
    { intros p row Hrow. cbn.
      rewrite lookup_alter_ne, lookup_insert_ne; [exact Hrow | congruence | congruence]. }
    split.
    { intros other Hne. split.
      - cbn. rewrite lookup_alter_ne, lookup_insert_ne; [reflexivity | congruence | congruence].
      - change (sentTo other (push_outbox d o) = sentTo other d).
        rewrite sentTo_push_outbox, Hto.
        destruct (String.eqb_spec phone other); [congruence | lia]. }
    split; [discriminate |].
    split; [intros p [= <-] (x & Hx); congruence |].
    intros p [= <-] _. split; [cbn; tauto |]. intros Hne. now destruct Hne.
Qed.

Section TrialSync.

Import WordPressSync.

(** The row that the trial sync writes for a submission. *)
Lemma syncTrialUser_cases (e : Env) (d : Db) (trialUser : TrialUser) :
  (syncTrialUser e d trialUser = (false, d)
   /\ (normalizePhoneNumber (t_phone_number trialUser) = None
       \/ exists phone, normalizePhoneNumber (t_phone_number trialUser) = Some phone
                        /\ is_Some (users d !! phone)))
  \/ (exists phone,
        normalizePhoneNumber (t_phone_number trialUser) = Some phone
        /\ users d !! phone = None
        /\ syncTrialUser e d trialUser
           = (true,
              set_users d
                (<[phone := mkUser "Elevate" "trial" 1 0 "trial" 0 1 0 (now e) None
                                   "America/Chicago" (t_first_name trialUser)
                                   None None None (now e)]> (users d)))).
Proof.
  unfold syncTrialUser, getUserFromSMS.
  destruct (normalizePhoneNumber (t_phone_number trialUser)) as [phone |];
    [| left; split; [reflexivity | now left]].
  destruct (users d !! phone) as [existing |] eqn:Hexisting.
  { left. split; [reflexivity |]. right. exists phone. split; [reflexivity |].
    rewrite Hexisting. eauto. }
  right. exists phone. split; [reflexivity |]. split; [exact Hexisting |].
  unfold syncUserToSMS. cbn [ud_timezone phoneNumber].
  change (validateTimezone (Some "America/Chicago")) with (Zone "America/Chicago").
  cbv iota. rewrite Hexisting. reflexivity.
Qed.

Lemma syncTrialRows_spec (e : Env) (trialUsers : list TrialUser) :
  forall d : Db,
    let result := syncTrialRows e d trialUsers in
    0 <= result.1.1 /\ 0 <= result.1.2
    /\ result.1.1 + result.1.2 = Z.of_nat (List.length trialUsers)
    /\ (forall phone row, users d !! phone = Some row ->
                          users result.2 !! phone = Some row)
    /\ (forall trialUser phone,
          In trialUser trialUsers ->
          normalizePhoneNumber (t_phone_number trialUser) = Some phone ->
          is_Some (users result.2 !! phone))
    /\ (forall phone row,
          users result.2 !! phone = Some row ->
          users d !! phone = Some row
          \/ (users d !! phone = None
              /\ exists trialUser,
                   In trialUser trialUsers
                   /\ normalizePhoneNumber (t_phone_number trialUser) = Some phone
                   /\ row = mkUser "Elevate" "trial" 1 0 "trial" 0 1 0 (now e) None
                                   "America/Chicago" (t_first_name trialUser)
                                   None None None (now e)))
    /\ Z.of_nat (size (users result.2)) = Z.of_nat (size (users d)) + result.1.1
    /\ outbox result.2 = outbox d
    /\ daily_limits result.2 = daily_limits d
    /\ messages result.2 = messages d
    /\ log result.2 = log d.
Proof.
  induction trialUsers as [| trialUser rest IH]; intros d.
  { cbn. repeat split; auto; try lia; try (intros ? ? []). }
  cbn [syncTrialRows].
  destruct (syncTrialUser_cases e d trialUser)
    as [(Hturn & Hwhy) | (phone0 & Hphone0 & Habsent & Hturn)]; rewrite Hturn.
  - specialize (IH d). cbv zeta in IH.
    destruct (syncTrialRows e d rest) as [[syncedCount skippedCount] d2].
    cbn [fst snd] in IH |- *.
    destruct IH as (H0 & H1 & Hsum & Hkept & Hadded & Horigin & Hsize & Hrest).
    split; [lia |]. split; [lia |]. split; [cbn [List.length]; lia |].
    split; [exact Hkept |].
    split.
    { intros t phone [<- | Hin] Hphone; [| now apply (Hadded t)].
      destruct Hwhy as [Hnone | (p & Hp & (x & Hx))]; [congruence |].
      assert (p = phone) by congruence. subst p.
      rewrite (Hkept phone x Hx). eauto. }
    split.
    { intros phone row Hrow. destruct (Horigin phone row Hrow) as [H | (Hn & t & Hin & H)];
        [now left |].
      right. split; [exact Hn |]. exists t. split; [now right | exact H]. }
    split; [exact Hsize | exact Hrest].
  - set (fresh := mkUser "Elevate" "trial" 1 0 "trial" 0 1 0 (now e) None "America/Chicago"
                         (t_first_name trialUser) None None None (now e)) in *.
    set (d1 := set_users d (<[phone0 := fresh]> (users d))).
    specialize (IH d1). cbv zeta in IH.
    destruct (syncTrialRows e d1 rest) as [[syncedCount skippedCount] d2].
    cbn [fst snd] in IH |- *.
    destruct IH as (H0 & H1 & Hsum & Hkept & Hadded & Horigin & Hsize & Hrest).
    assert (Hfresh : users d1 !! phone0 = Some fresh) by apply lookup_insert_eq.
    split; [lia |]. split; [lia |]. split; [cbn [List.length]; lia |].
    split.
    { intros phone row Hrow. apply Hkept. unfold d1. cbn [users set_users].
      rewrite lookup_insert_ne; [exact Hrow | congruence]. }
    split.
    { intros t phone [<- | Hin] Hphone; [| now apply (Hadded t)].
      assert (phone0 = phone) by congruence. subst phone0.
      rewrite (Hkept phone fresh Hfresh). eauto. }
    split.
    { intros phone row Hrow.
      destruct (Horigin phone row Hrow) as [H | (Hn & t & Hin & H)].
      - destruct (decide (phone = phone0)) as [-> | Hne].
        + right. split; [exact Habsent |]. exists trialUser.
          split; [now left |]. split; [exact Hphone0 |].
          rewrite Hfresh in H. injection H as <-. reflexivity.
        + left. unfold d1 in H. cbn [users set_users] in H.
          now rewrite lookup_insert_ne in H by congruence.
      - assert (Hne : phone <> phone0) by (intros ->; congruence).
        right. unfold d1 in Hn. cbn [users set_users] in Hn.
        rewrite lookup_insert_ne in Hn by congruence.
        split; [exact Hn |]. exists t. split; [now right | exact H]. }
    split.
    { rewrite Hsize. unfold d1. cbn [users set_users].
      rewrite map_size_insert_None by exact Habsent. lia. }
    exact Hrest.
Qed.

End TrialSync.

(** X21.  The sync of the trial form adds and never overwrites: a row that
    is in the registry stays as it is, every submission with a valid number
    is in the registry afterwards, and each row that was added is a fresh
    trial row of the Elevate program in the Central zone, with no message
    counted, for one of the submissions.  The number synced is the number
    of rows added, synced and skipped add up to the submissions, and nothing
    is sent. *)
Theorem trial_sync_adds_without_overwriting (e : Env) (d : Db)
    (trialUsers : list WordPressSync.TrialUser) :
  let result := WordPressSync.syncTrialUsers e d trialUsers in
  let syncedCount := result.1.1 in
  let skippedCount := result.1.2 in
  syncedCount + skippedCount = Z.of_nat (List.length trialUsers)
  /\ Z.of_nat (size (users result.2)) = Z.of_nat (size (users d)) + syncedCount
  /\ (forall phone row, users d !! phone = Some row -> users result.2 !! phone = Some row)
  /\ (forall trialUser phone,
        In trialUser trialUsers ->
        WordPressSync.normalizePhoneNumber (WordPressSync.t_phone_number trialUser)
        = Some phone ->
        is_Some (users result.2 !! phone))
  /\ (forall phone row,
        users result.2 !! phone = Some row ->
        users d !! phone = Some row
        \/ (users d !! phone = None
            /\ exists trialUser,
                 In trialUser trialUsers
                 /\ WordPressSync.normalizePhoneNumber
                      (WordPressSync.t_phone_number trialUser) = Some phone
                 /\ row = mkUser "Elevate" "trial" 1 0 "trial" 0 1 0 (now e) None
                                 "America/Chicago" (WordPressSync.t_first_name trialUser)
                                 None None None (now e)))
  /\ outbox result.2 = outbox d
  /\ daily_limits result.2 = daily_limits d.
Proof.
  intros result syncedCount skippedCount.
  pose proof (syncTrialRows_spec e trialUsers d) as H. cbv zeta in H.
  unfold syncedCount, skippedCount, result, WordPressSync.syncTrialUsers.
  destruct (WordPressSync.syncTrialRows e d trialUsers) as [[synced skipped] d1].
  cbn [fst snd] in H |- *.
  destruct H as (_ & _ & Hsum & Hkept & Hadded & Horigin & Hsize & Hout & Hdaily & _).
  split; [exact Hsum |]. split; [exact Hsize |]. split; [exact Hkept |].
  split; [exact Hadded |]. split; [exact Horigin |]. split; [exact Hout | exact Hdaily].
Qed.


(** * Commands and the queues *)

Section CommandsAndQueues.

Lemma processMessageQueue_passes_by (clock : nat -> Env) (d : Db) (phone : string) :
  (forall row, users d !! phone = Some row -> notStoppedOrExpired row = false) ->
  let run := Scheduler.processMessageQueue clock d in
  users run.2 !! phone = users d !! phone /\ sentTo phone run.2 = sentTo phone d.
Proof.
  intros Hout run.
  set (d0 := logFunction d "info" "Starting timezone-aware scheduled message check").
  pose proof (checkUsers_local clock (Scheduler.getEligibleUsers d0)
                (getEligibleUsers_NoDup d0) 0%nat d0) as Hloop.
  unfold run, Scheduler.processMessageQueue. fold d0.
  destruct (Scheduler.checkUsers clock 0 (Scheduler.getEligibleUsers d0) d0)
    as [results d1].
  cbv zeta in Hloop. cbn [fst snd] in Hloop |- *.
  destruct Hloop as (_ & _ & Hother & _).
  apply (Hother phone). intros Hin.
  apply list_elem_of_fmap in Hin as ([phone' row] & Heq & Hin). cbn in Heq. subst phone'.
  apply list_elem_of_In, getEligibleUsers_spec in Hin as (Hrow & Hok).
  change (users d0) with (users d) in Hrow.
  rewrite (Hout row Hrow) in Hok. discriminate Hok.
Qed.

Lemma processIncomingMessage_reset (e : Env) (d : Db) (phoneNumber messageBody : string) :
  Js.toUpperCase (Js.trim messageBody) = "RESET" ->
  let phone := ResponseHandler.normalizePhoneNumber phoneNumber in
  let d0 := logFunction d "info"
              ("Received message from " +:+ phone +:+ ": " +:+ messageBody) in
  ResponseHandler.processIncomingMessage e d phoneNumber messageBody
  = match users d !! phone with
    | Some u =>
        if negb (String.eqb (user_type u) "subscriber") then
          (ResponseHandler.Handled "reset_denied" "Reset denied - trial user",
           push_outbox d0
             (mkOutbound phone
                "RESET is only available for subscribers. Upgrade at healthytext.com to access this feature!"
                "reset_denied"))
        else
          (ResponseHandler.Handled "reset" "User sequence reset successfully",
           push_outbox (ResponseHandler.resetUser e d0 phone)
             (mkOutbound phone
                ("Welcome back " +:+ Js.orElse (first_name u) EmptyString
                 +:+ "! Your Elevate sequence has been reset to message 1. Ready for a fresh start!")
                "reset_confirm"))
    | None =>
        (ResponseHandler.Handled "reset_denied" "Reset denied - trial user",
         push_outbox d0
           (mkOutbound phone
              "RESET is only available for subscribers. Upgrade at healthytext.com to access this feature!"
              "reset_denied"))
    end.
Proof.
  intros Hclean phone d0.
  unfold ResponseHandler.processIncomingMessage. rewrite Hclean. fold phone. fold d0.
  unfold ResponseHandler.handleSystemCommands, ResponseHandler.getUser.
  cbn [String.eqb Ascii.eqb Bool.eqb].
  change (users d0) with (users d).
  destruct (users d !! phone) as [u |]; [| reflexivity].
  destruct (String.eqb (user_type u) "subscriber"); reflexivity.
Qed.

End CommandsAndQueues.

(** X22.  STOP takes the sender out of both queues: the sender is not among
    the recipients the scheduler visits nor among those an injection is
    queued for, whatever the protocol, and a run of the scheduler sends the
    sender nothing and leaves the row alone.  START puts the sender back
    among the recipients the scheduler visits, at the sequence position and
    with the counters the sender had. *)
Theorem stop_withdraws_from_the_queues_start_restores (e e' : Env) (clock : nat -> Env)
    (d : Db) (phoneNumber stopBody startBody program : string) (user : User) :
  let phone := ResponseHandler.normalizePhoneNumber phoneNumber in
  users d !! phone = Some user ->
  Js.toUpperCase (Js.trim stopBody) = "STOP" ->
  Js.toUpperCase (Js.trim startBody) = "START" ->
  let stopped := (ResponseHandler.processIncomingMessage e d phoneNumber stopBody).2 in
  let run := Scheduler.processMessageQueue clock stopped in
  let resumed :=
    (ResponseHandler.processIncomingMessage e' stopped phoneNumber startBody).2 in
  (forall row, ~ In (phone, row) (Scheduler.getEligibleUsers stopped))
  /\ (forall row, ~ In (phone, row) (Injector.getActiveUsers stopped program))
  /\ users run.2 !! phone = users stopped !! phone
  /\ sentTo phone run.2 = sentTo phone stopped
  /\ exists row,
       In (phone, row) (Scheduler.getEligibleUsers resumed)
       /\ current_sequence_position row = current_sequence_position user
       /\ trial_messages_sent row = trial_messages_sent user
       /\ total_messages_sent row = total_messages_sent user
       /\ last_message_sent row = last_message_sent user.
Proof.
  intros phone Huser Hstop Hstart stopped run resumed.
  destruct (processIncomingMessage_stop e d phoneNumber stopBody Hstop) as (_ & Husers).
  fold phone in Husers. fold stopped in Husers.
  assert (Hrow : users stopped !! phone
                 = Some (ResponseHandler.stoppedRow (now e) user)).
  { rewrite Husers, lookup_alter_eq, Huser. reflexivity. }
  assert (Hout : forall row, users stopped !! phone = Some row ->
                             notStoppedOrExpired row = false).
  { intros row H. rewrite Hrow in H. injection H as <-. reflexivity. }
  split.
  { intros row Hin. apply getEligibleUsers_spec in Hin as (H & Hok).
    rewrite (Hout row H) in Hok. discriminate Hok. }
  split.
  { intros row Hin. apply getActiveUsers_spec in Hin as (H & Hok & _).
    rewrite (Hout row H) in Hok. discriminate Hok. }
  destruct (processMessageQueue_passes_by clock stopped phone Hout) as (Hkept & Hsent).
  split; [exact Hkept |]. split; [exact Hsent |].
  destruct (processIncomingMessage_start e' stopped phoneNumber startBody Hstart)
    as (_ & Husers').
  fold phone in Husers'. fold resumed in Husers'.
  exists (ResponseHandler.startedRow (now e') (ResponseHandler.stoppedRow (now e) user)).
  split; [| repeat split].
  apply getEligibleUsers_spec. split.
  - rewrite Husers', lookup_alter_eq, Hrow. reflexivity.
  - unfold notStoppedOrExpired.
    cbn [ResponseHandler.startedRow ResponseHandler.stoppedRow subscription_status user_type].
    destruct (String.eqb (user_type user) "trial"); reflexivity.
Qed.

Lemma stop_withdraws_from_the_queues_start_restores_witness :
  let since := newYearNoon - 3600000 in
  let stopped :=
    (ResponseHandler.processIncomingMessage atNoon (janeDb "2" since) janePhone "stop").2 in
  let run := Scheduler.processMessageQueue (fun _ => mondayAfternoon) stopped in
  Scheduler.getEligibleUsers (janeDb "2" since) = [(janePhone, jane "2" since)]
  /\ Scheduler.getEligibleUsers stopped = []
  /\ sentTo janePhone run.2 = sentTo janePhone stopped.
Proof.
  intros since stopped run.
  split; [reflexivity |]. split; [reflexivity |].
  destruct (stop_withdraws_from_the_queues_start_restores atNoon mondayAfternoon
              (fun _ => mondayAfternoon) (janeDb "2" since) janePhone "stop" "START" "ALL"
              (jane "2" since) eq_refl eq_refl eq_refl)
    as (_ & _ & _ & Hsent & _).
  exact Hsent.
Defined.

(** X23.  RESET from a subscriber puts the row at sequence position 1 with
    no trial message counted and the status active, whatever the status
    was, and confirms it with one message.  Total count and last send stay,
    so the scheduler, which visits the sender again, is next due with
    message 1 of the sequence, one whole day after the last send.  RESET
    from anyone else is denied with one message and changes no row. *)
Theorem reset_restarts_the_sequence (e : Env) (d : Db) (phoneNumber body : string)
    (user : User) :
  let phone := ResponseHandler.normalizePhoneNumber phoneNumber in
  users d !! phone = Some user ->
  Js.toUpperCase (Js.trim body) = "RESET" ->
  let reply := ResponseHandler.processIncomingMessage e d phoneNumber body in
  (forall other, other <> phone -> users reply.2 !! other = users d !! other)
  /\ (user_type user = "subscriber" ->
      ResponseHandler.action reply.1 = Some "reset"
      /\ outbox reply.2
         = (outbox d ++ [mkOutbound phone
              ("Welcome back " +:+ Js.orElse (first_name user) EmptyString
               +:+ "! Your Elevate sequence has been reset to message 1. Ready for a fresh start!")
              "reset_confirm"])%list
      /\ exists row,
           users reply.2 !! phone = Some row
           /\ current_sequence_position row = 1
           /\ trial_messages_sent row = 0
           /\ subscription_status row = "active"
           /\ total_messages_sent row = total_messages_sent user
           /\ last_message_sent row = last_message_sent user
           /\ In (phone, row) (Scheduler.getEligibleUsers reply.2)
           /\ forall e',
                Scheduler.isUserDueForMessage e' row
                = if Scheduler.daysSinceLastMessage e' user >=? 1
                  then Scheduler.Due "sequence" (Scheduler.PosNumber 1) None
                  else Scheduler.notDueYet)
  /\ (user_type user <> "subscriber" ->
      ResponseHandler.action reply.1 = Some "reset_denied"
      /\ users reply.2 = users d
      /\ exists text,
           outbox reply.2 = (outbox d ++ [mkOutbound phone text "reset_denied"])%list).
Proof.
  intros phone Huser Hreset reply.
  pose proof (processIncomingMessage_reset e d phoneNumber body Hreset) as H.
  cbv zeta in H. fold phone in H. fold reply in H. rewrite Huser in H.
  destruct (String.eqb_spec (user_type user) "subscriber") as [Htype | Htype];
    cbn [negb] in H; rewrite H; cbn [fst snd].
  - split; [intros other Hne; cbn; now apply lookup_alter_ne |].
    split; [| intros Hno; contradiction].
    intros _. split; [reflexivity |]. split; [reflexivity |].
    exists (ResponseHandler.resetRow (now e) user).
    assert (Hrow : users
                     (push_outbox
                        (ResponseHandler.resetUser e
                           (logFunction d "info"
                              ("Received message from " +:+ phone +:+ ": " +:+ body)) phone)
                        (mkOutbound phone
                           ("Welcome back " +:+ Js.orElse (first_name user) EmptyString
                            +:+ "! Your Elevate sequence has been reset to message 1. Ready for a fresh start!")
                           "reset_confirm")) !! phone
                   = Some (ResponseHandler.resetRow (now e) user)).
    { cbn. now rewrite lookup_alter_eq, Huser. }
    split; [exact Hrow |].
    do 5 (split; [reflexivity |]).
    split; [apply getEligibleUsers_spec; split; [exact Hrow | reflexivity] |].
    intros e'. unfold Scheduler.isUserDueForMessage.
    cbn [ResponseHandler.resetRow user_type current_sequence_position].
    rewrite Htype. reflexivity.
  - split; [auto |]. split; [intros Hyes; contradiction |].
    intros _. split; [reflexivity |]. split; [reflexivity |].
    eexists. reflexivity.
Qed.

Lemma reset_restarts_the_sequence_witness :
  let since := newYearNoon - 3600000 in
  let reply := ResponseHandler.processIncomingMessage atNoon (janeDb "2" since) janePhone "Reset" in
  ResponseHandler.action reply.1 = Some "reset"
  /\ (current_sequence_position <$> users reply.2 !! janePhone) = Some 1
  /\ (current_sequence_position <$> users (janeDb "2" since) !! janePhone) = Some 3.
Proof.
  intros since reply.
  destruct (reset_restarts_the_sequence atNoon (janeDb "2" since) janePhone "Reset"
              (jane "2" since) eq_refl eq_refl) as (_ & Hsubscriber & _).
  destruct (Hsubscriber eq_refl) as (Haction & _ & row & Hrow & Hposition & _).
  split; [exact Haction |].
  split; [| reflexivity].
  change (ResponseHandler.normalizePhoneNumber janePhone) with janePhone in Hrow.
  fold reply in Hrow. rewrite Hrow. cbn. now rewrite Hposition.
Defined.


(** * Personalisation *)

Section Named.

Lemma includes_brace_cons (c : ascii) (r : string) :
  Js.includes (String c r) "{" = false -> c <> "{"%char /\ Js.includes r "{" = false.
Proof.
  cbn [Js.includes String.prefix].
  destruct (ascii_dec "{" c) as [<- | Hne].
  - destruct r; discriminate.
  - cbn [orb]. intros H. split; [congruence | exact H].
Qed.

Lemma prefix_placeholder_cons (c : ascii) (r : string) :
  c <> "{"%char -> String.prefix "{name}" (String c r) = false.
Proof.
  intros Hne. cbn [String.prefix].
  destruct (ascii_dec "{" c) as [Heq | _]; [congruence | reflexivity].
Qed.

Lemma replaceName_app (rep before rest : string) :
  Js.includes before "{" = false ->
  replaceName 0 rep (before +:+ rest) = before +:+ replaceName 0 rep rest.
Proof.
  induction before as [| c r IH]; intros H; [reflexivity |].
  apply includes_brace_cons in H as (Hne & H).
  change (String c r +:+ rest) with (String c (r +:+ rest)).
  cbn [replaceName]. rewrite (prefix_placeholder_cons c (r +:+ rest) Hne).
  now rewrite (IH H).
Qed.

Lemma replaceName_placeholder (rep rest : string) :
  replaceName 0 rep ("{name}" +:+ rest) = rep +:+ replaceName 0 rep rest.
Proof.
  change ("{name}" +:+ rest)
    with (String "{" (String "n" (String "a" (String "m" (String "e" (String "}" rest)))))).
  cbn [replaceName].
  assert (H : String.prefix "{name}"
                (String "{" (String "n" (String "a" (String "m" (String "e"
                   (String "}" rest)))))) = true).
  { cbn [String.prefix].
    repeat match goal with
           | |- context [ascii_dec ?a ?a] =>
               destruct (ascii_dec a a) as [_ | Hne]; [| now destruct Hne]
           end.
    now destruct rest. }
  rewrite H. reflexivity.
Qed.

Lemma append_empty_r (s : string) : s +:+ EmptyString = s.
Proof.
  induction s as [| c r IH]; [reflexivity |].
  change (String c r +:+ EmptyString) with (String c (r +:+ EmptyString)).
  now rewrite IH.
Qed.

End Named.

(** X24.  For a recipient with a first name (one without a dollar sign,
    which the replacement would interpret), personalising a text that has
    no opening brace returns the text, and in a text that reaches its first
    opening brace with the placeholder the placeholder gives way to the
    name, nothing before it changes, and the rest is personalised in the
    same way. *)
Theorem named_personalisation (name : string) :
  name <> EmptyString ->
  Js.includes name "$" = false ->
  (forall text,
      Js.includes text "{" = false ->
      personalizeMessage (Some text) (Some name) = text)
  /\ (forall before rest,
        Js.includes before "{" = false ->
        personalizeMessage (Some (before +:+ "{name}" +:+ rest)) (Some name)
        = before +:+ name +:+ personalizeMessage (Some rest) (Some name)).
Proof.
  intros Hname _.
  assert (Htruthy : Js.truthy (Some name) = true).
  { cbn. destruct (String.eqb_spec name EmptyString); [contradiction | reflexivity]. }
  assert (Hunfold : forall text,
             personalizeMessage (Some text) (Some name) = replaceName 0 name text).
  { intros text. unfold personalizeMessage. rewrite Htruthy.
    cbn [Js.truthy default from_option Datatypes.id].
    destruct (String.eqb_spec text EmptyString) as [-> | _]; reflexivity. }
  split.
  - intros text Hplain. rewrite Hunfold.
    rewrite <- (append_empty_r text) at 1.
    rewrite (replaceName_app name text EmptyString Hplain). apply append_empty_r.
  - intros before rest Hplain. rewrite !Hunfold.
    rewrite (replaceName_app name before _ Hplain). now rewrite replaceName_placeholder.
Qed.

Lemma named_personalisation_witness :
  personalizeMessage (Some "Good morning, {name}! Ready, {name}?") (Some "Sam")
  = "Good morning, " +:+ "Sam" +:+ personalizeMessage (Some "! Ready, {name}?") (Some "Sam")
  /\ personalizeMessage (Some "! Ready, {name}?") (Some "Sam") = "! Ready, Sam?".
Proof.
  destruct (named_personalisation "Sam") as (_ & Hplaceholder).
  - discriminate.
  - reflexivity.
  - split; [| reflexivity].
    apply (Hplaceholder "Good morning, " "! Ready, {name}?"). reflexivity.
Defined.

Section Nameless.

Lemma append_assoc' (a b c : string) : (a +:+ b) +:+ c = a +:+ (b +:+ c).
Proof.
  induction a as [| x r IH]; [reflexivity |].
  change (String x (r +:+ b) +:+ c = String x (r +:+ (b +:+ c))).
  change (String x ((r +:+ b) +:+ c) = String x (r +:+ (b +:+ c))). now rewrite IH.
Qed.

Lemma rev_onto_app (s acc : string) : Js.rev_onto s acc = Js.rev s +:+ acc.
Proof.
  unfold Js.rev. revert acc.
  induction s as [| c r IH]; intros acc; [reflexivity |].
  cbn [Js.rev_onto]. rewrite (IH (String c acc)), (IH (String c EmptyString)).
  now rewrite append_assoc'.
Qed.

Lemma rev_cons (c : ascii) (r : string) :
  Js.rev (String c r) = Js.rev r +:+ String c EmptyString.
Proof. unfold Js.rev at 1. cbn [Js.rev_onto]. apply rev_onto_app. Qed.

Lemma rev_snoc (s : string) (c : ascii) :
  Js.rev (s +:+ String c EmptyString) = String c (Js.rev s).
Proof.
  induction s as [| x r IH]; [reflexivity |].
  change (String x r +:+ String c EmptyString) with (String x (r +:+ String c EmptyString)).
  rewrite !rev_cons, IH. reflexivity.
Qed.

Lemma rev_rev (s : string) : Js.rev (Js.rev s) = s.
Proof.
  induction s as [| c r IH]; [reflexivity |].
  now rewrite rev_cons, rev_snoc, IH.
Qed.

Lemma startsClean_trimStart (s : string) : startsClean (Js.trimStart s) = true.
Proof.
  induction s as [| c r IH]; [reflexivity |].
  cbn [Js.trimStart]. destruct (Js.isSpace c) eqn:Hc; [exact IH |].
  change (negb (Js.isSpace c) = true). now rewrite Hc.
Qed.

Lemma singleBlanks_tail (c : ascii) (r : string) :
  singleBlanks (String c r) = true -> singleBlanks r = true.
Proof. cbn [singleBlanks]. intros H. now apply andb_prop in H. Qed.

Lemma singleBlanks_trimStart (s : string) :
  singleBlanks s = true -> singleBlanks (Js.trimStart s) = true.
Proof.
  induction s as [| c r IH]; intros H; [reflexivity |].
  cbn [Js.trimStart]. destruct (Js.isSpace c); [| exact H].
  apply IH. now apply singleBlanks_tail in H.
Qed.

Lemma singleBlanks_rev_onto (s acc : string) :
  singleBlanks s = true -> singleBlanks acc = true ->
  startsClean s = true \/ startsClean acc = true ->
  singleBlanks (Js.rev_onto s acc) = true.
Proof.
  revert acc. induction s as [| c r IH]; intros acc Hs Hacc Hjoin; [exact Hacc |].
  cbn [Js.rev_onto]. cbn [singleBlanks] in Hs. apply andb_prop in Hs as (Hc & Hr).
  apply IH; [exact Hr | |].
  - cbn [singleBlanks]. rewrite Hacc, andb_true_r.
    destruct (Js.isSpace c) eqn:Hspace; [| reflexivity].
    cbn [negb orb] in Hc |- *. apply andb_prop in Hc as (Hblank & _). rewrite Hblank.
    cbn [andb]. destruct Hjoin as [Hjoin | Hjoin]; [| exact Hjoin].
    cbn [startsClean] in Hjoin. rewrite Hspace in Hjoin. discriminate Hjoin.
  - destruct (Js.isSpace c) eqn:Hspace.
    + left. cbn [negb orb] in Hc. now apply andb_prop in Hc.
    + right. cbn [startsClean]. now rewrite Hspace.
Qed.

Lemma singleBlanks_rev (s : string) :
  singleBlanks s = true -> singleBlanks (Js.rev s) = true.
Proof. intros H. apply singleBlanks_rev_onto; [exact H | reflexivity | now right]. Qed.

Lemma trimStart_snoc (s : string) (c : ascii) :
  Js.isSpace c = false ->
  exists kept, Js.trimStart (s +:+ String c EmptyString) = kept +:+ String c EmptyString.
Proof.
  intros Hc. induction s as [| x r IH].
  - exists EmptyString.
    change (EmptyString +:+ String c EmptyString) with (String c EmptyString).
    cbn [Js.trimStart]. now rewrite Hc.
  - change (String x r +:+ String c EmptyString) with (String x (r +:+ String c EmptyString)).
    cbn [Js.trimStart]. destruct (Js.isSpace x); [exact IH |].
    exists (String x r). reflexivity.
Qed.

(** Trimming the end keeps a clean start. *)
Lemma startsClean_trimEnd (s : string) :
  startsClean s = true -> startsClean (Js.rev (Js.trimStart (Js.rev s))) = true.
Proof.
  destruct s as [| c r]; [reflexivity |].
  cbn [startsClean]. intros Hc. apply negb_true_iff in Hc.
  rewrite rev_cons. destruct (trimStart_snoc (Js.rev r) c Hc) as (kept & ->).
  rewrite rev_snoc. cbn [startsClean]. now rewrite Hc.
Qed.

Lemma singleBlanks_collapseSpaces (s : string) :
  forall inrun : bool,
    singleBlanks (collapseSpaces inrun s) = true
    /\ (inrun = true -> startsClean (collapseSpaces inrun s) = true).
Proof.
  induction s as [| c r IH]; intros inrun; [split; reflexivity |].
  cbn [collapseSpaces]. destruct (Js.isSpace c) eqn:Hc.
  - destruct (IH true) as (Hsingle & Hclean). destruct inrun.
    + split; [exact Hsingle | intros _; now apply Hclean].
    + split; [| discriminate].
      cbn [singleBlanks]. rewrite Hsingle, (Hclean eq_refl). reflexivity.
  - destruct (IH false) as (Hsingle & _).
    split; [| intros _; cbn [startsClean]; now rewrite Hc].
    cbn [singleBlanks]. now rewrite Hc, Hsingle.
Qed.

End Nameless.

(** X25.  For a recipient without a first name the personalised text is
    tidy whatever the template: it neither starts nor ends with white
    space, every white-space character in it is a blank, and no two blanks
    are neighbours. *)
Theorem nameless_personalisation_is_tidy (messageText name : option string) :
  Js.truthy name = false ->
  let text := personalizeMessage messageText name in
  startsClean text = true
  /\ startsClean (Js.rev text) = true
  /\ singleBlanks text = true.
Proof.
  intros Hname text. unfold text, personalizeMessage. rewrite Hname.
  destruct (Js.truthy messageText); cbn [negb]; [| repeat split].
  set (collapsed := collapseSpaces false (stripName 0 false (default EmptyString messageText))).
  destruct (singleBlanks_collapseSpaces
              (stripName 0 false (default EmptyString messageText)) false) as (Hsingle & _).
  fold collapsed in Hsingle. unfold Js.trim.
  split; [apply startsClean_trimEnd, startsClean_trimStart |].
  split; [rewrite rev_rev; apply startsClean_trimStart |].
  apply singleBlanks_rev, singleBlanks_trimStart, singleBlanks_rev, singleBlanks_trimStart.
  exact Hsingle.
Qed.

Lemma nameless_personalisation_is_tidy_witness :
  personalizeMessage (Some "  Hello {name},   how are  you today, {name} ? ") None
  = "Hello how are you today, ?"
  /\ singleBlanks (personalizeMessage
                     (Some "  Hello {name},   how are  you today, {name} ? ") None) = true.
Proof.
  split; [reflexivity |].
  destruct (nameless_personalisation_is_tidy
              (Some "  Hello {name},   how are  you today, {name} ? ") None eq_refl)
    as (_ & _ & Hsingle).
  exact Hsingle.
Defined.
